(** * Decision engine of the forex analyzer: signals, momentum, consensus,
      ensemble voting and trade planning.

    The Python sources compute on binary floating point numbers.  This
    development reads every finite float as the exact rational it denotes
    and performs the arithmetic in [Q]; results are therefore stated up to
    [Qeq] and do not speak about the last-bit rounding of the machine
    arithmetic.  The values that are not rationals are kept apart:
    a NaN cell of a data frame is [None] (see [cell]), and a float quotient
    with a zero divisor, which numpy evaluates to inf or nan without
    raising, is [None] as well (see [fdiv]) or ends the computation in
    [NonFinite] where the source goes on computing with it.

    Dictionaries with a fixed layout become records, dictionaries that are
    looked up by key become [gmap string _], and dictionaries that are
    iterated become association lists in insertion order. *)

From Stdlib Require Import QArith Qround Qabs Qminmax Lqa ZArith Lia List
  Permutation.
From stdpp Require Import base option gmap strings pretty.
Import ListNotations.

Local Open Scope Q_scope.

(** ** Numbers *)

Definition Qltb (x y : Q) : bool := negb (Qle_bool y x).
Definition Qgtb (x y : Q) : bool := Qltb y x.
Definition Qleb (x y : Q) : bool := Qle_bool x y.
Definition Qgeb (x y : Q) : bool := Qle_bool y x.
Definition Qeqb (x y : Q) : bool := Qeq_bool x y.

(** A count as a float. *)
Definition Qnat (n : nat) : Q := inject_Z (Z.of_nat n).

Definition Qsum (l : list Q) : Q := fold_right Qplus 0 l.

(** A float quotient: [None] stands for the inf or nan that a zero divisor
    produces. *)
Definition fdiv (x y : Q) : option Q :=
  if Qeqb y 0 then None else Some (x / y).

(** Python's [round(x)] to an integer: ties go to the even neighbour. *)
Definition round_half_even (x : Q) : Z :=
  let n := Qfloor x in
  match Qcompare (x - inject_Z n) (1 # 2) with
  | Lt => n
  | Gt => (n + 1)%Z
  | Eq => if Z.even n then n else (n + 1)%Z
  end.

(** Python's [round(x, ndigits)]. *)
Definition py_round (x : Q) (ndigits : nat) : Q :=
  let scale := inject_Z (10 ^ Z.of_nat ndigits) in
  inject_Z (round_half_even (x * scale)) / scale.

(** ** Signals, exceptions and outcomes *)

Inductive Signal := BUY | SELL | HOLD.

Definition Signal_eqb (a b : Signal) : bool :=
  match a, b with
  | BUY, BUY | SELL, SELL | HOLD, HOLD => true
  | _, _ => false
  end.

Inductive exn :=
| KeyError (key : string)
| IndexError
| ZeroDivisionError.

(** What a call does: it returns, it raises, or it leaves the rationals
    (a float inf or nan enters the arithmetic). *)
Inductive outcome (A : Type) :=
| Ok (a : A)
| Raise (e : exn)
| NonFinite.
Arguments Ok {A} a.
Arguments Raise {A} e.
Arguments NonFinite {A}.

#[global] Instance outcome_ret : MRet outcome := fun A a => Ok a.

#[global] Instance outcome_bind : MBind outcome := fun A B k m =>
  match m with
  | Ok a => k a
  | Raise e => Raise e
  | NonFinite => NonFinite
  end.

(** ** Data frames

    A frame has an index of [index_len] rows and named columns; a cell is a
    float, [None] being NaN.  Every comparison with NaN is false. *)

Definition cell := option Q.

Record DataFrame := {
  index_len : nat;
  columns : gmap string (list cell)
}.

(** [df[name]] *)
Definition column (df : DataFrame) (name : string) : outcome (list cell) :=
  match columns df !! name with
  | Some c => Ok c
  | None => Raise (KeyError name)
  end.

(** ['name' in df.columns] *)
Definition has_column (df : DataFrame) (name : string) : bool :=
  bool_decide (is_Some (columns df !! name)).

(** [series.iloc[-k]] for [k >= 1] *)
Definition iloc_back (c : list cell) (k : nat) : outcome cell :=
  if (k <=? length c)%nat
  then match nth_error c (length c - k) with
       | Some v => Ok v
       | None => Raise IndexError
       end
  else Raise IndexError.

Definition cell_lt (a b : cell) : bool :=
  match a, b with Some x, Some y => Qltb x y | _, _ => false end.
Definition cell_gt (a b : cell) : bool := cell_lt b a.
Definition cell_le (a b : cell) : bool :=
  match a, b with Some x, Some y => Qleb x y | _, _ => false end.
Definition cell_ge (a b : cell) : bool := cell_le b a.
Definition cell_add (a b : cell) : cell :=
  match a, b with Some x, Some y => Some (x + y) | _, _ => None end.
Definition cell_sub (a b : cell) : cell :=
  match a, b with Some x, Some y => Some (x - y) | _, _ => None end.

(** ** Risk management ([src/risk/risk_manager.py]) *)

Module Risk.

(** The manager keeps the two configuration sections it reads and the
    running drawdown. *)
Record RiskManager := {
  risk_config : gmap string Q;
  confluence_config : gmap string Q;
  current_drawdown : Q
}.

(** The two dictionaries [calculate_position_size] can return.  The entry
    price reaches the sizing as a numpy float (the last Close of a frame,
    or a value derived from a column), so the percentage of a zero entry
    is a non-finite float, [None], and not an exception. *)
Inductive PositionSize :=
| InvalidStopLoss (position_size risk_amount : Q) (error : string)
| Sized (position_size_units position_size_lots risk_amount
         risk_percentage stop_loss_distance : Q) (stop_loss_pct : option Q).

(** The fraction of the balance at risk: the argument, or else the
    configured value, or else 2%. *)
Definition risk_fraction (self : RiskManager) (risk_per_trade : option Q) : Q :=
  match risk_per_trade with
  | Some r => r
  | None => default 0.02 (risk_config self !! "risk_per_trade")
  end.

Definition calculate_position_size (self : RiskManager)
    (account_balance entry_price stop_loss_price : Q)
    (risk_per_trade : option Q) : PositionSize :=
  let risk_per_trade := risk_fraction self risk_per_trade in
  let risk_amount := account_balance * risk_per_trade in
  let price_diff := Qabs (entry_price - stop_loss_price) in
  if Qeqb price_diff 0 then
    InvalidStopLoss 0 0 "Invalid stop loss"
  else
    let position_size := risk_amount / price_diff in
    let standard_lot := 100000 in
    let lots := position_size / standard_lot in
    Sized position_size lots risk_amount (risk_per_trade * 100) price_diff
          (option_map (fun q => q * 100) (fdiv price_diff entry_price)).

Definition calculate_stop_loss (self : RiskManager) (df : DataFrame)
    (entry_price : Q) (signal : Signal) (atr_multiplier : option Q)
    : outcome Q :=
  if negb (has_column df "ATR") then
    if Signal_eqb signal BUY then Ok (entry_price * 0.98)
    else Ok (entry_price * 1.02)
  else
    let atr_multiplier :=
      match atr_multiplier with
      | Some m => m
      | None => default 2.0 (risk_config self !! "atr_multiplier")
      end in
    col ← column df "ATR";
    atr ← iloc_back col 1;
    match atr with
    | None => NonFinite
    | Some atr =>
        let stop_distance := atr * atr_multiplier in
        if Signal_eqb signal BUY then Ok (entry_price - stop_distance)
        else Ok (entry_price + stop_distance)
    end.

Definition calculate_take_profit (self : RiskManager)
    (entry_price stop_loss_price : Q) (signal : Signal)
    (risk_reward_ratio : option Q) : Q :=
  let risk_reward_ratio :=
    match risk_reward_ratio with
    | Some r => r
    | None => default 1.5 (risk_config self !! "min_risk_reward")
    end in
  let stop_distance := Qabs (entry_price - stop_loss_price) in
  let profit_distance := stop_distance * risk_reward_ratio in
  if Signal_eqb signal BUY then entry_price + profit_distance
  else entry_price - profit_distance.

(** The reasons are formatted strings in the source; their contents are
    kept as data. *)
Inductive Reason :=
| SignalIsHold
| ConfidenceBelowMinimum (confidence min_confidence : Q)
| DrawdownExceedsLimit (drawdown max_drawdown : Q)
| AllRiskChecksPassed.

Record Validation := { approved : bool; reasons : list Reason }.

Definition validate_trade (self : RiskManager) (signal : Signal)
    (confidence account_balance : Q) : Validation :=
  if Signal_eqb signal HOLD then
    {| approved := false; reasons := [SignalIsHold] |}
  else
    let min_confidence :=
      default 0.6 (confluence_config self !! "min_confidence") in
    let '(approved1, reasons1) :=
      if Qltb confidence min_confidence
      then (false, [ConfidenceBelowMinimum confidence min_confidence])
      else (true, []) in
    let max_drawdown := default 0.15 (risk_config self !! "max_drawdown") in
    let '(approved2, reasons2) :=
      if Qgtb (current_drawdown self) max_drawdown
      then (false,
            reasons1 ++ [DrawdownExceedsLimit (current_drawdown self) max_drawdown])
      else (approved1, reasons1) in
    {| approved := approved2;
       reasons := if approved2 then reasons2 ++ [AllRiskChecksPassed]
                  else reasons2 |}.

Record ApprovedPlan := {
  plan_signal : Signal;
  plan_confidence : Q;
  plan_entry_price : Q;
  plan_stop_loss : Q;
  plan_take_profit : Q;
  plan_position_size_lots : Q;
  plan_position_size_units : Q;
  plan_risk_amount : Q;
  plan_risk_percentage : Q;
  plan_potential_profit : Q;
  plan_potential_loss : Q;
  plan_risk_reward_ratio : option Q;
  plan_timestamp : Z
}.

Inductive TradePlan :=
| Rejected (signal : Signal) (why : list Reason)
| Approved (plan : ApprovedPlan).

(** [position_info[key]] for the keys of the sized dictionary: the error
    dictionary has none of them. *)
Definition sized_fields (key : string) (p : PositionSize)
    : outcome (Q * Q * Q * Q) :=
  match p with
  | InvalidStopLoss _ _ _ => Raise (KeyError key)
  | Sized units lots risk pct _ _ => Ok (units, lots, risk, pct)
  end.

(** [now] is the reading of the clock that stamps the plan. *)
Definition create_trade_plan (self : RiskManager) (signal : Signal)
    (entry_price confidence account_balance : Q) (df : DataFrame)
    (now : Z) : outcome TradePlan :=
  let validation := validate_trade self signal confidence account_balance in
  if negb (approved validation) then
    Ok (Rejected signal (reasons validation))
  else
    stop_loss ← calculate_stop_loss self df entry_price signal None;
    let take_profit :=
      calculate_take_profit self entry_price stop_loss signal None in
    let position_info :=
      calculate_position_size self account_balance entry_price stop_loss None in
    '(units, lots, risk, pct) ← sized_fields "position_size_lots" position_info;
    Ok (Approved {|
      plan_signal := signal;
      plan_confidence := confidence;
      plan_entry_price := entry_price;
      plan_stop_loss := stop_loss;
      plan_take_profit := take_profit;
      plan_position_size_lots := lots;
      plan_position_size_units := units;
      plan_risk_amount := risk;
      plan_risk_percentage := pct;
      plan_potential_profit := Qabs (take_profit - entry_price) * units;
      plan_potential_loss := risk;
      plan_risk_reward_ratio :=
        fdiv (Qabs (take_profit - entry_price)) (Qabs (stop_loss - entry_price));
      plan_timestamp := now
    |}).

(** One rung of the stop-loss ladder. *)
Record StopLevel := {
  sl_price : Q;
  sl_description : string;
  sl_risk_pct : option Q;
  sl_atr_multiple : option Z;
  sl_recommended : bool;
  sl_type : option string
}.

Definition atr_stop (price : Q) (description : string) (entry_price atr : Q)
    (multiple : Z) (recommended : bool) : StopLevel :=
  {| sl_price := price;
     sl_description := description;
     sl_risk_pct :=
       option_map (fun q => py_round (q * 100) 2)
                  (fdiv (inject_Z multiple * atr) entry_price);
     sl_atr_multiple := Some multiple;
     sl_recommended := recommended;
     sl_type := None |}.

Definition pct_stop (price : Q) (description : string) (risk_pct : Q)
    : StopLevel :=
  {| sl_price := price;
     sl_description := description;
     sl_risk_pct := Some risk_pct;
     sl_atr_multiple := None;
     sl_recommended := false;
     sl_type := Some "percentage" |}.

Definition _calculate_multiple_stop_losses (entry_price : Q) (signal : Signal)
    (atr : Q) : list (string * StopLevel) :=
  if Signal_eqb signal BUY then
    [ ("tight_1atr",
       atr_stop (py_round (entry_price - 1 * atr) 5)
         "Tight stop - Quick exit if wrong" entry_price atr 1 false);
      ("standard_2atr",
       atr_stop (py_round (entry_price - 2 * atr) 5)
         "Standard stop - Recommended (allows normal volatility)"
         entry_price atr 2 true);
      ("wide_3atr",
       atr_stop (py_round (entry_price - 3 * atr) 5)
         "Wide stop - More breathing room" entry_price atr 3 false);
      ("percentage_2pct",
       pct_stop (py_round (entry_price * 0.98) 5) "2% fixed stop loss" 2.0);
      ("percentage_3pct",
       pct_stop (py_round (entry_price * 0.97) 5) "3% fixed stop loss" 3.0) ]
  else
    [ ("tight_1atr",
       atr_stop (py_round (entry_price + 1 * atr) 5)
         "Tight stop - Quick exit if wrong" entry_price atr 1 false);
      ("standard_2atr",
       atr_stop (py_round (entry_price + 2 * atr) 5)
         "Standard stop - Recommended (allows normal volatility)"
         entry_price atr 2 true);
      ("wide_3atr",
       atr_stop (py_round (entry_price + 3 * atr) 5)
         "Wide stop - More breathing room" entry_price atr 3 false);
      ("percentage_2pct",
       pct_stop (py_round (entry_price * 1.02) 5) "2% fixed stop loss" 2.0);
      ("percentage_3pct",
       pct_stop (py_round (entry_price * 1.03) 5) "3% fixed stop loss" 3.0) ].

(** One rung of the take-profit ladder. *)
Record TargetLevel := {
  tp_price : Q;
  tp_description : string;
  tp_gain_pct : option Q;
  tp_atr_multiple : Z;
  tp_position_close_pct : Z;
  tp_recommended : bool
}.

Definition atr_target (price : Q) (description : string) (entry_price atr : Q)
    (multiple : Z) (recommended : bool) : TargetLevel :=
  {| tp_price := price;
     tp_description := description;
     tp_gain_pct :=
       option_map (fun q => py_round (q * 100) 2)
                  (fdiv (inject_Z multiple * atr) entry_price);
     tp_atr_multiple := multiple;
     tp_position_close_pct := 25;
     tp_recommended := recommended |}.

Definition _calculate_multiple_take_profits (entry_price : Q) (signal : Signal)
    (atr : Q) : list (string * TargetLevel) :=
  if Signal_eqb signal BUY then
    [ ("tp1_quick",
       atr_target (py_round (entry_price + 1 * atr) 5)
         "Quick profit - Scalp (Close 25% position)" entry_price atr 1 false);
      ("tp2_conservative",
       atr_target (py_round (entry_price + 2 * atr) 5)
         "Conservative target (Close 25% position)" entry_price atr 2 true);
      ("tp3_moderate",
       atr_target (py_round (entry_price + 3 * atr) 5)
         "Moderate target (Close 25% position)" entry_price atr 3 false);
      ("tp4_aggressive",
       atr_target (py_round (entry_price + 5 * atr) 5)
         "Aggressive target (Close remaining 25%)" entry_price atr 5 false) ]
  else
    [ ("tp1_quick",
       atr_target (py_round (entry_price - 1 * atr) 5)
         "Quick profit - Scalp (Close 25% position)" entry_price atr 1 false);
      ("tp2_conservative",
       atr_target (py_round (entry_price - 2 * atr) 5)
         "Conservative target (Close 25% position)" entry_price atr 2 true);
      ("tp3_moderate",
       atr_target (py_round (entry_price - 3 * atr) 5)
         "Moderate target (Close 25% position)" entry_price atr 3 false);
      ("tp4_aggressive",
       atr_target (py_round (entry_price - 5 * atr) 5)
         "Aggressive target (Close remaining 25%)" entry_price atr 5 false) ].




End Risk.

(** ** Indicator signal rules ([src/indicators/technical_indicators.py],
       class [SignalGenerator]) *)

Module Indicators.

(** [df[name].iloc[-k]] *)
Definition at_back (df : DataFrame) (name : string) (k : nat) : outcome cell :=
  c ← column df name; iloc_back c k.

Definition num (q : Q) : cell := Some q.

Definition ma_crossover_signal (df : DataFrame) (fast_period slow_period : nat)
    : outcome Signal :=
  if (index_len df <? 2)%nat then Ok HOLD else
  let fast_col := "MA_" +:+ pretty fast_period in
  let slow_col := "MA_" +:+ pretty slow_period in
  if negb (has_column df fast_col) || negb (has_column df slow_col) then Ok HOLD
  else
    fast_current ← at_back df fast_col 1;
    fast_prev ← at_back df fast_col 2;
    slow_current ← at_back df slow_col 1;
    slow_prev ← at_back df slow_col 2;
    price_current ← at_back df "Close" 1;
    if cell_le fast_prev slow_prev && cell_gt fast_current slow_current then Ok BUY
    else if cell_ge fast_prev slow_prev && cell_lt fast_current slow_current
    then Ok SELL
    else if cell_gt fast_current slow_current && cell_gt price_current fast_current
    then Ok BUY
    else if cell_lt fast_current slow_current && cell_lt price_current fast_current
    then Ok SELL
    else Ok HOLD.

Definition ema_crossover_signal (df : DataFrame) (fast_period slow_period : nat)
    : outcome Signal :=
  if (index_len df <? 2)%nat then Ok HOLD else
  let fast_col := "EMA_" +:+ pretty fast_period in
  let slow_col := "EMA_" +:+ pretty slow_period in
  if negb (has_column df fast_col) || negb (has_column df slow_col) then Ok HOLD
  else
    fast_current ← at_back df fast_col 1;
    fast_prev ← at_back df fast_col 2;
    slow_current ← at_back df slow_col 1;
    slow_prev ← at_back df slow_col 2;
    price_current ← at_back df "Close" 1;
    if cell_le fast_prev slow_prev && cell_gt fast_current slow_current then Ok BUY
    else if cell_ge fast_prev slow_prev && cell_lt fast_current slow_current
    then Ok SELL
    else if cell_gt fast_current slow_current && cell_gt price_current fast_current
    then Ok BUY
    else if cell_lt fast_current slow_current && cell_lt price_current fast_current
    then Ok SELL
    else Ok HOLD.

Definition rsi_signal (df : DataFrame) (overbought oversold : Q)
    : outcome Signal :=
  if negb (has_column df "RSI") || (index_len df <? 2)%nat then Ok HOLD else
  rsi_current ← at_back df "RSI" 1;
  rsi_prev ← at_back df "RSI" 2;
  if cell_lt rsi_prev (num oversold) && cell_ge rsi_current (num oversold)
  then Ok BUY
  else if cell_gt rsi_prev (num overbought) && cell_le rsi_current (num overbought)
  then Ok SELL
  else if cell_lt rsi_current (num oversold) && cell_gt rsi_current rsi_prev
  then Ok BUY
  else if cell_gt rsi_current (num overbought) && cell_lt rsi_current rsi_prev
  then Ok SELL
  else if cell_lt rsi_current (num 50)
          && cell_gt rsi_current (cell_add rsi_prev (num 2))
  then Ok BUY
  else if cell_gt rsi_current (num 50)
          && cell_lt rsi_current (cell_sub rsi_prev (num 2))
  then Ok SELL
  else Ok HOLD.

Definition macd_signal (df : DataFrame) : outcome Signal :=
  if negb (has_column df "MACD") || (index_len df <? 2)%nat then Ok HOLD else
  macd_current ← at_back df "MACD" 1;
  macd_prev ← at_back df "MACD" 2;
  signal_current ← at_back df "MACD_Signal" 1;
  signal_prev ← at_back df "MACD_Signal" 2;
  hist_current ← at_back df "MACD_Hist" 1;
  hist_prev ← at_back df "MACD_Hist" 2;
  if cell_le macd_prev signal_prev && cell_gt macd_current signal_current
  then Ok BUY
  else if cell_ge macd_prev signal_prev && cell_lt macd_current signal_current
  then Ok SELL
  else if cell_gt macd_current signal_current && cell_gt hist_current hist_prev
  then Ok BUY
  else if cell_lt macd_current signal_current && cell_lt hist_current hist_prev
  then Ok SELL
  else Ok HOLD.

Definition stochastic_signal (df : DataFrame) (overbought oversold : Q)
    : outcome Signal :=
  if negb (has_column df "Stoch_K") || (index_len df <? 2)%nat then Ok HOLD else
  k_current ← at_back df "Stoch_K" 1;
  d_current ← at_back df "Stoch_D" 1;
  k_prev ← at_back df "Stoch_K" 2;
  d_prev ← at_back df "Stoch_D" 2;
  if cell_le k_prev d_prev && cell_gt k_current d_current
     && cell_lt k_current (num oversold)
  then Ok BUY
  else if cell_ge k_prev d_prev && cell_lt k_current d_current
          && cell_gt k_current (num overbought)
  then Ok SELL
  else if cell_lt k_current (num oversold) && cell_gt k_current d_current
  then Ok BUY
  else if cell_gt k_current (num overbought) && cell_lt k_current d_current
  then Ok SELL
  else if cell_gt k_current d_current && cell_gt k_current k_prev
          && cell_lt k_current (num 50)
  then Ok BUY
  else if cell_lt k_current d_current && cell_lt k_current k_prev
          && cell_gt k_current (num 50)
  then Ok SELL
  else Ok HOLD.

(** [config[key]] *)
Definition config_item (config : gmap string Q) (key : string) : outcome Q :=
  match config !! key with
  | Some v => Ok v
  | None => Raise (KeyError key)
  end.

Definition default_signal_config : gmap string Q :=
  <["rsi_overbought" := 70]> (<["rsi_oversold" := 30]> ∅).

Definition generate_all_signals (df : DataFrame)
    (config : option (gmap string Q)) : outcome (list (string * Signal)) :=
  let config := default default_signal_config config in
  ma_cross ← ma_crossover_signal df 20 50;
  ema_cross ← ema_crossover_signal df 12 26;
  rsi_overbought ← config_item config "rsi_overbought";
  rsi_oversold ← config_item config "rsi_oversold";
  rsi ← rsi_signal df rsi_overbought rsi_oversold;
  macd ← macd_signal df;
  stochastic ← stochastic_signal df 80 20;
  Ok [ ("ma_cross", ma_cross); ("ema_cross", ema_cross); ("rsi", rsi);
       ("macd", macd); ("stochastic", stochastic) ].

(** A frame is well formed when every column is as long as the index. *)
Definition well_formed (df : DataFrame) : Prop :=
  forall name c, columns df !! name = Some c -> length c = index_len df.

End Indicators.

(** ** Trend momentum and reversal detection
       ([src/analysis/trend_momentum.py]) *)

Module TrendMomentum.

Inductive Direction := BULLISH | BEARISH | NEUTRAL.

Definition Direction_eqb (a b : Direction) : bool :=
  match a, b with
  | BULLISH, BULLISH | BEARISH, BEARISH | NEUTRAL, NEUTRAL => true
  | _, _ => false
  end.

(** The functions of this module read the price columns of a frame row by
    row: a frame of candles, oldest first, with finite prices.  The Volume
    column may be missing. *)
Record Candle := { Open : Q; High : Q; Low : Q; Close : Q; Volume : Q }.

Record Candles := { rows : list Candle; has_volume : bool }.

(** [l[-k:]]; note that [l[-0:]] is all of [l]. *)
Definition iloc_last {A} (k : nat) (l : list A) : list A :=
  if (k =? 0)%nat then l else skipn (length l - k) l.

(** [l[-a:-b]]; a zero bound is the start of the list. *)
Definition iloc_window {A} (a b : nat) (l : list A) : list A :=
  let start := if (a =? 0)%nat then 0%nat else (length l - a)%nat in
  let stop := if (b =? 0)%nat then 0%nat else (length l - b)%nat in
  firstn (stop - start) (skipn start l).

(** [series.mean()]; the mean of no value is NaN. *)
Definition mean (l : list Q) : option Q := fdiv (Qsum l) (Qnat (length l)).

Definition is_bullish (c : Candle) : bool := Qgtb (Close c) (Open c).
Definition is_bearish (c : Candle) : bool := Qltb (Close c) (Open c).

(** [sum(1 for i in range(1, len(v)) if v[i] > v[i-1])] *)
Fixpoint count_rises (v : list Q) : nat :=
  match v with
  | a :: (b :: _) as rest => ((if Qgtb b a then 1 else 0) + count_rises rest)%nat
  | _ => 0%nat
  end.

(** [sum(1 for i in range(1, len(v)) if v[i] < v[i-1])] *)
Fixpoint count_falls (v : list Q) : nat :=
  match v with
  | a :: (b :: _) as rest => ((if Qltb b a then 1 else 0) + count_falls rest)%nat
  | _ => 0%nat
  end.

(** The keys that only the full result carries. *)
Record MomentumDetail := {
  price_change_pct : Q;
  bullish_candles : nat;
  bearish_candles : nat;
  higher_highs : nat;
  lower_lows : nat;
  volume_trend : option Q
}.

Record Momentum := {
  direction : Direction;
  strength : Q;
  consistency : Q;
  momentum_score : Q;
  detail : option MomentumDetail
}.

Definition calculate_trend_momentum (df : Candles) (lookback : nat)
    : outcome Momentum :=
  if (length (rows df) <? lookback)%nat then
    Ok {| direction := NEUTRAL; strength := 0.0; consistency := 0.0;
          momentum_score := 0.0; detail := None |}
  else
    let recent_df := iloc_last lookback (rows df) in
    let bullish_candles := length (List.filter is_bullish recent_df) in
    let bearish_candles := length (List.filter is_bearish recent_df) in
    match last (map Close recent_df), head (map Close recent_df) with
    | Some close_last, Some close_first =>
        let price_change := fdiv (close_last - close_first) close_first in
        let total_candles := length recent_df in
        let consistency :=
          Qnat (Nat.max bullish_candles bearish_candles) / Qnat total_candles in
        let highs := map High recent_df in
        let lows := map Low recent_df in
        let higher_highs := count_rises highs in
        let lower_lows := count_falls lows in
        let volume_trend :=
          if has_volume df then
            match mean (map Volume (iloc_last 5 recent_df)),
                  mean (map Volume (firstn 5 recent_df)) with
            | Some recent_mean, Some early_mean => fdiv recent_mean early_mean
            | _, _ => None
            end
          else Some 1.0 in
        let '(direction, strength) :=
          if Qgtb (Qnat bullish_candles) (Qnat bearish_candles * 1.5)
          then (BULLISH, Qnat bullish_candles / Qnat total_candles)
          else if Qgtb (Qnat bearish_candles) (Qnat bullish_candles * 1.5)
          then (BEARISH, Qnat bearish_candles / Qnat total_candles)
          else (NEUTRAL, 0.5) in
        if (total_candles - 1 =? 0)%nat then Raise ZeroDivisionError
        else
          match price_change with
          | None => NonFinite
          | Some price_change =>
              let price_momentum := price_change * 100 in
              let momentum_score :=
                consistency * 0.3 +
                Qabs price_momentum / 10 * 0.3 +
                strength * 0.2 +
                Qnat (if Direction_eqb direction BULLISH
                      then higher_highs else lower_lows)
                  / Qnat (total_candles - 1) * 0.2 in
              let momentum_score := Qmin momentum_score 1.0 in
              Ok {| direction := direction;
                    strength := strength;
                    consistency := consistency;
                    momentum_score := momentum_score;
                    detail := Some {|
                      price_change_pct := price_momentum;
                      bullish_candles := bullish_candles;
                      bearish_candles := bearish_candles;
                      higher_highs := higher_highs;
                      lower_lows := lower_lows;
                      volume_trend := volume_trend |} |}
          end
    | _, _ => Raise IndexError
    end.

Inductive ReversalType := NONE | BULLISH_TO_BEARISH | BEARISH_TO_BULLISH.
Inductive WarningLevel := LOW | MEDIUM | HIGH.

(** The keys that only the full result carries. *)
Record ReversalDetail := {
  previous_trend_strength : Q;
  recent_trend : Direction;
  recent_trend_strength : Q;
  historical_momentum : Momentum;
  recent_momentum : Momentum
}.

Record Reversal := {
  is_reversal : bool;
  reversal_strength : Q;
  reversal_type : ReversalType;
  previous_trend : Direction;
  warning_level : WarningLevel;
  segments : option ReversalDetail
}.

Definition warning_of (recent_consistency : Q) : WarningLevel :=
  if Qgtb recent_consistency 0.7 then HIGH
  else if Qgtb recent_consistency 0.5 then MEDIUM
  else LOW.

Definition detect_reversal (df : Candles)
    (recent_lookback historical_lookback : nat) : outcome Reversal :=
  if (length (rows df) <? historical_lookback + recent_lookback)%nat then
    Ok {| is_reversal := false; reversal_strength := 0.0;
          reversal_type := NONE; previous_trend := NEUTRAL;
          warning_level := LOW; segments := None |}
  else
    let historical_df :=
      {| rows := iloc_window (historical_lookback + recent_lookback)
                             recent_lookback (rows df);
         has_volume := has_volume df |} in
    historical_momentum ← calculate_trend_momentum historical_df historical_lookback;
    let recent_df :=
      {| rows := iloc_last recent_lookback (rows df);
         has_volume := has_volume df |} in
    recent_momentum ← calculate_trend_momentum recent_df recent_lookback;
    let '(is_reversal, reversal_strength, reversal_type, warning_level) :=
      if Qgtb (momentum_score historical_momentum) 0.6 then
        if Direction_eqb (direction historical_momentum) BULLISH
           && Direction_eqb (direction recent_momentum) BEARISH
        then (true, consistency recent_momentum, BULLISH_TO_BEARISH,
              warning_of (consistency recent_momentum))
        else if Direction_eqb (direction historical_momentum) BEARISH
                && Direction_eqb (direction recent_momentum) BULLISH
        then (true, consistency recent_momentum, BEARISH_TO_BULLISH,
              warning_of (consistency recent_momentum))
        else (false, 0.0, NONE, LOW)
      else (false, 0.0, NONE, LOW) in
    Ok {| is_reversal := is_reversal;
          reversal_strength := reversal_strength;
          reversal_type := reversal_type;
          previous_trend := direction historical_momentum;
          warning_level := warning_level;
          segments := Some {|
            previous_trend_strength := momentum_score historical_momentum;
            recent_trend := direction recent_momentum;
            recent_trend_strength := momentum_score recent_momentum;
            historical_momentum := historical_momentum;
            recent_momentum := recent_momentum |} |}.

(** The parts of the reasoning text, which the source joins with a bar. *)
Inductive ReasonPart :=
| CurrentIndicatorsSuggest (s : Signal)
| HistoricalMomentumIs (d : Direction) (momentum_strength : Q)
| ReversalDetected (t : ReversalType) (w : WarningLevel)
| NoClearSignal.

Definition signal_scores (s : Signal) : Q :=
  match s with BUY => 1.0 | SELL => -1.0 | HOLD => 0.0 end.

(** The blended score on which signal and confidence are read off. *)
Definition final_score (current_signal : Signal) (momentum : Momentum)
    (reversal : Reversal)
    (current_weight momentum_weight reversal_weight : Q) : Q :=
  let current_score := signal_scores current_signal in
  let momentum_direction := direction momentum in
  let momentum_strength := momentum_score momentum in
  let momentum_score :=
    match momentum_direction with
    | BULLISH => momentum_strength
    | BEARISH => - momentum_strength
    | NEUTRAL => 0.0
    end in
  let reversal_score :=
    if is_reversal reversal then
      match reversal_type reversal with
      | BULLISH_TO_BEARISH => - reversal_strength reversal
      | BEARISH_TO_BULLISH => reversal_strength reversal
      | NONE => 0.0
      end
    else 0.0 in
  current_score * current_weight +
  momentum_score * momentum_weight +
  reversal_score * reversal_weight.

Definition calculate_weighted_signal (current_signal : Signal)
    (momentum : Momentum) (reversal : Reversal)
    (current_weight momentum_weight reversal_weight : Q)
    : Signal * Q * list ReasonPart :=
  let momentum_direction := direction momentum in
  let momentum_strength := momentum_score momentum in
  let reversal_reasoning :=
    if is_reversal reversal then
      match reversal_type reversal with
      | NONE => []
      | t => [ReversalDetected t (warning_level reversal)]
      end
    else [] in
  let final_score :=
    final_score current_signal momentum reversal
                current_weight momentum_weight reversal_weight in
  let final_signal :=
    if Qgtb final_score 0.3 then BUY
    else if Qltb final_score (-0.3) then SELL
    else HOLD in
  let confidence := Qmin (Qabs final_score) 1.0 in
  let reasoning_parts :=
    (if negb (Signal_eqb current_signal HOLD)
     then [CurrentIndicatorsSuggest current_signal] else []) ++
    (if negb (Direction_eqb momentum_direction NEUTRAL)
     then [HistoricalMomentumIs momentum_direction momentum_strength] else []) ++
    reversal_reasoning in
  let reasoning :=
    match reasoning_parts with
    | [] => [NoClearSignal]
    | _ => reasoning_parts
    end in
  (final_signal, confidence, reasoning).

Record EnhancedAnalysis := {
  original_signal : Signal;
  final_signal : Signal;
  confidence : Q;
  reasoning : list ReasonPart;
  momentum : Momentum;
  reversal : Reversal;
  signal_changed : bool
}.

Definition get_enhanced_analysis (df : Candles) (current_signal : Signal)
    : outcome EnhancedAnalysis :=
  momentum ← calculate_trend_momentum df 20;
  reversal ← detect_reversal df 5 20;
  let '(final_signal, confidence, reasoning) :=
    calculate_weighted_signal current_signal momentum reversal 0.4 0.4 0.2 in
  Ok {| original_signal := current_signal;
        final_signal := final_signal;
        confidence := confidence;
        reasoning := reasoning;
        momentum := momentum;
        reversal := reversal;
        signal_changed := negb (Signal_eqb current_signal final_signal) |}.

(** *** Vocabulary for the statements about this module *)

(** Two directions oppose each other. *)
Definition opposite (a b : Direction) : Prop :=
  (a = BULLISH /\ b = BEARISH) \/ (a = BEARISH /\ b = BULLISH).

(** The momentum direction agrees with the current signal. *)
Definition agrees (s : Signal) (d : Direction) : Prop :=
  match s, d with
  | BUY, BULLISH | SELL, BEARISH | HOLD, NEUTRAL => True
  | _, _ => False
  end.

(** The same momentum result with another [momentum_score]. *)
Definition with_momentum_score (m : Momentum) (q : Q) : Momentum :=
  {| direction := direction m; strength := strength m;
     consistency := consistency m; momentum_score := q;
     detail := detail m |}.

(** The confidence [calculate_weighted_signal] returns at score [q]. *)
Definition confidence_at (current_signal : Signal) (m : Momentum)
    (r : Reversal) (current_weight momentum_weight reversal_weight q : Q) : Q :=
  snd (fst (calculate_weighted_signal current_signal (with_momentum_score m q) r
              current_weight momentum_weight reversal_weight)).

(** Raising the score from [lo] to [hi] does not lower the confidence. *)
Definition confidence_monotone (current_signal : Signal) (m : Momentum)
    (r : Reversal) (current_weight momentum_weight reversal_weight lo hi : Q)
    : Prop :=
  agrees current_signal (direction m) ->
  lo <= hi ->
  confidence_at current_signal m r current_weight momentum_weight
                reversal_weight lo
  <= confidence_at current_signal m r current_weight momentum_weight
                   reversal_weight hi.

(** Each value exceeds the one before. *)
Fixpoint strictly_increasing (v : list Q) : Prop :=
  match v with
  | a :: (b :: _) as rest => a < b /\ strictly_increasing rest
  | _ => True
  end.

(** Twenty candles, all bullish, with closes rising at each step. *)
Definition steady_rise (df : Candles) : Prop :=
  length (rows df) = 20%nat /\
  strictly_increasing (map Close (rows df)) /\
  Forall (fun c => Open c < Close c) (rows df).

(** What the scenario of twenty rising candles promises. *)
Definition scores_above (bound : Q) (df : Candles) : Prop :=
  exists m, calculate_trend_momentum df 20 = Ok m /\
            direction m = BULLISH /\ bound < momentum_score m.

End TrendMomentum.

(** ** Consensus across timeframes ([src/analysis/multi_timeframe.py]) *)

Module MultiTimeframe.

(** The configuration entries the consensus reads: the weights dictionary,
    when configured, and the [confluence] section. *)
Record Config := {
  timeframe_weights : option (gmap string Q);
  confluence : gmap string Q
}.

Definition default_timeframe_weights : gmap string Q :=
  <["1d" := 0.4]> (<["4h" := 0.3]> (<["1h" := 0.2]> (<["15m" := 0.1]> ∅))).

(** The keys of a timeframe analysis that the consensus looks at; each may
    be missing from the dictionary. *)
Record Analysis := {
  enhanced_signal : option Signal;
  current_consensus : option Signal;
  signal_confidence : option Q;
  reversal_detection : option TrendMomentum.Reversal
}.

Record ReversalAlert := {
  alert_timeframe : string;
  alert_type : TrendMomentum.ReversalType;
  alert_strength : Q;
  alert_warning_level : TrendMomentum.WarningLevel
}.

(** The variables the loop over the analyses updates. *)
Record Tally := {
  buy_count : nat;
  sell_count : nat;
  hold_count : nat;
  weighted_buy : Q;
  weighted_sell : Q;
  reversals : list ReversalAlert
}.

Definition empty_tally : Tally :=
  {| buy_count := 0; sell_count := 0; hold_count := 0;
     weighted_buy := 0.0; weighted_sell := 0.0; reversals := [] |}.

(** The signal and the weight one timeframe votes with. *)
Definition vote_signal (analysis : Analysis) : Signal :=
  default (default HOLD (current_consensus analysis)) (enhanced_signal analysis).

Definition confidence_weight (weights : gmap string Q) (tf : string)
    (analysis : Analysis) : Q :=
  let weight := default 0.1 (weights !! tf) in
  let signal_confidence := default 0.5 (signal_confidence analysis) in
  weight * signal_confidence.

(** One turn of the loop. *)
Definition tally_step (weights : gmap string Q) (t : Tally)
    (item : string * Analysis) : Tally :=
  let '(tf, analysis) := item in
  let enhanced_signal := vote_signal analysis in
  let confidence_weight := confidence_weight weights tf analysis in
  let reversals :=
    match reversal_detection analysis with
    | Some r =>
        if TrendMomentum.is_reversal r then
          reversals t ++
          [ {| alert_timeframe := tf;
               alert_type := TrendMomentum.reversal_type r;
               alert_strength := TrendMomentum.reversal_strength r;
               alert_warning_level := TrendMomentum.warning_level r |} ]
        else reversals t
    | None => reversals t
    end in
  match enhanced_signal with
  | BUY =>
      {| buy_count := buy_count t + 1; sell_count := sell_count t;
         hold_count := hold_count t;
         weighted_buy := weighted_buy t + confidence_weight;
         weighted_sell := weighted_sell t; reversals := reversals |}
  | SELL =>
      {| buy_count := buy_count t; sell_count := sell_count t + 1;
         hold_count := hold_count t;
         weighted_buy := weighted_buy t;
         weighted_sell := weighted_sell t + confidence_weight;
         reversals := reversals |}
  | HOLD =>
      {| buy_count := buy_count t; sell_count := sell_count t;
         hold_count := hold_count t + 1;
         weighted_buy := weighted_buy t;
         weighted_sell := weighted_sell t; reversals := reversals |}
  end.

(** The keys that only the result for a non-empty input carries. *)
Record Breakdown := {
  buy_timeframes : nat;
  sell_timeframes : nat;
  hold_timeframes : nat;
  reversals_detected : list ReversalAlert;
  has_reversal_warning : bool
}.

Record Consensus := {
  consensus : Signal;
  agreement_count : nat;
  total_timeframes : nat;
  confidence : Q;
  breakdown : option Breakdown
}.

Definition min_timeframes_agree (self : Config) : Q :=
  default 3 (confluence self !! "min_timeframes_agree").

Definition get_timeframe_consensus (self : Config)
    (analyses : list (string * Analysis)) : Consensus :=
  match analyses with
  | [] =>
      {| consensus := HOLD; agreement_count := 0; total_timeframes := 0;
         confidence := 0.0; breakdown := None |}
  | _ =>
      let timeframe_weights :=
        default default_timeframe_weights (timeframe_weights self) in
      let t := fold_left (tally_step timeframe_weights) analyses empty_tally in
      let total_timeframes := length analyses in
      let '(consensus, agreement_count, confidence) :=
        if Qgtb (weighted_buy t) (weighted_sell t)
           && Qgeb (Qnat (buy_count t)) (min_timeframes_agree self)
        then (BUY, buy_count t, weighted_buy t)
        else if Qgtb (weighted_sell t) (weighted_buy t)
                && Qgeb (Qnat (sell_count t))
                        (min_timeframes_agree self)
        then (SELL, sell_count t, weighted_sell t)
        else (HOLD, hold_count t, 0.5) in
      {| consensus := consensus;
         agreement_count := agreement_count;
         total_timeframes := total_timeframes;
         confidence := confidence;
         breakdown := Some {|
           buy_timeframes := buy_count t;
           sell_timeframes := sell_count t;
           hold_timeframes := hold_count t;
           reversals_detected := reversals t;
           has_reversal_warning := (0 <? length (reversals t))%nat |} |}
  end.

(** What the loop is meant to accumulate, said without the loop: the
    number of timeframes voting a signal and the sum of their weights. *)
Definition raw_count (s : Signal) (analyses : list (string * Analysis)) : nat :=
  length (List.filter (fun item => Signal_eqb (vote_signal (snd item)) s) analyses).

Definition weighted_total (self : Config) (s : Signal)
    (analyses : list (string * Analysis)) : Q :=
  let weights := default default_timeframe_weights (timeframe_weights self) in
  Qsum
    (map (fun item => confidence_weight weights (fst item) (snd item))
         (List.filter (fun item => Signal_eqb (vote_signal (snd item)) s) analyses)).

End MultiTimeframe.

(** ** Ensemble voting ([src/ml/prediction_model.py], class
       [EnsembleVoting]) *)

Module Ensemble.

Record Prediction := { ml_signal : Signal; ml_confidence : Q }.

Record Weights := { ml : Q; technical : Q }.

Definition default_weights : Weights := {| ml := 0.5; technical := 0.5 |}.

Definition count_signal (s : Signal) (technical_signals : list (string * Signal))
    : nat :=
  length (List.filter (fun item => Signal_eqb (snd item) s) technical_signals).

(** The technical consensus and its confidence. *)
Definition technical_consensus (technical_signals : list (string * Signal))
    : Signal * Q :=
  let tech_buy := count_signal BUY technical_signals in
  let tech_sell := count_signal SELL technical_signals in
  let tech_total := length technical_signals in
  if (tech_sell <? tech_buy)%nat
  then (BUY, Qnat tech_buy / Qnat tech_total)
  else if (tech_buy <? tech_sell)%nat
  then (SELL, Qnat tech_sell / Qnat tech_total)
  else (HOLD, 0.5).

(** The two scores of the weighted vote. *)
Definition scores (technical_signals : list (string * Signal))
    (ml_prediction : Prediction) (weights : Weights) : Q * Q :=
  let '(tech_signal, tech_confidence) := technical_consensus technical_signals in
  let ml_signal := ml_signal ml_prediction in
  let ml_confidence := ml_confidence ml_prediction in
  let '(buy_score, sell_score) :=
    match tech_signal with
    | BUY => (0 + technical weights * tech_confidence, 0)
    | SELL => (0, 0 + technical weights * tech_confidence)
    | HOLD => (0, 0)
    end in
  match ml_signal with
  | BUY => (buy_score + ml weights * ml_confidence, sell_score)
  | SELL => (buy_score, sell_score + ml weights * ml_confidence)
  | HOLD => (buy_score, sell_score)
  end.

Definition buy_score (technical_signals : list (string * Signal))
    (ml_prediction : Prediction) (weights : Weights) : Q :=
  fst (scores technical_signals ml_prediction weights).

Definition sell_score (technical_signals : list (string * Signal))
    (ml_prediction : Prediction) (weights : Weights) : Q :=
  snd (scores technical_signals ml_prediction weights).

Record Vote := {
  signal : Signal;
  confidence : Q;
  technical_signal : Signal;
  technical_confidence : Q;
  vote_ml_signal : Signal;
  vote_ml_confidence : Q
}.

Definition vote (technical_signals : list (string * Signal))
    (ml_prediction : Prediction) (weights : option Weights) : Vote :=
  let weights := default default_weights weights in
  let '(tech_signal, tech_confidence) := technical_consensus technical_signals in
  let '(buy_score, sell_score) := scores technical_signals ml_prediction weights in
  let '(final_signal, final_confidence) :=
    if Qgtb buy_score sell_score && Qgtb buy_score 0.5
    then (BUY, buy_score)
    else if Qgtb sell_score buy_score && Qgtb sell_score 0.5
    then (SELL, sell_score)
    else (HOLD, 0.5) in
  {| signal := final_signal;
     confidence := final_confidence;
     technical_signal := tech_signal;
     technical_confidence := tech_confidence;
     vote_ml_signal := ml_signal ml_prediction;
     vote_ml_confidence := ml_confidence ml_prediction |}.

End Ensemble.

(** ** Trade plans per timeframe ([src/risk/risk_manager.py],
       [create_multi_timeframe_trade_plans] and its helpers)

    The fields of the result that hold a reading of the clock
    ([generated_at], [estimated_completion]) are left out. *)

Module TradePlanner.
Import Risk.

Definition _format_duration (minutes : nat) : string :=
  if (minutes <? 60)%nat then pretty minutes +:+ " minutes"
  else if (minutes <? 1440)%nat then
    let hours := (minutes / 60)%nat in
    let mins := (minutes mod 60)%nat in
    if (0 <? mins)%nat
    then pretty hours +:+ " hours " +:+ pretty mins +:+ " minutes"
    else pretty hours +:+ " hours"
  else
    let days := (minutes / 1440)%nat in
    let hours := ((minutes mod 1440) / 60)%nat in
    if (0 <? hours)%nat
    then pretty days +:+ " days " +:+ pretty hours +:+ " hours"
    else pretty days +:+ " days".

Record Strategy := {
  style : string;
  holding_period : string;
  strategy_description : string;
  monitoring : string;
  suitable_for : string
}.

Definition strategies : gmap string Strategy :=
  <["15m" := {| style := "Scalping";
                holding_period := "15 minutes to 2 hours";
                strategy_description :=
                  "Quick in and out trades, capture small moves";
                monitoring := "Requires active monitoring";
                suitable_for := "Day traders, active traders" |}]>
  (<["1h" := {| style := "Intraday Trading";
                holding_period := "1 hour to 8 hours";
                strategy_description :=
                  "Intraday swings, close before end of day";
                monitoring := "Check every 1-2 hours";
                suitable_for := "Day traders, part-time traders" |}]>
  (<["4h" := {| style := "Swing Trading";
                holding_period := "4 hours to 3 days";
                strategy_description := "Capture medium-term trends";
                monitoring := "Check 2-3 times per day";
                suitable_for := "Swing traders, working professionals" |}]>
  (<["1d" := {| style := "Position Trading";
                holding_period := "1 day to several weeks";
                strategy_description :=
                  "Long-term trends, larger profit targets";
                monitoring := "Check once per day";
                suitable_for := "Position traders, long-term investors" |}]>
   ∅))).

Definition _get_trading_strategy (timeframe : string) : Strategy :=
  default {| style := "Unknown"; holding_period := "Variable";
             strategy_description := "Custom timeframe";
             monitoring := "As needed"; suitable_for := "All traders" |}
          (strategies !! timeframe).

(** [df.iloc[-1].get(name)] on a frame with at least one row: the cell of
    the last row, if the column exists. *)
Definition latest_get (df : DataFrame) (name : string) : outcome (option cell) :=
  match columns df !! name with
  | Some c => v ← iloc_back c 1; Ok (Some v)
  | None => Ok None
  end.

Definition cell_round (c : cell) (ndigits : nat) : cell :=
  option_map (fun q => py_round q ndigits) c.

Definition indicator_fields : list string :=
  [ "RSI"; "MACD"; "MACD_Signal"; "MACD_Hist"; "Stoch_K"; "Stoch_D"; "ATR";
    "MA_20"; "MA_50"; "MA_200"; "BB_Upper"; "BB_Middle"; "BB_Lower" ].

(** The loop of [_extract_indicators] over the remaining fields. *)
Fixpoint extract_fields (df : DataFrame) (fields : list string)
    : outcome (list (string * Q)) :=
  match fields with
  | [] => Ok []
  | field :: rest =>
      value ← latest_get df field;
      others ← extract_fields df rest;
      match value with
      | Some (Some v) => Ok ((field, py_round v 5) :: others)
      | _ => Ok others
      end
  end.

Definition _extract_indicators (df : DataFrame) : outcome (list (string * Q)) :=
  if (index_len df =? 0)%nat then Raise IndexError
  else extract_fields df indicator_fields.

Record EntryPoint := {
  ep_price : cell;
  ep_description : string;
  ep_urgency : string;
  ep_type : string
}.

Definition _calculate_multiple_entries (entry_price : Q) (signal : Signal)
    (atr : Q) (df : DataFrame) : outcome (list (string * EntryPoint)) :=
  if (index_len df =? 0)%nat then Raise IndexError else
  if Signal_eqb signal BUY then
    bb_lower ← latest_get df "BB_Lower";
    let bb_lower := default (Some (entry_price - 1.5 * atr)) bb_lower in
    bb_middle ← latest_get df "BB_Middle";
    Ok [ ("entry_1_immediate",
          {| ep_price := Some (py_round entry_price 5);
             ep_description := "Market entry - Enter now at current price";
             ep_urgency := "IMMEDIATE"; ep_type := "MARKET ORDER" |});
         ("entry_2_pullback",
          {| ep_price := Some (py_round (entry_price - 0.5 * atr) 5);
             ep_description := "Wait for minor pullback - Better entry";
             ep_urgency := "LIMIT ORDER"; ep_type := "LIMIT ORDER" |});
         ("entry_3_best",
          {| ep_price := cell_round bb_lower 5;
             ep_description :=
               "Best entry near support/BB Lower - Most favorable";
             ep_urgency := "LIMIT ORDER"; ep_type := "LIMIT ORDER" |}) ]
  else
    bb_upper ← latest_get df "BB_Upper";
    let bb_upper := default (Some (entry_price + 1.5 * atr)) bb_upper in
    bb_middle ← latest_get df "BB_Middle";
    Ok [ ("entry_1_immediate",
          {| ep_price := Some (py_round entry_price 5);
             ep_description := "Market entry - Enter now at current price";
             ep_urgency := "IMMEDIATE"; ep_type := "MARKET ORDER" |});
         ("entry_2_pullback",
          {| ep_price := Some (py_round (entry_price + 0.5 * atr) 5);
             ep_description := "Wait for minor pullback - Better entry";
             ep_urgency := "LIMIT ORDER"; ep_type := "LIMIT ORDER" |});
         ("entry_3_best",
          {| ep_price := cell_round bb_upper 5;
             ep_description :=
               "Best entry near resistance/BB Upper - Most favorable";
             ep_urgency := "LIMIT ORDER"; ep_type := "LIMIT ORDER" |}) ].

Record Duration := {
  minutes : nat;
  duration_description : string;
  candles_to_target : nat
}.

Definition timeframe_durations : gmap string Duration :=
  <["15m" := {| minutes := 15; duration_description := "15 minutes";
                candles_to_target := 20 |}]>
  (<["1h" := {| minutes := 60; duration_description := "1 hour";
                candles_to_target := 24 |}]>
  (<["4h" := {| minutes := 240; duration_description := "4 hours";
                candles_to_target := 18 |}]>
  (<["1d" := {| minutes := 1440; duration_description := "1 day";
                candles_to_target := 10 |}]> ∅))).

Record Sizing := {
  position_size_lots : Q;
  position_size_units : Q;
  sizing_risk_amount : Q;
  sizing_risk_percentage : Q
}.

Record Execution := {
  duration_minutes : nat;
  duration_readable : string;
  execution_candles_to_target : nat
}.

Record TimeframePlan := {
  timeframe : string;
  timeframe_description : string;
  entry_points : list (string * EntryPoint);
  stop_losses : list (string * StopLevel);
  take_profits : list (string * TargetLevel);
  position_sizing : Sizing;
  risk_reward_ratios : list (string * Q);
  expected_execution : Execution;
  trading_strategy : Strategy;
  current_indicators : list (string * Q)
}.

(** [ladder[key]] *)
Definition item {A} (ladder : list (string * A)) (key : string) : outcome A :=
  match list_find (fun kv => fst kv = key) ladder with
  | Some (_, kv) => Ok (snd kv)
  | None => Raise (KeyError key)
  end.

(** [df.empty] *)
Definition df_empty (df : DataFrame) : bool :=
  (index_len df =? 0)%nat || bool_decide (columns df = ∅).

(** The ATR a timeframe plans with: the last ATR of the frame, or 2% of the
    entry price when the frame has no ATR column. *)
Definition planning_atr (entry_price : Q) (df : DataFrame) : outcome Q :=
  if has_column df "ATR" then
    c ← column df "ATR";
    a ← iloc_back c 1;
    match a with
    | Some a => Ok a
    | None => NonFinite
    end
  else Ok (entry_price * 0.02).

(** The body of the loop over the timeframes, for a frame that is not
    empty. *)
Definition timeframe_plan (self : RiskManager) (signal : Signal)
    (entry_price account_balance : Q) (tf : string) (df : DataFrame)
    : outcome TimeframePlan :=
  atr ← planning_atr entry_price df;
  let stop_losses := _calculate_multiple_stop_losses entry_price signal atr in
  let take_profits := _calculate_multiple_take_profits entry_price signal atr in
  entry_points ← _calculate_multiple_entries entry_price signal atr df;
  let tf_info :=
    default {| minutes := 60; duration_description := "Unknown";
               candles_to_target := 15 |}
            (timeframe_durations !! tf) in
  let candles_to_tp := candles_to_target tf_info in
  let expected_duration_minutes := (candles_to_tp * minutes tf_info)%nat in
  standard ← item stop_losses "standard_2atr";
  let standard_sl := sl_price standard in
  let position_info :=
    calculate_position_size self account_balance entry_price standard_sl None in
  let potential_loss := Qabs (entry_price - standard_sl) in
  let risk_reward_ratios :=
    if Qgtb potential_loss 0 then
      map (fun kv =>
             (fst kv,
              py_round (Qabs (tp_price (snd kv) - entry_price) / potential_loss) 2))
          take_profits
    else [] in
  '(units, lots, risk, pct) ← sized_fields "position_size_lots" position_info;
  indicators ← _extract_indicators df;
  Ok {| timeframe := tf;
        timeframe_description := duration_description tf_info;
        entry_points := entry_points;
        stop_losses := stop_losses;
        take_profits := take_profits;
        position_sizing :=
          {| position_size_lots := lots; position_size_units := units;
             sizing_risk_amount := risk; sizing_risk_percentage := pct |};
        risk_reward_ratios := risk_reward_ratios;
        expected_execution :=
          {| duration_minutes := expected_duration_minutes;
             duration_readable := _format_duration expected_duration_minutes;
             execution_candles_to_target := candles_to_tp |};
        trading_strategy := _get_trading_strategy tf;
        current_indicators := indicators |}.

(** [plans[tf] = plan] on a dictionary kept in insertion order. *)
Fixpoint dict_set {A} (key : string) (value : A) (d : list (string * A))
    : list (string * A) :=
  match d with
  | [] => [(key, value)]
  | (k, v) :: rest =>
      if String.eqb k key then (k, value) :: rest
      else (k, v) :: dict_set key value rest
  end.

(** The loop over the requested timeframes. *)
Fixpoint plan_timeframes (self : RiskManager) (signal : Signal)
    (entry_price account_balance : Q) (dataframes : gmap string DataFrame)
    (timeframes : list string) (plans : list (string * TimeframePlan))
    : outcome (list (string * TimeframePlan)) :=
  match timeframes with
  | [] => Ok plans
  | tf :: rest =>
      match dataframes !! tf with
      | Some df =>
          if df_empty df then
            plan_timeframes self signal entry_price account_balance
                            dataframes rest plans
          else
            tf_plan ← timeframe_plan self signal entry_price account_balance
                                     tf df;
            plan_timeframes self signal entry_price account_balance
                            dataframes rest (dict_set tf tf_plan plans)
      | None =>
          plan_timeframes self signal entry_price account_balance
                          dataframes rest plans
      end
  end.

Inductive MultiPlan :=
| MultiRejected (signal : Signal) (why : list Reason)
| MultiApproved (signal : Signal) (confidence entry_price : Q)
                (timeframe_plans : list (string * TimeframePlan)).

Definition create_multi_timeframe_trade_plans (self : RiskManager)
    (signal : Signal) (entry_price confidence account_balance : Q)
    (dataframes : gmap string DataFrame) (timeframes : option (list string))
    : outcome MultiPlan :=
  let timeframes := default ["15m"; "1h"; "4h"; "1d"] timeframes in
  let validation := validate_trade self signal confidence account_balance in
  if negb (approved validation) then
    Ok (MultiRejected signal (reasons validation))
  else
    plans ← plan_timeframes self signal entry_price account_balance
                            dataframes timeframes [];
    Ok (MultiApproved signal confidence entry_price plans).

(** A price quoted to five decimals. *)
Definition on_grid (x : Q) : Prop :=
  exists n : Z, x == inject_Z n / 100000.

End TradePlanner.

(** ** Sample inputs *)

Module Samples.

(** A manager with an empty configuration: every default applies. *)
Definition plain_manager : Risk.RiskManager :=
  {| Risk.risk_config := ∅; Risk.confluence_config := ∅;
     Risk.current_drawdown := 0 |}.

(** Two rows with an ATR column whose last value is zero (a flat market). *)
Definition flat_frame : DataFrame :=
  {| index_len := 2;
     columns := <["Close" := [Some 1.1; Some 1.1]]>
                (<["ATR" := [Some 0; Some 0]]> ∅) |}.

(** Two rows with the MACD line but without its signal line. *)
Definition macd_only_frame : DataFrame :=
  {| index_len := 2;
     columns := <["Close" := [Some 1.1; Some 1.2]]>
                (<["MACD" := [Some 0.001; Some 0.002]]> ∅) |}.

(** Two rows with %K but without %D. *)
Definition stoch_k_only_frame : DataFrame :=
  {| index_len := 2;
     columns := <["Close" := [Some 1.1; Some 1.2]]>
                (<["Stoch_K" := [Some 15; Some 18]]> ∅) |}.

(** [n] bullish candles from [start], each closing [step] above the last
    and opening half a step below its close, with the high at the close and
    the low at the open. *)
Fixpoint rising (start step : Q) (n : nat) : list TrendMomentum.Candle :=
  match n with
  | O => []
  | S n' =>
      {| TrendMomentum.Open := start - step / 2;
         TrendMomentum.High := start;
         TrendMomentum.Low := start - step / 2;
         TrendMomentum.Close := start;
         TrendMomentum.Volume := 1000 |}
      :: rising (start + step) step n'
  end.

(** The mirror image: [n] bearish candles falling from [start]. *)
Fixpoint falling (start step : Q) (n : nat) : list TrendMomentum.Candle :=
  match n with
  | O => []
  | S n' =>
      {| TrendMomentum.Open := start + step / 2;
         TrendMomentum.High := start + step / 2;
         TrendMomentum.Low := start;
         TrendMomentum.Close := start;
         TrendMomentum.Volume := 1000 |}
      :: falling (start - step) step n'
  end.

(** Twenty candles creeping up by one pip each. *)
Definition slow_rise : TrendMomentum.Candles :=
  {| TrendMomentum.rows := rising 1.0000 0.0001 20;
     TrendMomentum.has_volume := true |}.

(** Twenty strongly rising candles followed by five falling ones. *)
Definition rise_then_fall : TrendMomentum.Candles :=
  {| TrendMomentum.rows := rising 100 1 20 ++ falling 119 1 5;
     TrendMomentum.has_volume := true |}.

(** A bullish momentum and a strong reversal against it. *)
Definition bullish_momentum : TrendMomentum.Momentum :=
  {| TrendMomentum.direction := TrendMomentum.BULLISH;
     TrendMomentum.strength := 0.75; TrendMomentum.consistency := 0.75;
     TrendMomentum.momentum_score := 0.5; TrendMomentum.detail := None |}.

Definition bearish_turn : TrendMomentum.Reversal :=
  {| TrendMomentum.is_reversal := true;
     TrendMomentum.reversal_strength := 1.0;
     TrendMomentum.reversal_type := TrendMomentum.BULLISH_TO_BEARISH;
     TrendMomentum.previous_trend := TrendMomentum.BULLISH;
     TrendMomentum.warning_level := TrendMomentum.HIGH;
     TrendMomentum.segments := None |}.

(** Four timeframes: three vote BUY with confidence 0.6, one votes SELL. *)
Definition voting (s : Signal) (c : Q) : MultiTimeframe.Analysis :=
  {| MultiTimeframe.enhanced_signal := Some s;
     MultiTimeframe.current_consensus := Some s;
     MultiTimeframe.signal_confidence := Some c;
     MultiTimeframe.reversal_detection := None |}.

Definition three_of_four : list (string * MultiTimeframe.Analysis) :=
  [ ("1d", voting BUY 0.6); ("4h", voting BUY 0.6); ("1h", voting BUY 0.6);
    ("15m", voting SELL 0.6) ].

Definition plain_config : MultiTimeframe.Config :=
  {| MultiTimeframe.timeframe_weights := None;
     MultiTimeframe.confluence := ∅ |}.

End Samples.

(** ** The trade ledger ([src/risk/risk_manager.py], [__init__],
       [record_trade], [calculate_performance]) *)

Module Ledger.

(** A recorded trade is a dictionary; its numeric entries are kept. *)
Record Manager := {
  settings : Risk.RiskManager;
  trades : list (gmap string Q)
}.

(** The sections of the configuration the manager reads. *)
Record Configuration := {
  risk_management : option (gmap string Q);
  confluence : option (gmap string Q)
}.

Definition __init__ (config : Configuration) : Manager :=
  {| settings :=
       {| Risk.risk_config := default ∅ (risk_management config);
          Risk.confluence_config := default ∅ (confluence config);
          Risk.current_drawdown := 0.0 |};
     trades := [] |}.

Definition record_trade (self : Manager) (trade : gmap string Q) : Manager :=
  {| settings := settings self; trades := trades self ++ [trade] |}.

(** The two dictionaries [calculate_performance] can return. *)
Inductive Performance :=
| NoTrades (total_trades : nat)
           (win_rate average_profit average_loss profit_factor total_pnl : Q)
| Stats (total_trades winning_trades losing_trades : nat)
        (win_rate average_profit average_loss : Q)
        (profit_factor : option Q) (total_pnl max_drawdown : Q).

(** The [pnl] column of the frame built from the trades: one cell per
    trade, NaN where the trade has no [pnl]. *)
Definition pnl_column (trades : list (gmap string Q)) : list cell :=
  map (fun trade => trade !! "pnl") trades.

(** [series.sum()] and [series.mean()] skip NaN. *)
Definition finite_cells (c : list cell) : list Q := omap id c.

Definition calculate_performance (self : Manager) : outcome Performance :=
  match trades self with
  | [] => Ok (NoTrades 0 0.0 0.0 0.0 0.0 0.0)
  | _ =>
      let pnl := pnl_column (trades self) in
      if forallb (fun c => negb (bool_decide (is_Some c))) pnl then
        (* no trade has a [pnl]: [df.get('pnl', 0) > 0] is [False] and
           [df[False]] looks up a column of that name *)
        Raise (KeyError "False")
      else
        let total_trades := length (trades self) in
        let winning := List.filter (fun q => Qgtb q 0) (finite_cells pnl) in
        let losing := List.filter (fun q => Qltb q 0) (finite_cells pnl) in
        let win_rate := Qnat (length winning) / Qnat total_trades in
        let avg_profit :=
          if (0 <? length winning)%nat
          then Qsum winning / Qnat (length winning) else 0.0 in
        let avg_loss :=
          if (0 <? length losing)%nat
          then Qabs (Qsum losing / Qnat (length losing)) else 0.0 in
        let total_profit := if (0 <? length winning)%nat then Qsum winning else 0.0 in
        let total_loss := if (0 <? length losing)%nat then Qabs (Qsum losing) else 0.0 in
        let profit_factor :=
          if Qgtb total_loss 0 then Some (total_profit / total_loss) else None in
        let total_pnl := Qsum (finite_cells pnl) in
        Ok (Stats total_trades (length winning) (length losing) win_rate
                  avg_profit avg_loss profit_factor total_pnl
                  (Risk.current_drawdown (settings self)))
  end.

(** The managers that the constructor and [record_trade] can produce. *)
Inductive reachable (config : Configuration) : Manager -> Prop :=
| reach_init : reachable config (__init__ config)
| reach_record m trade :
    reachable config m -> reachable config (record_trade m trade).

End Ledger.

(** ** Indicator columns ([src/indicators/technical_indicators.py], class
       [TechnicalIndicators]: moving averages, MACD and ATR)

    These read the Close column; a frame whose closes are not all finite
    is outside the model.  Windows and spans are positive. *)

Module TechnicalIndicators.

(** The finite values of a column, if all are. *)
Fixpoint all_finite (c : list cell) : option (list Q) :=
  match c with
  | [] => Some []
  | Some q :: rest => option_map (cons q) (all_finite rest)
  | None :: _ => None
  end.

(** [df['Close']] as numbers. *)
Definition closes (df : DataFrame) : outcome (list Q) :=
  c ← column df "Close";
  match all_finite c with
  | Some v => Ok v
  | None => NonFinite
  end.

(** [df[name] = series] *)
Definition set_column (df : DataFrame) (name : string) (c : list cell)
    : DataFrame :=
  {| index_len := index_len df; columns := <[name := c]> (columns df) |}.

(** [series.rolling(window=period).mean()]: NaN until the window is
    full. *)
Definition rolling_mean (period : positive) (v : list Q) : list cell :=
  let w := Pos.to_nat period in
  map (fun i =>
         if (i + 1 <? w)%nat then None
         else Some (Qsum (firstn w (skipn (i + 1 - w) v)) / Qnat w))
      (seq 0 (length v)).

(** [series.ewm(span=period, adjust=False).mean()]: the first value, then
    [y = (1 - alpha) * y_prev + alpha * x] with [alpha = 2 / (span + 1)]. *)
Definition alpha (span : positive) : Q := 2 / (inject_Z (Z.pos span) + 1).

Fixpoint ewm_from (span : positive) (prev : Q) (v : list Q) : list Q :=
  match v with
  | [] => []
  | x :: rest =>
      let y := (1 - alpha span) * prev + alpha span * x in
      y :: ewm_from span y rest
  end.

Definition ewm_mean (span : positive) (v : list Q) : list Q :=
  match v with
  | [] => []
  | x :: rest => x :: ewm_from span x rest
  end.

Fixpoint add_moving_averages (df : DataFrame) (periods : list positive)
    : outcome DataFrame :=
  match periods with
  | [] => Ok df
  | period :: rest =>
      close ← closes df;
      add_moving_averages
        (set_column df ("MA_" +:+ pretty (Pos.to_nat period))
                    (rolling_mean period close))
        rest
  end.

Fixpoint add_exponential_moving_averages (df : DataFrame)
    (periods : list positive) : outcome DataFrame :=
  match periods with
  | [] => Ok df
  | period :: rest =>
      close ← closes df;
      add_exponential_moving_averages
        (set_column df ("EMA_" +:+ pretty (Pos.to_nat period))
                    (map Some (ewm_mean period close)))
        rest
  end.

Definition add_macd (df : DataFrame) (fast slow signal : positive)
    : outcome DataFrame :=
  close ← closes df;
  let ema_fast := ewm_mean fast close in
  let ema_slow := ewm_mean slow close in
  let macd := map (fun p => fst p - snd p) (combine ema_fast ema_slow) in
  let macd_signal := ewm_mean signal macd in
  let macd_hist := map (fun p => fst p - snd p) (combine macd macd_signal) in
  Ok (set_column
        (set_column (set_column df "MACD" (map Some macd))
                    "MACD_Signal" (map Some macd_signal))
        "MACD_Hist" (map Some macd_hist)).

(** The true range of a row: the largest of [High - Low],
    [|High - previous Close|] and [|Low - previous Close|]; the first row
    has no previous close and the row-wise [max] skips the two NaN. *)
Definition true_range_row (prev_close : option Q) (high low : Q) : Q :=
  match prev_close with
  | None => high - low
  | Some c => Qmax (high - low) (Qmax (Qabs (high - c)) (Qabs (low - c)))
  end.

Fixpoint true_ranges (prev_close : option Q) (high low close : list Q)
    : list Q :=
  match high, low, close with
  | h :: high, l :: low, c :: close =>
      true_range_row prev_close h l :: true_ranges (Some c) high low close
  | _, _, _ => []
  end.

(** Prices that are not all finite are outside the model. *)
Definition add_atr (df : DataFrame) (period : positive) : outcome DataFrame :=
  high ← column df "High";
  low ← column df "Low";
  close ← column df "Close";
  match all_finite high, all_finite low, all_finite close with
  | Some high, Some low, Some close =>
      let true_range := true_ranges None high low close in
      Ok (set_column df "ATR" (rolling_mean period true_range))
  | _, _, _ => NonFinite
  end.

End TechnicalIndicators.

(** ** Trend strength and momentum of a timeframe
       ([src/analysis/multi_timeframe.py], [_calculate_trend_strength] and
       [_calculate_momentum]) *)

Module TimeframeMetrics.
Import Indicators.




Definition _calculate_momentum (df : DataFrame)
    : outcome TrendMomentum.Direction :=
  rsi_votes ←
    (if has_column df "RSI" then
       rsi ← at_back df "RSI" 1;
       if cell_gt rsi (num 50) then Ok (1, 0)%nat
       else if cell_lt rsi (num 50) then Ok (0, 1)%nat
       else Ok (0, 0)%nat
     else Ok (0, 0)%nat);
  macd_votes ←
    (if has_column df "MACD" && has_column df "MACD_Signal" then
       macd ← at_back df "MACD" 1;
       macd_signal ← at_back df "MACD_Signal" 1;
       if cell_gt macd macd_signal then Ok (1, 0)%nat else Ok (0, 1)%nat
     else Ok (0, 0)%nat);
  ma_votes ←
    (if has_column df "MA_50" then
       close ← at_back df "Close" 1;
       ma50 ← at_back df "MA_50" 1;
       if cell_gt close ma50 then Ok (1, 0)%nat else Ok (0, 1)%nat
     else Ok (0, 0)%nat);
  let bullish_count := (fst rsi_votes + fst macd_votes + fst ma_votes)%nat in
  let bearish_count := (snd rsi_votes + snd macd_votes + snd ma_votes)%nat in
  if (bearish_count <? bullish_count)%nat then Ok TrendMomentum.BULLISH
  else if (bullish_count <? bearish_count)%nat then Ok TrendMomentum.BEARISH
  else Ok TrendMomentum.NEUTRAL.

End TimeframeMetrics.

(** ** Vocabulary for further statements *)

Module Mirror.
Import TrendMomentum.

(** The mirror image of a signal, a direction, a reversal. *)
Definition flip_signal (s : Signal) : Signal :=
  match s with BUY => SELL | SELL => BUY | HOLD => HOLD end.

Definition flip_direction (d : Direction) : Direction :=
  match d with BULLISH => BEARISH | BEARISH => BULLISH | NEUTRAL => NEUTRAL end.

Definition flip_momentum (m : Momentum) : Momentum :=
  {| direction := flip_direction (direction m); strength := strength m;
     consistency := consistency m; momentum_score := momentum_score m;
     detail := detail m |}.

Definition flip_reversal_type (t : ReversalType) : ReversalType :=
  match t with
  | BULLISH_TO_BEARISH => BEARISH_TO_BULLISH
  | BEARISH_TO_BULLISH => BULLISH_TO_BEARISH
  | NONE => NONE
  end.

Definition flip_reversal (r : Reversal) : Reversal :=
  {| is_reversal := is_reversal r;
     reversal_strength := reversal_strength r;
     reversal_type := flip_reversal_type (reversal_type r);
     previous_trend := flip_direction (previous_trend r);
     warning_level := warning_level r;
     segments := segments r |}.

(** The timeframes whose analysis reports a reversal, as alerts. *)
Definition reversal_alerts (analyses : list (string * MultiTimeframe.Analysis))
    : list MultiTimeframe.ReversalAlert :=
  omap (fun item =>
          match MultiTimeframe.reversal_detection (snd item) with
          | Some r =>
              if is_reversal r then
                Some {| MultiTimeframe.alert_timeframe := fst item;
                        MultiTimeframe.alert_type := reversal_type r;
                        MultiTimeframe.alert_strength := reversal_strength r;
                        MultiTimeframe.alert_warning_level := warning_level r |}
              else None
          | None => None
          end) analyses.

(** The signal the consensus decides on, said with the raw counts and the
    weighted totals. *)
Definition decided (self : MultiTimeframe.Config)
    (analyses : list (string * MultiTimeframe.Analysis)) : Signal :=
  if Qgtb (MultiTimeframe.weighted_total self BUY analyses)
          (MultiTimeframe.weighted_total self SELL analyses)
     && Qgeb (Qnat (MultiTimeframe.raw_count BUY analyses))
             (MultiTimeframe.min_timeframes_agree self)
  then BUY
  else if Qgtb (MultiTimeframe.weighted_total self SELL analyses)
               (MultiTimeframe.weighted_total self BUY analyses)
          && Qgeb (Qnat (MultiTimeframe.raw_count SELL analyses))
                  (MultiTimeframe.min_timeframes_agree self)
  then SELL else HOLD.

End Mirror.

(** ** Further sample inputs *)

Module Scenarios.

(** Two rows with an ATR of 50 pips. *)
Definition quiet_frame : DataFrame :=
  {| index_len := 2;
     columns := <["Close" := [Some 1.1; Some 1.1]]>
                (<["ATR" := [Some 0.005; Some 0.005]]> ∅) |}.

(** Five rows of closes only. *)
Definition closes_frame : DataFrame :=
  {| index_len := 5;
     columns := <["Close" := [Some 1.10; Some 1.11; Some 1.12; Some 1.11;
                              Some 1.13]]> ∅ |}.

(** Three candles, the last two without any range. *)
Definition candle_frame : DataFrame :=
  {| index_len := 3;
     columns := <["High" := [Some 1.12; Some 1.10; Some 1.10]]>
                (<["Low" := [Some 1.09; Some 1.10; Some 1.10]]>
                (<["Close" := [Some 1.10; Some 1.10; Some 1.10]]> ∅)) |}.

Definition winning_trade : gmap string Q := <["pnl" := 150]> ∅.
Definition losing_trade : gmap string Q := <["pnl" := -50]> ∅.

(** Three of the five rules say BUY. *)
Definition daily_signals : list (string * Signal) :=
  [ ("ma_cross", BUY); ("ema_cross", BUY); ("rsi", HOLD); ("macd", BUY);
    ("stochastic", SELL) ].

(** What [ForexMLModel.predict] answers without a trained model. *)
Definition no_classifier : Ensemble.Prediction :=
  {| Ensemble.ml_signal := HOLD; Ensemble.ml_confidence := 0.0 |}.

Definition confident_classifier : Ensemble.Prediction :=
  {| Ensemble.ml_signal := BUY; Ensemble.ml_confidence := 0.9 |}.

(** An RSI still warming up: its previous value is NaN. *)
Definition warming_up_frame : DataFrame :=
  {| index_len := 2;
     columns := <["Close" := [Some 1.1; Some 1.1]]>
                (<["RSI" := [None; Some 25]]> ∅) |}.

(** One row before the fiftieth candle: the slow average is still NaN. *)
Definition early_frame : DataFrame :=
  {| index_len := 1;
     columns := <["Close" := [Some 1.1]]>
                (<["RSI" := [Some 60]]>
                (<["MACD" := [Some 0.001]]>
                (<["MACD_Signal" := [Some 0.002]]>
                (<["MA_50" := [None]]> ∅)))) |}.

Definition empty_configuration : Ledger.Configuration :=
  {| Ledger.risk_management := None; Ledger.confluence := None |}.

(** A manager with one winning and one losing trade on record. *)
Definition two_trade_ledger : Ledger.Manager :=
  Ledger.record_trade
    (Ledger.record_trade (Ledger.__init__ empty_configuration) winning_trade)
    losing_trade.

End Scenarios.

(** * Properties *)

(** ** Comparisons and rounding *)

Lemma Qltb_lt x y : Qltb x y = true <-> x < y.
Proof.
  unfold Qltb. rewrite negb_true_iff, <- not_true_iff_false, Qle_bool_iff.
  split; [apply Qnot_le_lt | apply Qlt_not_le].
Qed.

Lemma Qltb_ge x y : Qltb x y = false <-> y <= x.
Proof.
  unfold Qltb. rewrite negb_false_iff. apply Qle_bool_iff.
Qed.

Lemma Qgtb_gt x y : Qgtb x y = true <-> y < x.
Proof. apply Qltb_lt. Qed.

Lemma Qgtb_le x y : Qgtb x y = false <-> x <= y.
Proof. apply Qltb_ge. Qed.

Lemma Qgeb_ge x y : Qgeb x y = true <-> y <= x.
Proof. apply Qle_bool_iff. Qed.

Lemma Qeqb_eq x y : Qeqb x y = true <-> x == y.
Proof. apply Qeq_bool_iff. Qed.

Lemma Qeqb_neq x y : Qeqb x y = false <-> ~ x == y.
Proof.
  unfold Qeqb. rewrite <- not_true_iff_false, Qeq_bool_iff. tauto.
Qed.





(** ** Risk management *)

Section RiskProperties.
Import Risk.





(** The scenario of the specification: entry 1.10000, ATR 0.00500, BUY
    give the standard stop 1.09000 and the conservative target 1.11000. *)
Example standard_ladder_scenario :
  Forall2 (fun kv expected =>
             fst kv = fst expected /\ sl_price (snd kv) == snd expected)
    (_calculate_multiple_stop_losses 1.1 BUY 0.005)
    [ ("tight_1atr", 1.095); ("standard_2atr", 1.09); ("wide_3atr", 1.085);
      ("percentage_2pct", 1.078); ("percentage_3pct", 1.067) ] /\
  Forall2 (fun kv expected =>
             fst kv = fst expected /\ tp_price (snd kv) == snd expected)
    (_calculate_multiple_take_profits 1.1 BUY 0.005)
    [ ("tp1_quick", 1.105); ("tp2_conservative", 1.11); ("tp3_moderate", 1.115);
      ("tp4_aggressive", 1.125) ].
Proof. split; repeat constructor. Qed.

(** Position sizing reports a zero distance as an error dictionary. *)
Lemma calculate_position_size_invalid self b e s r :
  e == s ->
  calculate_position_size self b e s r = InvalidStopLoss 0 0 "Invalid stop loss".
Proof.
  intros Hes. unfold calculate_position_size.
  assert (Qeqb (Qabs (e - s)) 0 = true) as ->; [| reflexivity].
  apply Qeqb_eq. apply Qabs_case; intros; lra.
Qed.

(** C7: the plan generator does not pass that error on.  With a zero ATR
    the stop equals the entry, the sizing returns its error dictionary, and
    reading the lot size from it raises KeyError. *)
Theorem create_trade_plan_zero_distance_raises :
  calculate_stop_loss Samples.plain_manager Samples.flat_frame 1.1 BUY None
    = Ok (1.1 - 0 * 2.0) /\
  calculate_position_size Samples.plain_manager 10000 1.1 (1.1 - 0 * 2.0) None
    = InvalidStopLoss 0 0 "Invalid stop loss" /\
  create_trade_plan Samples.plain_manager BUY 1.1 0.8 10000
                    Samples.flat_frame 0
    = Raise (KeyError "position_size_lots").
Proof. repeat split; reflexivity. Qed.



End RiskProperties.

(** ** Indicator signal rules *)

Section IndicatorProperties.
Import Indicators.

Lemma macd_only_frame_well_formed : well_formed Samples.macd_only_frame.
Proof.
  intros name c H. cbn in H.
  apply lookup_insert_Some in H as [[_ <-] | [_ H]]; [reflexivity |].
  apply lookup_insert_Some in H as [[_ <-] | [_ H]]; [reflexivity |].
  rewrite lookup_empty in H. discriminate.
Qed.

Lemma stoch_k_only_frame_well_formed : well_formed Samples.stoch_k_only_frame.
Proof.
  intros name c H. cbn in H.
  apply lookup_insert_Some in H as [[_ <-] | [_ H]]; [reflexivity |].
  apply lookup_insert_Some in H as [[_ <-] | [_ H]]; [reflexivity |].
  rewrite lookup_empty in H. discriminate.
Qed.

(** Every rule answers HOLD on a frame of fewer than two rows. *)
Lemma rules_hold_on_short_frame df fast slow overbought oversold :
  (index_len df < 2)%nat ->
  ma_crossover_signal df fast slow = Ok HOLD /\
  ema_crossover_signal df fast slow = Ok HOLD /\
  rsi_signal df overbought oversold = Ok HOLD /\
  macd_signal df = Ok HOLD /\
  stochastic_signal df overbought oversold = Ok HOLD.
Proof.
  intros Hlen. apply Nat.ltb_lt in Hlen.
  unfold ma_crossover_signal, ema_crossover_signal, rsi_signal, macd_signal,
    stochastic_signal.
  rewrite Hlen, !orb_true_r. repeat split.
Qed.

(** Every rule answers HOLD when the column its guard names is absent. *)
Lemma rules_hold_without_guarded_column df fast slow overbought oversold :
  (has_column df ("MA_" +:+ pretty fast) = false ->
   ma_crossover_signal df fast slow = Ok HOLD) /\
  (has_column df ("MA_" +:+ pretty slow) = false ->
   ma_crossover_signal df fast slow = Ok HOLD) /\
  (has_column df ("EMA_" +:+ pretty fast) = false ->
   ema_crossover_signal df fast slow = Ok HOLD) /\
  (has_column df ("EMA_" +:+ pretty slow) = false ->
   ema_crossover_signal df fast slow = Ok HOLD) /\
  (has_column df "RSI" = false -> rsi_signal df overbought oversold = Ok HOLD) /\
  (has_column df "MACD" = false -> macd_signal df = Ok HOLD) /\
  (has_column df "Stoch_K" = false ->
   stochastic_signal df overbought oversold = Ok HOLD).
Proof.
  unfold ma_crossover_signal, ema_crossover_signal, rsi_signal, macd_signal,
    stochastic_signal.
  repeat split; intros ->; cbn [negb orb];
    rewrite ?orb_true_r; destruct (index_len df <? 2)%nat; reflexivity.
Qed.

Lemma at_back_ok df name k :
  well_formed df -> has_column df name = true ->
  (1 <= k <= index_len df)%nat ->
  exists v, at_back df name k = Ok v.
Proof.
  intros Hwf Hcol Hk. unfold at_back, column.
  unfold has_column in Hcol. apply bool_decide_eq_true in Hcol as [c Hc].
  rewrite Hc. cbn. unfold iloc_back.
  pose proof (Hwf _ _ Hc) as Hlen.
  destruct (k <=? length c)%nat eqn:Hle; [| apply Nat.leb_gt in Hle; lia].
  destruct (nth_error c (length c - k)) as [v |] eqn:Hn; [eauto |].
  apply nth_error_None in Hn. lia.
Qed.

(** The rules whose guards name every indicator column they read never
    raise on a well-formed frame with prices. *)
Lemma guarded_rules_return df fast slow overbought oversold :
  well_formed df -> has_column df "Close" = true ->
  (exists s, ma_crossover_signal df fast slow = Ok s) /\
  (exists s, ema_crossover_signal df fast slow = Ok s) /\
  (exists s, rsi_signal df overbought oversold = Ok s).
Proof.
  intros Hwf Hclose.
  unfold ma_crossover_signal, ema_crossover_signal, rsi_signal.
  destruct (index_len df <? 2)%nat eqn:Hlen;
    [ rewrite !orb_true_r; repeat split; eauto |].
  apply Nat.ltb_ge in Hlen. rewrite !orb_false_r.
  repeat split.
  - destruct (has_column df ("MA_" +:+ pretty fast)) eqn:Hf; [| cbn; eauto].
    destruct (has_column df ("MA_" +:+ pretty slow)) eqn:Hs; [| cbn; eauto].
    cbn [negb orb].
    destruct (at_back_ok df _ 1 Hwf Hf ltac:(lia)) as [? ->].
    destruct (at_back_ok df _ 2 Hwf Hf ltac:(lia)) as [? ->].
    destruct (at_back_ok df _ 1 Hwf Hs ltac:(lia)) as [? ->].
    destruct (at_back_ok df _ 2 Hwf Hs ltac:(lia)) as [? ->].
    destruct (at_back_ok df _ 1 Hwf Hclose ltac:(lia)) as [? ->].
    cbn. repeat (destruct (_ && _); eauto).
  - destruct (has_column df ("EMA_" +:+ pretty fast)) eqn:Hf; [| cbn; eauto].
    destruct (has_column df ("EMA_" +:+ pretty slow)) eqn:Hs; [| cbn; eauto].
    cbn [negb orb].
    destruct (at_back_ok df _ 1 Hwf Hf ltac:(lia)) as [? ->].
    destruct (at_back_ok df _ 2 Hwf Hf ltac:(lia)) as [? ->].
    destruct (at_back_ok df _ 1 Hwf Hs ltac:(lia)) as [? ->].
    destruct (at_back_ok df _ 2 Hwf Hs ltac:(lia)) as [? ->].
    destruct (at_back_ok df _ 1 Hwf Hclose ltac:(lia)) as [? ->].
    cbn. repeat (destruct (_ && _); eauto).
  - destruct (has_column df "RSI") eqn:Hr; [| cbn; eauto].
    cbn [negb].
    destruct (at_back_ok df _ 1 Hwf Hr ltac:(lia)) as [? ->].
    destruct (at_back_ok df _ 2 Hwf Hr ltac:(lia)) as [? ->].
    cbn. repeat (destruct (_ && _); eauto).
Qed.

(** C6 fails on the code for the MACD and the stochastic rule: their
    guards name one column and the bodies read its companions ([MACD_Signal],
    [MACD_Hist], [Stoch_D]) unguarded.  On a well-formed two-row frame that
    has the MACD line without its signal line, [macd_signal] raises
    KeyError instead of returning HOLD; [stochastic_signal] does the same
    on a frame with %K and without %D. *)
Theorem macd_and_stochastic_raise_without_companion_column :
  well_formed Samples.macd_only_frame /\
  macd_signal Samples.macd_only_frame = Raise (KeyError "MACD_Signal") /\
  well_formed Samples.stoch_k_only_frame /\
  stochastic_signal Samples.stoch_k_only_frame 80 20 = Raise (KeyError "Stoch_D").
Proof.
  split; [exact macd_only_frame_well_formed |].
  split; [vm_compute; reflexivity |].
  split; [exact stoch_k_only_frame_well_formed |].
  vm_compute; reflexivity.
Qed.
End IndicatorProperties.

(** ** Trend momentum and reversals *)

Section TrendMomentumProperties.
Import TrendMomentum.

Lemma Direction_eqb_eq a b : Direction_eqb a b = true <-> a = b.
Proof. destruct a, b; simpl; split; congruence. Qed.

(** C4: a reported reversal comes with a historical segment whose
    momentum_score exceeds 0.6 and a recent segment of the opposite
    direction (so never with two equal directions), and its strength is the
    consistency of the recent segment.  The two segments are the results of
    [calculate_trend_momentum] on the two slices of the frame. *)
Theorem detect_reversal_sound df recent_lookback historical_lookback res :
  detect_reversal df recent_lookback historical_lookback = Ok res ->
  is_reversal res = true ->
  exists d,
    segments res = Some d /\
    calculate_trend_momentum
      {| rows := iloc_window (historical_lookback + recent_lookback)
                             recent_lookback (rows df);
         has_volume := has_volume df |} historical_lookback
      = Ok (historical_momentum d) /\
    calculate_trend_momentum
      {| rows := iloc_last recent_lookback (rows df);
         has_volume := has_volume df |} recent_lookback
      = Ok (recent_momentum d) /\
    0.6 < momentum_score (historical_momentum d) /\
    opposite (direction (historical_momentum d)) (direction (recent_momentum d)) /\
    direction (historical_momentum d) <> direction (recent_momentum d) /\
    reversal_strength res = consistency (recent_momentum d).
Proof.
  unfold detect_reversal.
  destruct (length (rows df) <? historical_lookback + recent_lookback)%nat.
  { intros [= <-]. discriminate. }
  destruct (calculate_trend_momentum _ historical_lookback) as [hist| |] eqn:Hh;
    simpl; try discriminate.
  destruct (calculate_trend_momentum _ recent_lookback) as [rec| |] eqn:Hr;
    simpl; try discriminate.
  destruct (Qgtb (momentum_score hist) 0.6) eqn:Hs.
  2: { intros [= <-]. discriminate. }
  apply Qgtb_gt in Hs.
  destruct (Direction_eqb (direction hist) BULLISH
            && Direction_eqb (direction rec) BEARISH) eqn:Hbb.
  - apply andb_true_iff in Hbb as [H1 H2].
    apply Direction_eqb_eq in H1, H2.
    intros [= <-] _. eexists. split; [reflexivity |]. simpl.
    rewrite H1, H2. repeat split; auto; try (left; auto); discriminate.
  - destruct (Direction_eqb (direction hist) BEARISH
              && Direction_eqb (direction rec) BULLISH) eqn:Hbu.
    + apply andb_true_iff in Hbu as [H1 H2].
      apply Direction_eqb_eq in H1, H2.
      intros [= <-] _. eexists. split; [reflexivity |]. simpl.
      rewrite H1, H2. repeat split; auto; try (right; auto); discriminate.
    + intros [= <-]. discriminate.
Qed.

Lemma detect_reversal_sound_witness :
  exists res,
    detect_reversal Samples.rise_then_fall 5 20 = Ok res /\
    is_reversal res = true /\
    exists d, segments res = Some d /\
      0.6 < momentum_score (historical_momentum d) /\
      opposite (direction (historical_momentum d)) (direction (recent_momentum d)) /\
      reversal_strength res = consistency (recent_momentum d).
Proof.
  destruct (detect_reversal Samples.rise_then_fall 5 20) as [res| |] eqn:Hres;
    [| vm_compute in Hres; discriminate ..].
  assert (is_reversal res = true) as Hrev.
  { vm_compute in Hres. injection Hres as <-. reflexivity. }
  exists res. split; [reflexivity |]. split; [exact Hrev |].
  destruct (detect_reversal_sound _ _ _ _ Hres Hrev)
    as (d & Hd & _ & _ & Hs & Ho & _ & Hc).
  exists d. auto.
Defined.
(** C5, as stated, fails: with weights 0.1 / 0.1 / 0.8, a BUY signal, a
    bullish momentum and a bullish-to-bearish reversal of strength 1, raising
    the momentum_score from 0.2 to 0.8 lowers the confidence from 0.68 to
    0.62. *)
Lemma confidence_drops_under_heavy_reversal_weight :
  ~ confidence_monotone BUY Samples.bullish_momentum Samples.bearish_turn
      0.1 0.1 0.8 0.2 0.8.
Proof.
  intros H. specialize (H I ltac:(discriminate)).
  vm_compute in H. apply H. reflexivity.
Qed.

Lemma Qabs_Qmin_mono x y : 0 <= x -> x <= y -> Qmin (Qabs x) 1.0 <= Qmin (Qabs y) 1.0.
Proof.
  intros Hx Hxy. apply Q.min_le_compat_r.
  rewrite !Qabs_pos by lra. exact Hxy.
Qed.

Lemma Qabs_Qmin_antimono x y : x <= 0 -> y <= x -> Qmin (Qabs x) 1.0 <= Qmin (Qabs y) 1.0.
Proof.
  intros Hx Hxy. apply Q.min_le_compat_r.
  rewrite !Qabs_neg by lra. lra.
Qed.

(** C5, amended: when the momentum direction agrees with the current
    signal, the scores and the momentum and reversal weights are not
    negative, and the reversal term cannot outweigh the current signal
    ([reversal_weight * reversal_strength <= current_weight], as with the
    default weights 0.4 / 0.4 / 0.2 and a strength of at most 1), raising
    the momentum_score does not lower the confidence. *)
Theorem confidence_monotone_in_momentum_score
    current_signal m r current_weight momentum_weight reversal_weight lo hi :
  0 <= lo ->
  0 <= momentum_weight ->
  0 <= reversal_weight ->
  0 <= reversal_strength r ->
  reversal_weight * reversal_strength r <= current_weight ->
  confidence_monotone current_signal m r current_weight momentum_weight
                      reversal_weight lo hi.
Proof.
  destruct m as [d st co ms de], r as [rev rs rt prev wl seg].
  cbv [confidence_monotone confidence_at calculate_weighted_signal final_score
       with_momentum_score direction momentum_score signal_scores
       is_reversal reversal_type reversal_strength fst snd].
  intros Hlo Hmw Hrw Hrs Hcw Hag Hle.
  assert (lo * momentum_weight <= hi * momentum_weight) as Hm
    by (apply Qmult_le_compat_r; assumption).
  assert (0 <= lo * momentum_weight) as Hm0
    by (apply Qmult_le_0_compat; assumption).
  assert (0 <= reversal_weight * rs) as Hr0
    by (apply Qmult_le_0_compat; assumption).
  destruct current_signal, d; try contradiction; destruct rev, rt.
  all: try (apply Qabs_Qmin_mono; lra).
  all: try (apply Qabs_Qmin_antimono; lra).
  all: apply Qle_refl.
Qed.

Lemma confidence_monotone_witness :
  0 <= 0.2 /\ 0 <= 0.4 /\ 0 <= 0.2 /\
  0 <= reversal_strength Samples.bearish_turn /\
  0.2 * reversal_strength Samples.bearish_turn <= 0.4 /\
  confidence_monotone BUY Samples.bullish_momentum Samples.bearish_turn
                      0.4 0.4 0.2 0.2 0.8.
Proof.
  repeat (split; [discriminate |]).
  apply confidence_monotone_in_momentum_score; discriminate.
Defined.
Lemma slow_rise_is_steady : steady_rise Samples.slow_rise.
Proof.
  split; [reflexivity |]. split.
  - simpl. repeat split.
  - repeat constructor.
Qed.

(** C9, as stated, fails: twenty bullish candles rising by one pip each,
    every high above the previous one, score about 0.706, not above 0.8. *)
Lemma slow_rise_scores_low : ~ scores_above 0.8 Samples.slow_rise.
Proof.
  intros (m & Hm & _ & Hs).
  vm_compute in Hm. injection Hm as <-.
  vm_compute in Hs. discriminate.
Qed.

Lemma filter_all {A} (f : A -> bool) l :
  Forall (fun x => f x = true) l -> List.filter f l = l.
Proof.
  induction 1 as [| x l Hx _ IH]; simpl; [reflexivity |].
  rewrite Hx, IH. reflexivity.
Qed.

Lemma filter_none {A} (f : A -> bool) l :
  Forall (fun x => f x = false) l -> List.filter f l = [].
Proof.
  induction 1 as [| x l Hx _ IH]; simpl; [reflexivity |].
  rewrite Hx, IH. reflexivity.
Qed.

Lemma strictly_increasing_last a v z :
  strictly_increasing (a :: v) -> last (a :: v) = Some z -> a <= z.
Proof.
  revert a. induction v as [| b v IH]; intros a Hinc Hlast.
  - injection Hlast as <-. apply Qle_refl.
  - destruct Hinc as [Hab Hinc].
    change (last (a :: b :: v)) with (last (b :: v)) in Hlast.
    specialize (IH b Hinc Hlast). lra.
Qed.

Lemma Qnat_nonneg n : 0 <= Qnat n.
Proof.
  unfold Qnat. change 0 with (inject_Z 0). rewrite <- Zle_Qle. lia.
Qed.

Lemma Qdiv_pos a b : 0 < a -> 0 < b -> 0 < a / b.
Proof.
  intros Ha Hb. unfold Qdiv. apply Qmult_lt_0_compat; [exact Ha |].
  apply Qinv_lt_0_compat. exact Hb.
Qed.

Lemma Qdiv_nonneg a b : 0 <= a -> 0 < b -> 0 <= a / b.
Proof.
  intros Ha Hb. unfold Qdiv. apply Qmult_le_0_compat; [exact Ha |].
  apply Qlt_le_weak, Qinv_lt_0_compat. exact Hb.
Qed.

Lemma count_rises_increasing v :
  strictly_increasing v -> count_rises v = (length v - 1)%nat.
Proof.
  induction v as [| a [| b v] IH]; intros Hinc; [reflexivity .. |].
  destruct Hinc as [Hab Hinc].
  change (count_rises (a :: b :: v))
    with ((if Qgtb b a then 1 else 0) + count_rises (b :: v))%nat.
  rewrite (IH Hinc). apply Qgtb_gt in Hab. rewrite Hab. cbn [length]. lia.
Qed.

(** C9, amended: twenty bullish candles with strictly rising, positive
    closes give direction BULLISH with strength 1 and consistency 1, and a
    momentum_score strictly above 0.5; strictly above 0.7 when every high
    exceeds the previous one. *)
Theorem steady_rise_is_bullish df :
  steady_rise df ->
  Forall (fun c => 0 < Close c) (rows df) ->
  exists m,
    calculate_trend_momentum df 20 = Ok m /\
    direction m = BULLISH /\
    strength m == 1 /\
    consistency m == 1 /\
    0.5 < momentum_score m /\
    (strictly_increasing (map High (rows df)) -> 0.7 < momentum_score m).
Proof.
  intros (Hlen & Hinc & Hbull) Hpos.
  unfold calculate_trend_momentum, iloc_last.
  rewrite Hlen. change (20 <? 20)%nat with false.
  change (20 =? 0)%nat with false. cbv iota.
  rewrite Nat.sub_diag. change (skipn 0 (rows df)) with (rows df).
  rewrite (filter_all is_bullish)
    by (eapply Forall_impl; [exact Hbull |]; intros c Hc;
        apply Qgtb_gt; exact Hc).
  rewrite (filter_none is_bearish)
    by (eapply Forall_impl; [exact Hbull |]; intros c Hc;
        apply Qltb_ge; apply Qlt_le_weak; exact Hc).
  rewrite Hlen.
  destruct (rows df) as [| c0 [| c1 rest]] eqn:Hrows; try discriminate.
  remember (c1 :: rest) as tl eqn:Htl.
  assert (exists z, last (map Close (c0 :: tl)) = Some z) as [z Hz].
  { destruct (last (map Close (c0 :: tl))) eqn:Hl; [eauto |].
    apply last_None in Hl. discriminate. }
  rewrite Hz. change (head (map Close (c0 :: tl))) with (Some (Close c0)).
  cbv iota.
  assert (Close c0 < z) as Hgrow.
  { subst tl. destruct Hinc as [H01 Hinc].
    change (last (map Close (c0 :: c1 :: rest)))
      with (last (Close c1 :: map Close rest)) in Hz.
    pose proof (strictly_increasing_last _ _ _ Hinc Hz). lra. }
  assert (0 < Close c0) as Hc0 by (inversion Hpos; assumption).
  change (Qgtb (Qnat 20) (Qnat 0 * 1.5)) with true. cbv iota beta.
  change (20 - 1 =? 0)%nat with false. cbv iota.
  unfold fdiv.
  assert (Qeqb (Close c0) 0 = false) as -> by (apply Qeqb_neq; lra).
  eexists. split; [reflexivity |].
  cbv [direction strength consistency momentum_score].
  split; [reflexivity |]. split; [reflexivity |]. split; [reflexivity |].
  change (Direction_eqb BULLISH BULLISH) with true. cbv iota.
  assert (0 < (z - Close c0) / Close c0 * 100) as Hpc.
  { apply Qmult_lt_0_compat; [| reflexivity]. apply Qdiv_pos; lra. }
  assert (0 <= Qnat (count_rises (map High (c0 :: tl))) / Qnat (20 - 1)) as Hhh.
  { apply Qdiv_nonneg; [apply Qnat_nonneg | reflexivity]. }
  rewrite (Qabs_pos _ (Qlt_le_weak _ _ Hpc)).
  change (Qnat (Nat.max 20 (length [])) / Qnat 20) with (20 # 20).
  change (Qnat 20 / Qnat 20) with (20 # 20).
  set (pc := (z - Close c0) / Close c0 * 100) in *.
  split.
  - apply Q.min_glb_lt; [| reflexivity].
    set (hh := Qnat (count_rises (map High (c0 :: tl))) / Qnat (20 - 1)) in *.
    unfold Qdiv. change (/ 10) with (1 # 10). lra.
  - intros Hhigh. apply Q.min_glb_lt; [| reflexivity].
    rewrite (count_rises_increasing _ Hhigh), length_map, Hlen.
    change (Qnat (20 - 1) / Qnat (20 - 1)) with (19 # 19).
    unfold Qdiv. change (/ 10) with (1 # 10). lra.
Qed.

Lemma steady_rise_is_bullish_witness :
  steady_rise Samples.slow_rise /\
  Forall (fun c => 0 < Close c) (rows Samples.slow_rise) /\
  exists m,
    calculate_trend_momentum Samples.slow_rise 20 = Ok m /\
    direction m = BULLISH /\
    0.5 < momentum_score m.
Proof.
  assert (Forall (fun c => 0 < Close c) (rows Samples.slow_rise)) as Hpos
    by repeat constructor.
  split; [exact slow_rise_is_steady |]. split; [exact Hpos |].
  destruct (steady_rise_is_bullish _ slow_rise_is_steady Hpos)
    as (m & Hm & Hd & _ & _ & Hs & _).
  exists m. auto.
Defined.
End TrendMomentumProperties.

(** ** Consensus and ensemble voting *)

Section MultiTimeframeProperties.
Import MultiTimeframe.

Lemma Qnat_le_iff (m n : nat) : Qnat m <= Qnat n <-> (m <= n)%nat.
Proof. unfold Qnat. rewrite <- Zle_Qle. lia. Qed.

(** The loop accumulates the raw counts and the weighted totals. *)
Lemma tally_fold self analyses t :
  let weights := default default_timeframe_weights (timeframe_weights self) in
  let t' := fold_left (tally_step weights) analyses t in
  buy_count t' = (buy_count t + raw_count BUY analyses)%nat /\
  sell_count t' = (sell_count t + raw_count SELL analyses)%nat /\
  hold_count t' = (hold_count t + raw_count HOLD analyses)%nat /\
  weighted_buy t' == weighted_buy t + weighted_total self BUY analyses /\
  weighted_sell t' == weighted_sell t + weighted_total self SELL analyses.
Proof.
  cbv zeta. revert t.
  induction analyses as [| [tf a] l IH]; intros t.
  - cbn. repeat split; try lia; unfold weighted_total; cbn; lra.
  - cbn [fold_left].
    destruct (IH (tally_step
                    (default default_timeframe_weights (timeframe_weights self))
                    t (tf, a))) as (Hb & Hs & Hh & Hwb & Hws).
    rewrite Hb, Hs, Hh, Hwb, Hws. clear IH Hb Hs Hh Hwb Hws.
    unfold raw_count, weighted_total, tally_step.
    cbn [List.filter snd fst map Qsum fold_right length].
    destruct (vote_signal a); cbn [Signal_eqb buy_count sell_count hold_count
      weighted_buy weighted_sell map fold_right length Qsum fst snd];
      unfold Qsum; repeat split; try lia; try lra.
Qed.

Lemma raw_counts_total analyses :
  (raw_count BUY analyses + raw_count SELL analyses + raw_count HOLD analyses
   = length analyses)%nat.
Proof.
  unfold raw_count. induction analyses as [| [tf a] l IH]; [reflexivity |].
  cbn [List.filter snd length]. destruct (vote_signal a); cbn; lia.
Qed.

Lemma consensus_tally self analyses :
  let t := fold_left
             (tally_step (default default_timeframe_weights (timeframe_weights self)))
             analyses empty_tally in
  buy_count t = raw_count BUY analyses /\
  sell_count t = raw_count SELL analyses /\
  hold_count t = raw_count HOLD analyses /\
  weighted_buy t == weighted_total self BUY analyses /\
  weighted_sell t == weighted_total self SELL analyses.
Proof.
  destruct (tally_fold self analyses empty_tally) as (Hb & Hs & Hh & Hwb & Hws).
  cbv zeta. rewrite Hb, Hs, Hh. cbn [empty_tally buy_count sell_count hold_count
    weighted_buy weighted_sell] in *.
  repeat split; try lia; lra.
Qed.

(** C2: the consensus is BUY exactly when the weighted BUY total exceeds
    the weighted SELL total and at least [min_timeframes_agree] timeframes
    vote BUY; SELL is the mirror; it is HOLD in every other case, in
    particular when the winner of the weighted totals has fewer votes than
    the minimum, and when the totals tie. *)
Theorem consensus_requires_agreement_and_weight self analyses :
  let result := get_timeframe_consensus self analyses in
  let m := min_timeframes_agree self in
  let buys := raw_count BUY analyses in
  let sells := raw_count SELL analyses in
  let wbuy := weighted_total self BUY analyses in
  let wsell := weighted_total self SELL analyses in
  (consensus result = BUY <-> wsell < wbuy /\ m <= Qnat buys) /\
  (consensus result = SELL <-> wbuy < wsell /\ m <= Qnat sells) /\
  (consensus result = HOLD <->
     ~ (wsell < wbuy /\ m <= Qnat buys) /\ ~ (wbuy < wsell /\ m <= Qnat sells)) /\
  (wsell < wbuy -> Qnat buys < m -> consensus result = HOLD) /\
  (wbuy < wsell -> Qnat sells < m -> consensus result = HOLD) /\
  (wbuy == wsell -> consensus result = HOLD).
Proof.
  cbv zeta.
  destruct (consensus_tally self analyses) as (Hb & Hs & Hh & Hwb & Hws).
  cbv zeta in Hb, Hs, Hh, Hwb, Hws.
  set (wbuy := weighted_total self BUY analyses) in *.
  set (wsell := weighted_total self SELL analyses) in *.
  assert (consensus (get_timeframe_consensus self analyses) =
          if Qgtb wbuy wsell && Qgeb (Qnat (raw_count BUY analyses))
                                     (min_timeframes_agree self)
          then BUY
          else if Qgtb wsell wbuy && Qgeb (Qnat (raw_count SELL analyses))
                                          (min_timeframes_agree self)
          then SELL else HOLD) as ->.
  { unfold get_timeframe_consensus.
    destruct analyses as [| item rest] eqn:Hl.
    - reflexivity.
    - rewrite <- Hl in *. clear Hl.
      set (t := fold_left _ analyses empty_tally) in *.
      rewrite Hb, Hs.
      assert (Qgtb (weighted_buy t) (weighted_sell t) = Qgtb wbuy wsell) as ->.
      { unfold Qgtb, Qltb. rewrite Hwb, Hws. reflexivity. }
      assert (Qgtb (weighted_sell t) (weighted_buy t) = Qgtb wsell wbuy) as ->.
      { unfold Qgtb, Qltb. rewrite Hwb, Hws. reflexivity. }
      destruct (Qgtb wbuy wsell && _); [reflexivity |].
      destruct (Qgtb wsell wbuy && _); reflexivity. }
  destruct (Qgtb wbuy wsell) eqn:H1;
    destruct (Qgeb (Qnat (raw_count BUY analyses)) (min_timeframes_agree self)) eqn:H2;
    destruct (Qgtb wsell wbuy) eqn:H3;
    destruct (Qgeb (Qnat (raw_count SELL analyses)) (min_timeframes_agree self)) eqn:H4;
    cbn [andb];
    try (apply Qgtb_gt in H1); try (apply Qgtb_le in H1);
    try (apply Qgtb_gt in H3); try (apply Qgtb_le in H3);
    try (apply Qgeb_ge in H2); try (apply Qgeb_ge in H4);
    try (apply not_true_iff_false in H2; rewrite Qgeb_ge in H2);
    try (apply not_true_iff_false in H4; rewrite Qgeb_ge in H4);
    repeat split; intros; try discriminate; try tauto; try lra;
    try (exfalso; intuition lra).
Qed.

(** C10: for a non-empty map the three counts add up to
    [total_timeframes], and [agreement_count] is one of them, hence at most
    [total_timeframes]. *)
Theorem consensus_counts_partition self analyses :
  analyses <> [] ->
  let result := get_timeframe_consensus self analyses in
  exists b,
    breakdown result = Some b /\
    (buy_timeframes b + sell_timeframes b + hold_timeframes b
     = total_timeframes result)%nat /\
    (agreement_count result = buy_timeframes b \/
     agreement_count result = sell_timeframes b \/
     agreement_count result = hold_timeframes b) /\
    (agreement_count result <= total_timeframes result)%nat.
Proof.
  intros Hne. cbv zeta.
  destruct (consensus_tally self analyses) as (Hb & Hs & Hh & _ & _).
  cbv zeta in Hb, Hs, Hh.
  pose proof (raw_counts_total analyses) as Htot.
  unfold get_timeframe_consensus.
  destruct analyses as [| item rest] eqn:Hl; [congruence |].
  rewrite <- Hl in *. clear Hl Hne.
  set (t := fold_left _ analyses empty_tally) in *.
  exists {| buy_timeframes := buy_count t;
            sell_timeframes := sell_count t;
            hold_timeframes := hold_count t;
            reversals_detected := reversals t;
            has_reversal_warning := (0 <? length (reversals t))%nat |}.
  destruct (Qgtb (weighted_buy t) (weighted_sell t) && _);
    [| destruct (Qgtb (weighted_sell t) (weighted_buy t) && _)];
    cbn [buy_timeframes sell_timeframes hold_timeframes total_timeframes
         agreement_count breakdown];
    (split; [reflexivity |]); (split; [lia |]); (split; [tauto | lia]).
Qed.

Lemma consensus_counts_partition_witness :
  Samples.three_of_four <> [] /\
  exists b,
    breakdown (get_timeframe_consensus Samples.plain_config Samples.three_of_four)
      = Some b /\
    (buy_timeframes b + sell_timeframes b + hold_timeframes b = 4)%nat.
Proof.
  assert (Samples.three_of_four <> []) as Hne by discriminate.
  split; [exact Hne |].
  destruct (consensus_counts_partition Samples.plain_config _ Hne)
    as (b & Hb & Hsum & _).
  exists b. split; [exact Hb |]. exact Hsum.
Defined.

(** The scenario of the specification: three of four timeframes vote BUY
    with confidence 0.6, the weighted BUY total is 0.54, the consensus is
    BUY. *)
Lemma three_of_four_is_buy :
  let result := get_timeframe_consensus Samples.plain_config Samples.three_of_four in
  consensus result = BUY /\ agreement_count result = 3%nat /\
  confidence result == 0.54.
Proof. cbv zeta. repeat split. Qed.
End MultiTimeframeProperties.

Section EnsembleProperties.
Import Ensemble.

(** C3: the vote is BUY (SELL) only when that side's score strictly
    exceeds the other side's score and 0.5; when both scores are at most
    0.5 the vote is HOLD. *)
Theorem vote_needs_winning_score_above_half technical_signals ml_prediction weights :
  let result := vote technical_signals ml_prediction weights in
  let w := default default_weights weights in
  let buy := buy_score technical_signals ml_prediction w in
  let sell := sell_score technical_signals ml_prediction w in
  (signal result = BUY -> sell < buy /\ 0.5 < buy) /\
  (signal result = SELL -> buy < sell /\ 0.5 < sell) /\
  (buy <= 0.5 -> sell <= 0.5 -> signal result = HOLD).
Proof.
  cbv zeta. unfold vote, buy_score, sell_score.
  destruct (technical_consensus technical_signals) as [tech_signal tech_confidence].
  destruct (scores technical_signals ml_prediction (default default_weights weights))
    as [buy sell].
  cbn [fst snd].
  destruct (Qgtb buy sell) eqn:H1; destruct (Qgtb buy 0.5) eqn:H2;
    destruct (Qgtb sell buy) eqn:H3; destruct (Qgtb sell 0.5) eqn:H4;
    cbn [andb signal];
    try (apply Qgtb_gt in H1); try (apply Qgtb_le in H1);
    try (apply Qgtb_gt in H2); try (apply Qgtb_le in H2);
    try (apply Qgtb_gt in H3); try (apply Qgtb_le in H3);
    try (apply Qgtb_gt in H4); try (apply Qgtb_le in H4);
    repeat split; intros; try discriminate; try lra.
Qed.
End EnsembleProperties.

(** * Further properties *)

(** ** Validation and the single trade plan *)

Section RiskPlanProperties.
Import Risk.

Lemma Signal_eqb_eq a b : Signal_eqb a b = true <-> a = b.
Proof. destruct a, b; simpl; split; congruence. Qed.

(** X1: A trade is approved exactly when the signal is not HOLD, the
    confidence reaches the configured minimum and the drawdown does not
    exceed the configured maximum; an approval carries the single reason
    that all checks passed, a rejection carries at least one reason and
    never that one. *)
Theorem validate_trade_approves_iff self signal confidence account_balance :
  let v := validate_trade self signal confidence account_balance in
  let min_confidence := default 0.6 (confluence_config self !! "min_confidence") in
  let max_drawdown := default 0.15 (risk_config self !! "max_drawdown") in
  (approved v = true <->
     signal <> HOLD /\ min_confidence <= confidence /\
     current_drawdown self <= max_drawdown) /\
  (approved v = true -> reasons v = [AllRiskChecksPassed]) /\
  (approved v = false -> reasons v <> [] /\ ~ In AllRiskChecksPassed (reasons v)).
Proof.
  cbv zeta. unfold validate_trade.
  destruct (Signal_eqb signal HOLD) eqn:Hs.
  { apply Signal_eqb_eq in Hs. subst. cbn.
    repeat split; try discriminate; try tauto; intuition (try discriminate). }
  assert (signal <> HOLD) as Hne
    by (intros ->; discriminate).
  destruct (Qltb confidence _) eqn:Hc; destruct (Qgtb (current_drawdown self) _) eqn:Hd;
    cbn [approved reasons app];
    try (apply Qltb_lt in Hc); try (apply Qltb_ge in Hc);
    try (apply Qgtb_gt in Hd); try (apply Qgtb_le in Hd);
    repeat split; intros; try discriminate; try tauto; try lra;
    try (intuition (try discriminate; try lra)).
  all: cbn in *; intuition discriminate.
Qed.

(** A rejected trade never reads the frame. *)
Lemma create_trade_plan_rejected self signal entry_price confidence
    account_balance df now :
  approved (validate_trade self signal confidence account_balance) = false ->
  create_trade_plan self signal entry_price confidence account_balance df now
  = Ok (Rejected signal
          (reasons (validate_trade self signal confidence account_balance))).
Proof. intros H. unfold create_trade_plan. rewrite H. reflexivity. Qed.

(** X3: With a finite ATR and a non-zero stop distance an approved plan puts
    the stop [ATR * atr_multiplier] away from the entry, risks
    [balance * risk_per_trade], sizes the position so that the units times
    the stop distance are that amount, and has the configured
    [min_risk_reward] as its risk:reward ratio, so that the potential profit
    is that ratio times the potential loss. *)
Theorem create_trade_plan_economics self signal entry_price confidence
    account_balance df now atr :
  approved (validate_trade self signal confidence account_balance) = true ->
  has_column df "ATR" = true ->
  Indicators.at_back df "ATR" 1 = Ok (Some atr) ->
  let multiplier := default 2.0 (risk_config self !! "atr_multiplier") in
  let reward := default 1.5 (risk_config self !! "min_risk_reward") in
  let risk := account_balance * risk_fraction self None in
  ~ atr * multiplier == 0 ->
  exists plan,
    create_trade_plan self signal entry_price confidence account_balance df now
      = Ok (Approved plan) /\
    Qabs (plan_entry_price plan - plan_stop_loss plan) == Qabs (atr * multiplier) /\
    plan_risk_amount plan == risk /\
    plan_potential_loss plan == risk /\
    plan_position_size_units plan
      * Qabs (plan_entry_price plan - plan_stop_loss plan) == risk /\
    (exists ratio, plan_risk_reward_ratio plan = Some ratio /\
                   ratio == Qabs reward) /\
    plan_potential_profit plan == Qabs reward * risk.
Proof.
  intros Happ Hcol Hatr multiplier reward risk Hnz.
  unfold create_trade_plan. rewrite Happ. cbn [negb].
  unfold calculate_stop_loss. rewrite Hcol. cbn [negb].
  unfold Indicators.at_back in Hatr.
  destruct (column df "ATR") as [col | |]; try discriminate.
  cbn in Hatr. cbn [mbind outcome_bind]. rewrite Hatr.
  fold multiplier.
  assert (forall stop,
    Qabs (entry_price - stop) == Qabs (atr * multiplier) ->
    exists plan,
      (Ok stop ≫= (fun stop_loss : Q =>
         let take_profit :=
           calculate_take_profit self entry_price stop_loss signal None in
         let position_info :=
           calculate_position_size self account_balance entry_price stop_loss None in
         sized_fields "position_size_lots" position_info
         ≫= fun '(units, lots, risk0, pct) =>
           Ok (Approved
             {| plan_signal := signal; plan_confidence := confidence;
                plan_entry_price := entry_price; plan_stop_loss := stop_loss;
                plan_take_profit := take_profit;
                plan_position_size_lots := lots;
                plan_position_size_units := units;
                plan_risk_amount := risk0; plan_risk_percentage := pct;
                plan_potential_profit := Qabs (take_profit - entry_price) * units;
                plan_potential_loss := risk0;
                plan_risk_reward_ratio :=
                  fdiv (Qabs (take_profit - entry_price))
                       (Qabs (stop_loss - entry_price));
                plan_timestamp := now |})))
      = Ok (Approved plan) /\
      Qabs (plan_entry_price plan - plan_stop_loss plan) == Qabs (atr * multiplier) /\
      plan_risk_amount plan == risk /\
      plan_potential_loss plan == risk /\
      plan_position_size_units plan
        * Qabs (plan_entry_price plan - plan_stop_loss plan) == risk /\
      (exists ratio, plan_risk_reward_ratio plan = Some ratio /\
                     ratio == Qabs reward) /\
      plan_potential_profit plan == Qabs reward * risk) as Hmain.
  { intros stop Hdist.
    assert (~ Qabs (entry_price - stop) == 0) as Hpos.
    { rewrite Hdist. intros H0. apply Hnz.
      revert H0. apply Qabs_case; intros; lra. }
    cbn [mbind outcome_bind]. unfold calculate_position_size.
    apply Qeqb_neq in Hpos as Hpos'. rewrite Hpos'.
    cbn [sized_fields mbind outcome_bind].
    eexists. split; [reflexivity |].
    cbn [plan_entry_price plan_stop_loss plan_risk_amount plan_potential_loss
         plan_position_size_units plan_risk_reward_ratio plan_potential_profit].
    fold risk.
    set (d := Qabs (entry_price - stop)) in *.
    assert (Qabs (calculate_take_profit self entry_price stop signal None
                  - entry_price) == d * Qabs reward) as Htp.
    { unfold calculate_take_profit. fold reward. fold d.
      destruct (Signal_eqb signal BUY).
      - setoid_replace (entry_price + d * reward - entry_price)
          with (d * reward) using relation Qeq by ring.
        rewrite Qabs_Qmult. subst d. rewrite (Qabs_pos (Qabs _)) by apply Qabs_nonneg. reflexivity.
      - setoid_replace (entry_price - d * reward - entry_price)
          with (- (d * reward)) using relation Qeq by ring.
        rewrite Qabs_opp, Qabs_Qmult. subst d. rewrite (Qabs_pos (Qabs _)) by apply Qabs_nonneg. reflexivity. }
    split; [exact Hdist |]. split; [reflexivity |]. split; [reflexivity |].
    split; [field; exact Hpos |].
    split.
    - unfold fdiv.
      assert (Qabs (stop - entry_price) == d) as Hd'.
      { subst d. rewrite <- (Qabs_opp (stop - entry_price)).
        apply Qabs_wd. ring. }
      assert (Qeqb (Qabs (stop - entry_price)) 0 = false) as ->.
      { apply Qeqb_neq. rewrite Hd'. exact Hpos. }
      eexists. split; [reflexivity |].
      rewrite Htp, Hd'. field. exact Hpos.
    - rewrite Htp. field. exact Hpos. }
  destruct (Signal_eqb signal BUY) eqn:Hb.
  - apply Hmain.
    setoid_replace (entry_price - (entry_price - atr * multiplier))
      with (atr * multiplier) using relation Qeq by ring. reflexivity.
  - apply Hmain.
    setoid_replace (entry_price - (entry_price + atr * multiplier))
      with (- (atr * multiplier)) using relation Qeq by ring.
    apply Qabs_opp.
Qed.
End RiskPlanProperties.

(** ** The ladders *)

Section LadderProperties.
Import Risk.

Lemma round_half_even_bounds x :
  (Qfloor x <= round_half_even x <= Qfloor x + 1)%Z.
Proof.
  unfold round_half_even.
  destruct (Qcompare _ _); [destruct (Z.even _) | |]; lia.
Qed.

Lemma round_half_even_mono x y : x <= y -> (round_half_even x <= round_half_even y)%Z.
Proof.
  intros Hxy.
  pose proof (Qfloor_resp_le _ _ Hxy) as Hfl.
  pose proof (round_half_even_bounds x) as Hx.
  pose proof (round_half_even_bounds y) as Hy.
  destruct (Z.eq_dec (Qfloor x) (Qfloor y)) as [Heq | Hne]; [| lia].
  unfold round_half_even. rewrite <- Heq.
  destruct (Qcompare_spec (x - inject_Z (Qfloor x)) (1 # 2));
    destruct (Qcompare_spec (y - inject_Z (Qfloor x)) (1 # 2));
    try lia; try (destruct (Z.even (Qfloor x)); lia); exfalso; lra.
Qed.

Lemma py_round_mono x y n : x <= y -> py_round x n <= py_round y n.
Proof.
  intros Hxy. unfold py_round.
  assert (0 < inject_Z (10 ^ Z.of_nat n)) as Hs.
  { change 0 with (inject_Z 0). rewrite <- Zlt_Qlt.
    apply Z.pow_pos_nonneg; lia. }
  set (s := inject_Z (10 ^ Z.of_nat n)) in *.
  unfold Qdiv. apply Qmult_le_compat_r.
  - rewrite <- Zle_Qle. apply round_half_even_mono.
    apply Qmult_le_compat_r; [exact Hxy | lra].
  - apply Qlt_le_weak, Qinv_lt_0_compat, Hs.
Qed.

(** X4: For a non-negative ATR and entry price the ladders are ordered: a
    wider stop is never nearer to the entry than a tighter one, the 3% stop
    is never nearer than the 2% stop, and a later target is never nearer
    than an earlier one. *)
Theorem ladders_are_ordered signal entry_price atr :
  0 <= atr -> 0 <= entry_price ->
  let stops := map (fun kv => sl_price (snd kv))
                   (_calculate_multiple_stop_losses entry_price signal atr) in
  let targets := map (fun kv => tp_price (snd kv))
                     (_calculate_multiple_take_profits entry_price signal atr) in
  exists tight standard wide pct2 pct3 tp1 tp2 tp3 tp4,
    stops = [tight; standard; wide; pct2; pct3] /\
    targets = [tp1; tp2; tp3; tp4] /\
    match signal with
    | BUY => wide <= standard /\ standard <= tight /\ pct3 <= pct2 /\
             tp1 <= tp2 /\ tp2 <= tp3 /\ tp3 <= tp4
    | _ => tight <= standard /\ standard <= wide /\ pct2 <= pct3 /\
           tp4 <= tp3 /\ tp3 <= tp2 /\ tp2 <= tp1
    end.
Proof.
  intros Ha He. cbv zeta.
  destruct signal; cbn [_calculate_multiple_stop_losses
    _calculate_multiple_take_profits Signal_eqb map snd sl_price tp_price
    atr_stop pct_stop atr_target];
    do 9 eexists; (split; [reflexivity |]); (split; [reflexivity |]);
    repeat split; apply py_round_mono; lra.
Qed.

Lemma ladders_are_ordered_witness :
  0 <= 0.005 /\ 0 <= 1.1 /\
  exists tight standard wide,
    firstn 3 (map (fun kv => sl_price (snd kv))
                  (_calculate_multiple_stop_losses 1.1 BUY 0.005))
      = [tight; standard; wide] /\
    wide <= standard /\ standard <= tight.
Proof.
  split; [discriminate |]. split; [discriminate |].
  destruct (ladders_are_ordered BUY 1.1 0.005)
    as (t & s & w & p2 & p3 & t1 & t2 & t3 & t4 & Hs & _ & Hws & Hst & _);
    [discriminate | discriminate |].
  exists t, s, w. rewrite Hs. auto.
Defined.

(** Whatever the inputs, the take-profit ladder has its four named rungs,
    whose close percentages add up to 100, with the conservative target as
    the only recommended one; the stop-loss ladder has its five named rungs
    with the standard stop as the only recommended one. *)
Theorem take_profit_ladder_closes_position entry_price signal atr :
  let targets := _calculate_multiple_take_profits entry_price signal atr in
  let stops := _calculate_multiple_stop_losses entry_price signal atr in
  map fst targets
    = ["tp1_quick"; "tp2_conservative"; "tp3_moderate"; "tp4_aggressive"] /\
  fold_right Z.add 0%Z (map (fun kv => tp_position_close_pct (snd kv)) targets)
    = 100%Z /\
  map fst (List.filter (fun kv => tp_recommended (snd kv)) targets)
    = ["tp2_conservative"] /\
  map fst stops
    = ["tight_1atr"; "standard_2atr"; "wide_3atr"; "percentage_2pct";
       "percentage_3pct"] /\
  map fst (List.filter (fun kv => sl_recommended (snd kv)) stops)
    = ["standard_2atr"].
Proof. destruct signal; repeat split. Qed.
End LadderProperties.

(** ** Plans per timeframe *)

Section PlannerProperties.
Import Risk TradePlanner.

Lemma whole_hours (m : nat) : (m - m mod 60 = 60 * (m / 60))%nat.
Proof. pose proof (Nat.div_mod_eq m 60). lia. Qed.

Lemma whole_hours_same_day (m : nat) :
  ((m - m mod 60) / 1440 = m / 1440 /\
   ((m - m mod 60) mod 1440) / 60 = (m mod 1440) / 60)%nat.
Proof.
  rewrite whole_hours. change 1440%nat with (60 * 24)%nat. split.
  - rewrite Nat.Div0.div_mul_cancel_l by lia.
    rewrite <- Nat.Div0.div_div. reflexivity.
  - rewrite Nat.Div0.mul_mod_distr_l, Nat.Div0.mod_mul_r.
    rewrite (Nat.mul_comm 60 ((m / 60) mod 24)), Nat.div_mul by lia.
    rewrite Nat.div_add by lia.
    rewrite (Nat.div_small (m mod 60)) by (apply Nat.mod_upper_bound; lia).
    reflexivity.
Qed.

(** X5: From one day on the readable duration names days and hours only: the
    minutes beyond the last full hour do not show. *)
Theorem format_duration_drops_minutes_after_a_day (m : nat) :
  (1440 <= m)%nat ->
  _format_duration m = _format_duration (m - m mod 60).
Proof.
  intros Hm. unfold _format_duration.
  pose proof (Nat.mod_upper_bound m 60 ltac:(lia)) as Hmod.
  destruct (whole_hours_same_day m) as [-> ->].
  assert ((m <? 60)%nat = false) as -> by (apply Nat.ltb_ge; lia).
  assert ((m <? 1440)%nat = false) as -> by (apply Nat.ltb_ge; lia).
  assert ((m - m mod 60 <? 60)%nat = false) as -> by (apply Nat.ltb_ge; lia).
  assert ((m - m mod 60 <? 1440)%nat = false) as ->; [| reflexivity].
  apply Nat.ltb_ge. rewrite whole_hours.
  pose proof (Nat.div_mod_eq m 60). lia.
Qed.

Lemma format_duration_drops_minutes_witness :
  (1440 <= 1505)%nat /\ _format_duration 1505 = "1 days 1 hours"
  /\ _format_duration 1505 = _format_duration 1500.
Proof.
  split; [lia |]. split; [reflexivity |].
  exact (format_duration_drops_minutes_after_a_day 1505 ltac:(lia)).
Defined.

Lemma round_half_even_comp x y : x == y -> round_half_even x = round_half_even y.
Proof.
  intros Hxy. unfold round_half_even.
  rewrite (Qfloor_comp _ _ Hxy).
  assert (Qcompare (x - inject_Z (Qfloor y)) (1 # 2)
          = Qcompare (y - inject_Z (Qfloor y)) (1 # 2)) as ->; [| reflexivity].
  apply Qcompare_comp; [rewrite Hxy |]; reflexivity.
Qed.

Lemma py_round_comp x y n : x == y -> py_round x n = py_round y n.
Proof.
  intros Hxy. unfold py_round.
  rewrite (round_half_even_comp (x * inject_Z (10 ^ Z.of_nat n))
                                (y * inject_Z (10 ^ Z.of_nat n)));
    [reflexivity |].
  rewrite Hxy. reflexivity.
Qed.

Lemma round_half_even_Z n : round_half_even (inject_Z n) = n.
Proof.
  unfold round_half_even. rewrite Qfloor_Z.
  destruct (Qcompare_spec (inject_Z n - inject_Z n) (1 # 2)) as [H | H | H];
    [exfalso; lra | reflexivity | exfalso; lra].
Qed.

Lemma py_round_on_grid x : on_grid x -> py_round x 5 == x.
Proof.
  intros [n Hn]. unfold py_round.
  change (inject_Z (10 ^ Z.of_nat 5)) with 100000.
  rewrite (round_half_even_comp (x * 100000) (inject_Z n)).
  - rewrite round_half_even_Z. symmetry. exact Hn.
  - rewrite Hn. field.
Qed.

Lemma on_grid_combine x y (k : Z) :
  on_grid x -> on_grid y -> on_grid (x + inject_Z k * y).
Proof.
  intros [n Hn] [m Hm]. exists (n + k * m)%Z.
  rewrite Hn, Hm, inject_Z_plus, inject_Z_mult. field.
Qed.
Lemma on_grid_eq x y : x == y -> on_grid x -> on_grid y.
Proof. intros Hxy [n Hn]. exists n. rewrite <- Hxy. exact Hn. Qed.

Lemma standard_stop entry_price signal atr :
  item (_calculate_multiple_stop_losses entry_price signal atr) "standard_2atr"
  = Ok (atr_stop
          (py_round (if Signal_eqb signal BUY then entry_price - 2 * atr
                     else entry_price + 2 * atr) 5)
          "Standard stop - Recommended (allows normal volatility)"
          entry_price atr 2 true).
Proof. destruct signal; reflexivity. Qed.

Lemma latest_get_ok df name :
  Indicators.well_formed df -> index_len df <> 0%nat ->
  exists v, latest_get df name = Ok v.
Proof.
  intros Hwf Hlen. unfold latest_get.
  destruct (columns df !! name) as [c |] eqn:Hc; [| eauto].
  pose proof (Hwf _ _ Hc) as Hl. unfold iloc_back.
  destruct (1 <=? length c)%nat eqn:Hle; [| apply Nat.leb_gt in Hle; lia].
  destruct (nth_error c (length c - 1)) as [v |] eqn:Hn; [cbn; eauto |].
  apply nth_error_None in Hn. lia.
Qed.

Lemma entries_ok entry_price signal atr df :
  Indicators.well_formed df -> index_len df <> 0%nat ->
  exists entries,
    _calculate_multiple_entries entry_price signal atr df = Ok entries.
Proof.
  intros Hwf Hlen. unfold _calculate_multiple_entries.
  destruct (latest_get_ok df "BB_Lower" Hwf Hlen) as [? ->].
  destruct (latest_get_ok df "BB_Upper" Hwf Hlen) as [? ->].
  destruct (latest_get_ok df "BB_Middle" Hwf Hlen) as [? ->].
  apply Nat.eqb_neq in Hlen as ->.
  destruct (Signal_eqb signal BUY); cbn; eauto.
Qed.
End PlannerProperties.

Section PlannerCases.
Import Risk TradePlanner.

(** What [timeframe_plan] does once the ATR is known. *)
Lemma timeframe_plan_cases self signal entry_price account_balance tf df atr :
  Indicators.well_formed df -> index_len df <> 0%nat ->
  planning_atr entry_price df = Ok atr ->
  let standard :=
    py_round (if Signal_eqb signal BUY then entry_price - 2 * atr
              else entry_price + 2 * atr) 5 in
  (Qabs (entry_price - standard) == 0 ->
   timeframe_plan self signal entry_price account_balance tf df
   = Raise (KeyError "position_size_lots")) /\
  (~ Qabs (entry_price - standard) == 0 ->
   forall plan,
     timeframe_plan self signal entry_price account_balance tf df = Ok plan ->
     timeframe plan = tf /\
     stop_losses plan = _calculate_multiple_stop_losses entry_price signal atr /\
     take_profits plan = _calculate_multiple_take_profits entry_price signal atr /\
     position_sizing plan =
       {| position_size_lots :=
            account_balance * risk_fraction self None
            / Qabs (entry_price - standard) / 100000;
          position_size_units :=
            account_balance * risk_fraction self None
            / Qabs (entry_price - standard);
          sizing_risk_amount := account_balance * risk_fraction self None;
          sizing_risk_percentage := risk_fraction self None * 100 |} /\
     risk_reward_ratios plan =
       (if Qgtb (Qabs (entry_price - standard)) 0 then
          map (fun kv =>
                 (fst kv,
                  py_round (Qabs (tp_price (snd kv) - entry_price)
                            / Qabs (entry_price - standard)) 2))
              (_calculate_multiple_take_profits entry_price signal atr)
        else [])).
Proof.
  intros Hwf Hlen Hatr standard.
  unfold timeframe_plan. rewrite Hatr. cbn [mbind outcome_bind].
  destruct (entries_ok entry_price signal atr df Hwf Hlen) as [entries ->].
  cbn [mbind outcome_bind]. rewrite standard_stop. cbn [mbind outcome_bind].
  cbn [sl_price atr_stop]. fold standard.
  unfold calculate_position_size.
  split.
  - intros Hz. apply Qeqb_eq in Hz. rewrite Hz. reflexivity.
  - intros Hnz plan. apply Qeqb_neq in Hnz. rewrite Hnz.
    cbn [sized_fields mbind outcome_bind].
    destruct (_extract_indicators df) as [ind | |]; cbn [mbind outcome_bind];
      try discriminate.
    intros [= <-]. cbn. repeat split.
Qed.

(** X6: On a well-formed frame with rows, every plan of a timeframe that is
    returned is filed under its timeframe, has a standard stop that differs
    from the entry, risks [balance * risk_per_trade], and sizes the position
    so that the units times the distance to the standard stop are that
    amount, with one lot for every 100000 units. *)
Theorem timeframe_plan_sizes_to_risk self signal entry_price account_balance
    tf df plan :
  Indicators.well_formed df -> index_len df <> 0%nat ->
  timeframe_plan self signal entry_price account_balance tf df = Ok plan ->
  exists standard,
    item (stop_losses plan) "standard_2atr" = Ok standard /\
    timeframe plan = tf /\
    ~ Qabs (entry_price - sl_price standard) == 0 /\
    sizing_risk_amount (position_sizing plan)
      == account_balance * risk_fraction self None /\
    position_size_units (position_sizing plan)
      * Qabs (entry_price - sl_price standard)
      == account_balance * risk_fraction self None /\
    position_size_lots (position_sizing plan) * 100000
      == position_size_units (position_sizing plan).
Proof.
  intros Hwf Hlen Hplan.
  destruct (planning_atr entry_price df) as [atr | |] eqn:Hatr;
    try (unfold timeframe_plan in Hplan; rewrite Hatr in Hplan; discriminate).
  destruct (timeframe_plan_cases self signal entry_price account_balance tf df
              atr Hwf Hlen Hatr) as [Hzero Hsized].
  set (standard := py_round (if Signal_eqb signal BUY then entry_price - 2 * atr
                             else entry_price + 2 * atr) 5) in *.
  assert (~ Qabs (entry_price - standard) == 0) as Hnz.
  { intros Hz. rewrite (Hzero Hz) in Hplan. discriminate. }
  destruct (Hsized Hnz plan Hplan) as (Htf & Hstops & _ & Hsize & _).
  rewrite Hstops, standard_stop, Hsize.
  eexists. split; [reflexivity |].
  cbn [sl_price atr_stop position_size_units position_size_lots
       sizing_risk_amount].
  fold standard. split; [exact Htf |]. split; [exact Hnz |].
  split; [reflexivity |]. split; field; exact Hnz.
Qed.

(** X7: An approved request whose first timeframe has a well-formed frame
    with rows, a zero ATR and an entry price quoted to five decimals does
    not produce plans: the standard stop is the entry, the sizing returns
    its error dictionary, and reading the lot size from it raises
    KeyError. *)
Theorem multi_plan_zero_atr_raises self signal entry_price confidence
    account_balance dataframes tf rest df :
  approved (validate_trade self signal confidence account_balance) = true ->
  dataframes !! tf = Some df ->
  df_empty df = false ->
  Indicators.well_formed df ->
  planning_atr entry_price df = Ok 0 ->
  on_grid entry_price ->
  create_multi_timeframe_trade_plans self signal entry_price confidence
    account_balance dataframes (Some (tf :: rest))
  = Raise (KeyError "position_size_lots").
Proof.
  intros Happ Hdf Hne Hwf Hatr Hgrid.
  unfold create_multi_timeframe_trade_plans. rewrite Happ.
  cbn [negb from_option id plan_timeframes]. rewrite Hdf, Hne.
  assert (index_len df <> 0%nat) as Hlen.
  { unfold df_empty in Hne. apply orb_false_iff in Hne as [Hne _].
    apply Nat.eqb_neq in Hne. exact Hne. }
  destruct (timeframe_plan_cases self signal entry_price account_balance tf df
              0 Hwf Hlen Hatr) as [Hzero _].
  rewrite Hzero; [reflexivity |].
  assert (py_round (if Signal_eqb signal BUY then entry_price - 2 * 0
                    else entry_price + 2 * 0) 5 = py_round entry_price 5) as ->
    by (apply py_round_comp; destruct (Signal_eqb signal BUY); ring).
  pose proof (py_round_on_grid _ Hgrid) as Hg.
  apply Qabs_case; intros; lra.
Qed.

Lemma on_grid_plus x y : on_grid x -> on_grid y -> on_grid (x + y).
Proof.
  intros [n Hn] [m Hm]. exists (n + m)%Z.
  rewrite Hn, Hm, inject_Z_plus. field.
Qed.

Lemma on_grid_minus x y : on_grid x -> on_grid y -> on_grid (x - y).
Proof.
  intros [n Hn] [m Hm]. exists (n - m)%Z.
  rewrite Hn, Hm. unfold Z.sub. rewrite inject_Z_plus, inject_Z_opp. field.
Qed.

Lemma on_grid_scale (k : Z) y : on_grid y -> on_grid (inject_Z k * y).
Proof.
  intros [m Hm]. exists (k * m)%Z. rewrite Hm, inject_Z_mult. field.
Qed.

Lemma extract_fields_ok df fields :
  Indicators.well_formed df -> index_len df <> 0%nat ->
  exists l, extract_fields df fields = Ok l.
Proof.
  intros Hwf Hlen. induction fields as [| f rest [l IH]]; [cbn; eauto |].
  cbn [extract_fields].
  destruct (latest_get_ok df f Hwf Hlen) as [v ->]. cbn [mbind outcome_bind].
  rewrite IH. cbn [mbind outcome_bind].
  destruct v as [[q |] |]; eauto.
Qed.

(** On a well-formed frame with rows the plan of a timeframe is returned
    as soon as the ATR is finite and the standard stop is not the entry. *)
Lemma timeframe_plan_returns self signal entry_price account_balance tf df atr :
  Indicators.well_formed df -> index_len df <> 0%nat ->
  planning_atr entry_price df = Ok atr ->
  ~ Qabs (entry_price
          - py_round (if Signal_eqb signal BUY then entry_price - 2 * atr
                      else entry_price + 2 * atr) 5) == 0 ->
  exists plan,
    timeframe_plan self signal entry_price account_balance tf df = Ok plan.
Proof.
  intros Hwf Hlen Hatr Hnz.
  unfold timeframe_plan. rewrite Hatr. cbn [mbind outcome_bind].
  destruct (entries_ok entry_price signal atr df Hwf Hlen) as [entries ->].
  cbn [mbind outcome_bind]. rewrite standard_stop. cbn [mbind outcome_bind].
  cbn [sl_price atr_stop]. unfold calculate_position_size.
  apply Qeqb_neq in Hnz. rewrite Hnz. cbn [sized_fields mbind outcome_bind].
  unfold _extract_indicators.
  apply Nat.eqb_neq in Hlen as Hlen'. rewrite Hlen'.
  destruct (extract_fields_ok df indicator_fields Hwf Hlen) as [l ->].
  cbn [mbind outcome_bind]. eauto.
Qed.

(** X8: When the entry price and a positive ATR are quoted to five decimals,
    the plan of a timeframe is returned, its ATR stops and its targets lie
    exactly 1, 2, 3 (and 5) ATR from the entry on their side, and the
    risk:reward ratios against the standard stop are 0.5, 1, 1.5 and 2.5. *)
Theorem grid_prices_give_exact_ladders self signal entry_price account_balance
    tf df atr :
  Indicators.well_formed df -> index_len df <> 0%nat ->
  planning_atr entry_price df = Ok atr ->
  on_grid entry_price -> on_grid atr -> 0 < atr ->
  let side (k : Q) :=
    if Signal_eqb signal BUY then entry_price + k * atr
    else entry_price - k * atr in
  exists plan,
    timeframe_plan self signal entry_price account_balance tf df = Ok plan /\
    Forall2 (fun kv k => tp_price (snd kv) == side k)
            (take_profits plan) [1; 2; 3; 5] /\
    Forall2 (fun kv k => sl_price (snd kv) == side (- k))
            (firstn 3 (stop_losses plan)) [1; 2; 3] /\
    Forall2 (fun kv expected => fst kv = fst expected /\ snd kv == snd expected)
            (risk_reward_ratios plan)
            [ ("tp1_quick", 0.5); ("tp2_conservative", 1.0);
              ("tp3_moderate", 1.5); ("tp4_aggressive", 2.5) ].
Proof.
  intros Hwf Hlen Hatr He Ha Hpos side.
  assert (forall k : Z,
            py_round (entry_price + inject_Z k * atr) 5
            == entry_price + inject_Z k * atr /\
            py_round (entry_price - inject_Z k * atr) 5
            == entry_price - inject_Z k * atr) as Hround.
  { intros k. split; apply py_round_on_grid;
      [apply on_grid_plus | apply on_grid_minus];
      auto using on_grid_scale. }
  pose proof (Hround 1%Z) as [Hp1 Hm1]. pose proof (Hround 2%Z) as [Hp2 Hm2].
  pose proof (Hround 3%Z) as [Hp3 Hm3]. pose proof (Hround 5%Z) as [Hp5 Hm5].
  change (inject_Z 1) with 1 in *. change (inject_Z 2) with 2 in *.
  change (inject_Z 3) with 3 in *. change (inject_Z 5) with 5 in *.
  set (standard := py_round (if Signal_eqb signal BUY then entry_price - 2 * atr
                             else entry_price + 2 * atr) 5).
  assert (Qabs (entry_price - standard) == 2 * atr) as Hdist.
  { subst standard. destruct (Signal_eqb signal BUY).
    - rewrite Hm2. apply Qabs_case; intros; lra.
    - rewrite Hp2. apply Qabs_case; intros; lra. }
  assert (~ Qabs (entry_price - standard) == 0) as Hnz by (rewrite Hdist; lra).
  destruct (timeframe_plan_returns self signal entry_price account_balance tf df
              atr Hwf Hlen Hatr Hnz) as [plan Hplan].
  destruct (timeframe_plan_cases self signal entry_price account_balance tf df
              atr Hwf Hlen Hatr) as [_ Hsized].
  destruct (Hsized Hnz plan Hplan) as (_ & Hstops & Htargets & _ & Hratios).
  fold standard in Hratios.
  exists plan. split; [exact Hplan |].
  rewrite Hstops, Htargets, Hratios.
  assert (Qgtb (Qabs (entry_price - standard)) 0 = true) as ->
    by (apply Qgtb_gt; rewrite Hdist; lra).
  assert (forall tp k, 0 < k -> Qabs (tp - entry_price) == k * atr ->
            py_round (Qabs (tp - entry_price) / Qabs (entry_price - standard)) 2
            = py_round (k / 2) 2) as Hratio.
  { intros tp k Hk Htp. apply py_round_comp. rewrite Htp, Hdist. field. lra. }
  subst side. cbv beta.
  destruct (Signal_eqb signal BUY) eqn:Hb;
    unfold _calculate_multiple_stop_losses, _calculate_multiple_take_profits;
    rewrite Hb;
    cbn [map fst snd tp_price sl_price atr_target atr_stop firstn].
  - split; [repeat (constructor;
               [cbn [snd tp_price atr_target]; lra |]); constructor |].
    split; [repeat (constructor;
               [cbn [snd sl_price atr_stop]; lra |]); constructor |].
    rewrite (Hratio _ 1), (Hratio _ 2), (Hratio _ 3), (Hratio _ 5);
      try lra; try (apply Qabs_case; intros; lra).
    repeat (constructor; [split; [reflexivity | vm_compute; reflexivity] |]).
    constructor.
  - split; [repeat (constructor;
               [cbn [snd tp_price atr_target]; lra |]); constructor |].
    split; [repeat (constructor;
               [cbn [snd sl_price atr_stop]; lra |]); constructor |].
    rewrite (Hratio _ 1), (Hratio _ 2), (Hratio _ 3), (Hratio _ 5);
      try lra; try (apply Qabs_case; intros; lra).
    repeat (constructor; [split; [reflexivity | vm_compute; reflexivity] |]).
    constructor.
Qed.
End PlannerCases.

Section PlannerCoverage.
Import Risk TradePlanner.

Lemma dict_set_keys {A} key (value : A) d k :
  In k (map fst (dict_set key value d)) <-> k = key \/ In k (map fst d).
Proof.
  induction d as [| [k0 v0] d IH]; cbn [dict_set map fst In].
  - intuition.
  - destruct (String.eqb k0 key) eqn:Hk.
    + apply String.eqb_eq in Hk. subst. cbn [map fst In]. intuition.
    + cbn [map fst In]. rewrite IH. intuition.
Qed.

Lemma dict_set_filed {A} (f : A -> string) key (value : A) d :
  f value = key ->
  Forall (fun kv => f (snd kv) = fst kv) d ->
  Forall (fun kv => f (snd kv) = fst kv) (dict_set key value d).
Proof.
  intros Hv Hall. induction Hall as [| [k0 v0] d Hkv Hd IH]; cbn [dict_set].
  - constructor; [exact Hv | constructor].
  - destruct (String.eqb k0 key) eqn:Hk.
    + apply String.eqb_eq in Hk. constructor; [cbn; congruence | exact Hd].
    + constructor; [exact Hkv | exact IH].
Qed.

Lemma timeframe_plan_timeframe self signal entry_price account_balance tf df plan :
  timeframe_plan self signal entry_price account_balance tf df = Ok plan ->
  timeframe plan = tf.
Proof.
  unfold timeframe_plan.
  destruct (planning_atr entry_price df); cbn [mbind outcome_bind]; try discriminate.
  destruct (_calculate_multiple_entries _ _ _ _); cbn [mbind outcome_bind];
    try discriminate.
  destruct (item _ _); cbn [mbind outcome_bind]; try discriminate.
  destruct (sized_fields _ _) as [[[[? ?] ?] ?] | |]; cbn [mbind outcome_bind];
    try discriminate.
  destruct (_extract_indicators df); cbn [mbind outcome_bind]; try discriminate.
  intros [= <-]. reflexivity.
Qed.

Lemma plan_timeframes_keys self signal entry_price account_balance dataframes
    timeframes :
  forall acc plans,
    plan_timeframes self signal entry_price account_balance dataframes
                    timeframes acc = Ok plans ->
    (forall tf,
       In tf (map fst plans) <->
       In tf (map fst acc) \/
       (In tf timeframes /\
        exists df, dataframes !! tf = Some df /\ df_empty df = false)) /\
    (Forall (fun kv => timeframe (snd kv) = fst kv) acc ->
     Forall (fun kv => timeframe (snd kv) = fst kv) plans).
Proof.
  induction timeframes as [| t rest IH]; intros acc plans Hrun.
  - cbn in Hrun. injection Hrun as <-. split; [| auto].
    intros tf. cbn. intuition.
  - cbn [plan_timeframes] in Hrun.
    destruct (dataframes !! t) as [df |] eqn:Hdf.
    + destruct (df_empty df) eqn:He.
      * destruct (IH _ _ Hrun) as [Hkeys Hfiled]. split; [| exact Hfiled].
        intros tf. rewrite Hkeys. cbn [In]. split.
        -- intros [? | [? ?]]; auto.
        -- intros [? | [[-> | ?] Hex]];
             [left; assumption | | right; split; assumption].
           destruct Hex as (df' & Hdf' & He').
           rewrite Hdf in Hdf'. injection Hdf' as <-. congruence.
      * destruct (timeframe_plan _ _ _ _ t df) as [p | |] eqn:Hp;
          cbn [mbind outcome_bind] in Hrun; try discriminate.
        destruct (IH _ _ Hrun) as [Hkeys Hfiled]. split.
        -- intros tf. rewrite Hkeys, dict_set_keys. cbn [In]. split.
           ++ intros [[-> | ?] | [? ?]];
                [right; split; [left; reflexivity | eauto]
                | left; assumption | right; split; [right |]; assumption].
           ++ intros [? | [[-> | ?] ?]];
                [left; right; assumption | left; left; reflexivity
                | right; split; assumption].
        -- intros Hacc. apply Hfiled. apply dict_set_filed; [| exact Hacc].
           eapply timeframe_plan_timeframe. exact Hp.
    + destruct (IH _ _ Hrun) as [Hkeys Hfiled]. split; [| exact Hfiled].
      intros tf. rewrite Hkeys. cbn [In]. split.
      * intros [? | [? ?]]; auto.
      * intros [? | [[-> | ?] Hex]];
          [left; assumption | | right; split; assumption].
        destruct Hex as (df' & Hdf' & He'). congruence.
Qed.

(** X9: The plans of an approved request are filed under exactly the
    requested timeframes that have a frame that is not empty, each plan
    under its own timeframe; a missing or empty frame is skipped. *)
Theorem multi_plan_covers_available_timeframes self signal entry_price
    confidence account_balance dataframes timeframes s c e plans :
  create_multi_timeframe_trade_plans self signal entry_price confidence
    account_balance dataframes timeframes
  = Ok (MultiApproved s c e plans) ->
  let requested := default ["15m"; "1h"; "4h"; "1d"] timeframes in
  (forall tf,
     In tf (map fst plans) <->
     In tf requested /\
     exists df, dataframes !! tf = Some df /\ df_empty df = false) /\
  Forall (fun kv => timeframe (snd kv) = fst kv) plans.
Proof.
  unfold create_multi_timeframe_trade_plans.
  destruct (approved _); cbn [negb]; [| discriminate].
  destruct (plan_timeframes _ _ _ _ _ _ _) as [ps | |] eqn:Hrun;
    cbn [mbind outcome_bind]; try discriminate.
  intros [= <- <- <- <-]. cbv zeta.
  destruct (plan_timeframes_keys _ _ _ _ _ _ _ _ Hrun) as [Hkeys Hfiled].
  split; [| apply Hfiled; constructor].
  intros tf. rewrite Hkeys. cbn [map In]. intuition.
Qed.

(** X2: Both generators reject exactly when the validation fails, with its
    reasons, and then read no frame. *)
Theorem plans_rejected_iff_validation_fails self signal entry_price confidence
    account_balance :
  let v := validate_trade self signal confidence account_balance in
  (approved v = false ->
   (forall df now,
      create_trade_plan self signal entry_price confidence account_balance df now
      = Ok (Rejected signal (reasons v))) /\
   (forall dataframes timeframes,
      create_multi_timeframe_trade_plans self signal entry_price confidence
        account_balance dataframes timeframes
      = Ok (MultiRejected signal (reasons v)))) /\
  (approved v = true ->
   (forall df now s why,
      create_trade_plan self signal entry_price confidence account_balance df now
      <> Ok (Rejected s why)) /\
   (forall dataframes timeframes s why,
      create_multi_timeframe_trade_plans self signal entry_price confidence
        account_balance dataframes timeframes
      <> Ok (MultiRejected s why))).
Proof.
  cbv zeta. unfold create_trade_plan, create_multi_timeframe_trade_plans.
  split; intros ->; cbn [negb]; split; intros; try reflexivity.
  - destruct (calculate_stop_loss _ _ _ _ _); cbn [mbind outcome_bind];
      try discriminate.
    destruct (sized_fields _ _) as [[[[? ?] ?] ?] | |];
      cbn [mbind outcome_bind]; discriminate.
  - destruct (plan_timeframes _ _ _ _ _ _ _); cbn [mbind outcome_bind];
      discriminate.
Qed.
End PlannerCoverage.

Section PlannerWitnesses.
Import Risk TradePlanner.

Lemma two_column_frame_well_formed n a ca b cb :
  length ca = n -> length cb = n ->
  Indicators.well_formed
    {| index_len := n; columns := <[a := ca]> (<[b := cb]> ∅) |}.
Proof.
  intros Ha Hb name c H. cbn in H.
  apply lookup_insert_Some in H as [[_ <-] | [_ H]]; [exact Ha |].
  apply lookup_insert_Some in H as [[_ <-] | [_ H]]; [exact Hb |].
  rewrite lookup_empty in H. discriminate.
Qed.

Lemma quiet_frame_well_formed : Indicators.well_formed Scenarios.quiet_frame.
Proof. apply two_column_frame_well_formed; reflexivity. Qed.

Lemma flat_frame_well_formed : Indicators.well_formed Samples.flat_frame.
Proof. apply two_column_frame_well_formed; reflexivity. Qed.

Lemma on_grid_1_1 : on_grid 1.1.
Proof. exists 110000%Z. reflexivity. Qed.

Lemma on_grid_50_pips : on_grid 0.005.
Proof. exists 500%Z. reflexivity. Qed.

Lemma create_trade_plan_economics_witness :
  exists plan,
    create_trade_plan Samples.plain_manager BUY 1.1 0.8 10000
                      Scenarios.quiet_frame 0 = Ok (Approved plan) /\
    plan_risk_amount plan == 200 /\
    plan_potential_profit plan == 300 /\
    plan_position_size_units plan == 20000.
Proof.
  assert (approved (validate_trade Samples.plain_manager BUY 0.8 10000) = true)
    as Happ by reflexivity.
  assert (has_column Scenarios.quiet_frame "ATR" = true) as Hcol by reflexivity.
  assert (Indicators.at_back Scenarios.quiet_frame "ATR" 1 = Ok (Some 0.005))
    as Hatr by reflexivity.
  assert (~ 0.005 * default 2.0 (risk_config Samples.plain_manager !! "atr_multiplier")
            == 0) as Hnz by discriminate.
  destruct (create_trade_plan_economics Samples.plain_manager BUY 1.1 0.8 10000
              Scenarios.quiet_frame 0 0.005 Happ Hcol Hatr Hnz)
    as (plan & Hplan & Hdist & Hrisk & _ & Hunits & _ & Hprofit).
  exists plan. split; [exact Hplan |].
  split; [rewrite Hrisk; reflexivity |].
  split; [rewrite Hprofit; reflexivity |].
  rewrite Hdist in Hunits.
  apply (Qmult_inj_r _ _ (Qabs (0.005 * 2.0))); [discriminate |].
  rewrite Hunits. reflexivity.
Defined.

Lemma timeframe_plan_sizes_to_risk_witness :
  Indicators.well_formed Scenarios.quiet_frame /\
  index_len Scenarios.quiet_frame <> 0%nat /\
  exists plan,
    timeframe_plan Samples.plain_manager BUY 1.1 10000 "1h" Scenarios.quiet_frame
      = Ok plan /\
    sizing_risk_amount (position_sizing plan) == 200.
Proof.
  assert (index_len Scenarios.quiet_frame <> 0%nat) as Hlen by discriminate.
  split; [exact quiet_frame_well_formed |]. split; [exact Hlen |].
  destruct (timeframe_plan Samples.plain_manager BUY 1.1 10000 "1h"
              Scenarios.quiet_frame) as [plan | |] eqn:Hplan;
    [| vm_compute in Hplan; discriminate ..].
  exists plan. split; [reflexivity |].
  destruct (timeframe_plan_sizes_to_risk _ _ _ _ _ _ _
              quiet_frame_well_formed Hlen Hplan)
    as (st & _ & _ & _ & Hrisk & _).
  rewrite Hrisk. reflexivity.
Defined.

Lemma multi_plan_zero_atr_raises_witness :
  create_multi_timeframe_trade_plans Samples.plain_manager BUY 1.1 0.8 10000
    (<["1h" := Samples.flat_frame]> ∅) (Some ["1h"; "4h"])
  = Raise (KeyError "position_size_lots").
Proof.
  apply (multi_plan_zero_atr_raises _ _ _ _ _ _ _ _ Samples.flat_frame);
    [ reflexivity | reflexivity | reflexivity | exact flat_frame_well_formed
    | reflexivity | exact on_grid_1_1 ].
Defined.

Lemma grid_prices_give_exact_ladders_witness :
  exists plan,
    timeframe_plan Samples.plain_manager BUY 1.1 10000 "1h" Scenarios.quiet_frame
      = Ok plan /\
    Forall2 (fun kv expected => fst kv = fst expected /\ snd kv == snd expected)
            (risk_reward_ratios plan)
            [ ("tp1_quick", 0.5); ("tp2_conservative", 1.0);
              ("tp3_moderate", 1.5); ("tp4_aggressive", 2.5) ].
Proof.
  destruct (grid_prices_give_exact_ladders Samples.plain_manager BUY 1.1 10000
              "1h" Scenarios.quiet_frame 0.005 quiet_frame_well_formed
              ltac:(discriminate) ltac:(reflexivity) on_grid_1_1
              on_grid_50_pips ltac:(reflexivity))
    as (plan & Hplan & _ & _ & Hratios).
  exists plan. split; [exact Hplan | exact Hratios].
Defined.

Lemma multi_plan_covers_available_timeframes_witness :
  exists plans,
    create_multi_timeframe_trade_plans Samples.plain_manager BUY 1.1 0.8 10000
      (<["1h" := Scenarios.quiet_frame]> ∅) None
    = Ok (MultiApproved BUY 0.8 1.1 plans) /\
    map fst plans = ["1h"] /\
    Forall (fun kv => timeframe (snd kv) = fst kv) plans.
Proof.
  destruct (create_multi_timeframe_trade_plans Samples.plain_manager BUY 1.1
              0.8 10000 (<["1h" := Scenarios.quiet_frame]> ∅) None)
    as [[? ? | s c e plans] | |] eqn:Hrun;
    try (vm_compute in Hrun; discriminate).
  assert (s = BUY /\ c = 0.8 /\ e = 1.1 /\ map fst plans = ["1h"])
    as (-> & -> & -> & Hkeys).
  { vm_compute in Hrun. injection Hrun as <- <- <- <-. repeat split. }
  exists plans. split; [reflexivity |]. split; [exact Hkeys |].
  exact (proj2 (multi_plan_covers_available_timeframes _ _ _ _ _ _ _ _ _ _ _ Hrun)).
Defined.
End PlannerWitnesses.

(** ** Momentum, reversals and the weighted signal *)

Section MomentumProperties.
Import TrendMomentum Mirror.

Lemma Qnat_pos n : (0 < n)%nat -> 0 < Qnat n.
Proof.
  intros Hn. unfold Qnat. change 0 with (inject_Z 0). rewrite <- Zlt_Qlt. lia.
Qed.

Lemma Qnat_ratio n m :
  (n <= m)%nat -> (0 < m)%nat -> 0 <= Qnat n / Qnat m /\ Qnat n / Qnat m <= 1.
Proof.
  intros Hnm Hm. pose proof (Qnat_pos m Hm) as Hpos. split.
  - apply Qdiv_nonneg; [apply Qnat_nonneg | exact Hpos].
  - apply Qle_shift_div_r; [exact Hpos |].
    rewrite Qmult_1_l. apply Qnat_le_iff. exact Hnm.
Qed.

Lemma Qnat_ratio_pos n m : (0 < n)%nat -> (0 < m)%nat -> 0 < Qnat n / Qnat m.
Proof. intros Hn Hm. apply Qdiv_pos; apply Qnat_pos; assumption. Qed.

Lemma count_rises_le v : (count_rises v <= length v - 1)%nat.
Proof.
  induction v as [| a [| b v] IH]; [cbn; lia .. |].
  change (count_rises (a :: b :: v))
    with ((if Qgtb b a then 1 else 0) + count_rises (b :: v))%nat.
  cbn [length] in *. destruct (Qgtb b a); lia.
Qed.

Lemma count_falls_le v : (count_falls v <= length v - 1)%nat.
Proof.
  induction v as [| a [| b v] IH]; [cbn; lia .. |].
  change (count_falls (a :: b :: v))
    with ((if Qltb b a then 1 else 0) + count_falls (b :: v))%nat.
  cbn [length] in *. destruct (Qltb b a); lia.
Qed.

Lemma Qnat_lt_iff (m n : nat) : Qnat m < Qnat n <-> (m < n)%nat.
Proof. unfold Qnat. rewrite <- Zlt_Qlt. lia. Qed.

Lemma momentum_ranges df lookback m :
  calculate_trend_momentum df lookback = Ok m ->
  (0 <= strength m /\ strength m <= 1) /\
  (0 <= consistency m /\ consistency m <= 1) /\
  (0 <= momentum_score m /\ momentum_score m <= 1) /\
  (direction m <> NEUTRAL ->
   strength m == consistency m /\ 0 < strength m).
Proof.
  unfold calculate_trend_momentum.
  destruct (length (rows df) <? lookback)%nat.
  { intros [= <-]. cbn. repeat split; try lra; congruence. }
  set (recent := iloc_last lookback (rows df)).
  set (b := length (List.filter is_bullish recent)).
  set (e := length (List.filter is_bearish recent)).
  set (n := length recent).
  destruct (last (map Close recent)) as [cl |]; [| discriminate].
  destruct (head (map Close recent)) as [cf |]; [| discriminate].
  destruct (n - 1 =? 0)%nat eqn:Hn.
  { destruct (Qgtb _ _); [| destruct (Qgtb _ _)]; discriminate. }
  apply Nat.eqb_neq in Hn.
  assert (b <= n)%nat as Hb by apply List.filter_length_le.
  assert (e <= n)%nat as He by apply List.filter_length_le.
  assert (0 < n)%nat as Hpos by lia.
  pose proof (Qnat_ratio (Nat.max b e) n ltac:(lia) Hpos) as [Hc0 Hc1].
  pose proof (Qnat_ratio b n Hb Hpos) as [Hb0 Hb1].
  pose proof (Qnat_ratio e n He Hpos) as [He0 He1].
  assert (forall k, (k <= n - 1)%nat -> 0 <= Qnat k / Qnat (n - 1)) as Hpat.
  { intros k Hk. apply (Qnat_ratio k (n - 1)); lia. }
  pose proof (Hpat _ (eq_ind _ (fun x => (count_rises (map High recent) <= x - 1)%nat)
                        (count_rises_le (map High recent)) _ (length_map High recent)))
    as Hhh.
  pose proof (Hpat _ (eq_ind _ (fun x => (count_falls (map Low recent) <= x - 1)%nat)
                        (count_falls_le (map Low recent)) _ (length_map Low recent)))
    as Hll.
  fold n in Hhh, Hll.
  destruct (fdiv (cl - cf) cf) as [pc |]; [| destruct (Qgtb _ _);
    [| destruct (Qgtb _ _)]; discriminate].
  pose proof (Qabs_nonneg (pc * 100)) as Habs.
  set (pm := Qabs (pc * 100)) in *.
  assert (0 <= pm / 10 * 0.3) as Hpm.
  { unfold Qdiv. change (/ 10) with (1 # 10). lra. }
  destruct (Qgtb (Qnat b) (Qnat e * 1.5)) eqn:Hbull.
  - intros [= <-]. cbn [strength consistency momentum_score direction].
    apply Qgtb_gt in Hbull.
    assert (e <= b)%nat as Heb.
    { pose proof (Qnat_nonneg e). apply Qnat_le_iff. lra. }
    assert (0 < b)%nat as Hb'.
    { pose proof (Qnat_nonneg e). apply Qnat_lt_iff.
      change (Qnat 0) with 0. lra. }
    replace (Nat.max b e) with b in * by lia.
    change (Direction_eqb BULLISH BULLISH) with true. cbv iota.
    set (hh := Qnat (count_rises (map High recent)) / Qnat (n - 1)) in *.
    set (c := Qnat b / Qnat n) in *.
    pose proof (Qnat_ratio_pos b n Hb' Hpos). fold c in H.
    repeat split; try lra; try reflexivity.
    + apply Q.min_glb; lra.
    + eapply Qle_trans; [apply Q.le_min_r | discriminate].
  - destruct (Qgtb (Qnat e) (Qnat b * 1.5)) eqn:Hbear.
    + intros [= <-]. cbn [strength consistency momentum_score direction].
      apply Qgtb_gt in Hbear.
      assert (b <= e)%nat as Hbe.
      { pose proof (Qnat_nonneg b). apply Qnat_le_iff. lra. }
      assert (0 < e)%nat as He'.
      { pose proof (Qnat_nonneg b). apply Qnat_lt_iff.
        change (Qnat 0) with 0. lra. }
      replace (Nat.max b e) with e in * by lia.
      change (Direction_eqb BEARISH BULLISH) with false. cbv iota.
      set (ll := Qnat (count_falls (map Low recent)) / Qnat (n - 1)) in *.
      set (c := Qnat e / Qnat n) in *.
      pose proof (Qnat_ratio_pos e n He' Hpos). fold c in H.
      repeat split; try lra; try reflexivity.
      * apply Q.min_glb; lra.
      * eapply Qle_trans; [apply Q.le_min_r | discriminate].
    + intros [= <-]. cbn [strength consistency momentum_score direction].
      change (Direction_eqb NEUTRAL BULLISH) with false. cbv iota.
      set (ll := Qnat (count_falls (map Low recent)) / Qnat (n - 1)) in *.
      set (c := Qnat (Nat.max b e) / Qnat n) in *.
      repeat split; try lra; try congruence.
      * apply Q.min_glb; lra.
      * eapply Qle_trans; [apply Q.le_min_r | discriminate].
Qed.
Lemma iloc_last_length {A} k (l : list A) :
  (k <= length l)%nat -> (0 < k)%nat -> length (iloc_last k l) = k.
Proof.
  intros Hk H0. unfold iloc_last.
  destruct (k =? 0)%nat eqn:Hz; [apply Nat.eqb_eq in Hz; lia |].
  rewrite length_skipn. lia.
Qed.

Lemma iloc_last_In {A} k (l : list A) x : In x (iloc_last k l) -> In x l.
Proof.
  unfold iloc_last. destruct (k =? 0)%nat; [auto |].
  intros H. rewrite <- (firstn_skipn (length l - k) l).
  apply in_or_app. right. exact H.
Qed.

Lemma iloc_window_In {A} a b (l : list A) x : In x (iloc_window a b l) -> In x l.
Proof.
  unfold iloc_window. intros H.
  set (start := if (a =? 0)%nat then _ else _) in *.
  set (stop := if (b =? 0)%nat then _ else _) in *.
  assert (In x (skipn start l)) as H'.
  { rewrite <- (firstn_skipn (stop - start) (skipn start l)).
    apply in_or_app. left. exact H. }
  rewrite <- (firstn_skipn start l). apply in_or_app. right. exact H'.
Qed.

(** X11: A lookback of one candle raises on every frame that has a row: the
    share of higher highs is taken over the zero steps between candles. *)
Theorem single_candle_window_raises df :
  rows df <> [] ->
  calculate_trend_momentum df 1 = Raise ZeroDivisionError.
Proof.
  intros Hne. unfold calculate_trend_momentum.
  assert (1 <= length (rows df))%nat as Hlen
    by (destruct (rows df); [congruence | cbn; lia]).
  assert ((length (rows df) <? 1)%nat = false) as -> by (apply Nat.ltb_ge; lia).
  pose proof (iloc_last_length 1 (rows df) Hlen ltac:(lia)) as Hone.
  destruct (iloc_last 1 (rows df)) as [| c [| c' rest]]; try discriminate.
  cbn [map last head length Nat.sub Nat.eqb].
  destruct (Qgtb _ _); [| destruct (Qgtb _ _)]; reflexivity.
Qed.

Lemma single_candle_window_raises_witness :
  rows Samples.slow_rise <> [] /\
  calculate_trend_momentum Samples.slow_rise 1 = Raise ZeroDivisionError.
Proof.
  assert (rows Samples.slow_rise <> []) as H by discriminate.
  split; [exact H | exact (single_candle_window_raises _ H)].
Defined.

(** With a window of two candles or more and no zero close the momentum
    is always returned. *)
Lemma trend_momentum_returns df lookback :
  (2 <= lookback)%nat ->
  Forall (fun c => ~ Close c == 0) (rows df) ->
  exists m, calculate_trend_momentum df lookback = Ok m.
Proof.
  intros Hlb Hnz. unfold calculate_trend_momentum.
  destruct (length (rows df) <? lookback)%nat eqn:Hshort; [eauto |].
  apply Nat.ltb_ge in Hshort.
  pose proof (iloc_last_length lookback (rows df) Hshort ltac:(lia)) as Hlen.
  assert (Forall (fun c => ~ Close c == 0) (iloc_last lookback (rows df))) as Hnz'.
  { apply List.Forall_forall. intros c Hc.
    eapply List.Forall_forall in Hnz; [exact Hnz |].
    eapply iloc_last_In. exact Hc. }
  destruct (iloc_last lookback (rows df)) as [| c0 recent] eqn:Hrec;
    [cbn in Hlen; lia |].
  assert (exists z, last (map Close (c0 :: recent)) = Some z) as [z ->].
  { destruct (last (map Close (c0 :: recent))) eqn:Hl; [eauto |].
    apply last_None in Hl. discriminate. }
  cbn [map head].
  assert ((length (c0 :: recent) - 1 =? 0)%nat = false) as ->
    by (apply Nat.eqb_neq; lia).
  unfold fdiv.
  assert (Qeqb (Close c0) 0 = false) as ->.
  { apply Qeqb_neq. inversion Hnz'. assumption. }
  destruct (Qgtb _ _); [| destruct (Qgtb _ _)]; eauto.
Qed.

Lemma reversal_shape df recent_lookback historical_lookback r :
  detect_reversal df recent_lookback historical_lookback = Ok r ->
  (is_reversal r = false ->
   reversal_type r = NONE /\ reversal_strength r == 0 /\ warning_level r = LOW) /\
  (is_reversal r = true ->
   ((reversal_type r = BULLISH_TO_BEARISH /\ previous_trend r = BULLISH) \/
    (reversal_type r = BEARISH_TO_BULLISH /\ previous_trend r = BEARISH)) /\
   0 < reversal_strength r /\ reversal_strength r <= 1 /\
   warning_level r = warning_of (reversal_strength r)) /\
  ((length (rows df) < historical_lookback + recent_lookback)%nat ->
   is_reversal r = false /\ segments r = None).
Proof.
  unfold detect_reversal.
  destruct (length (rows df) <? historical_lookback + recent_lookback)%nat eqn:Hs.
  { intros [= <-]. cbn. repeat split; try reflexivity; try discriminate. }
  apply Nat.ltb_ge in Hs.
  destruct (calculate_trend_momentum _ historical_lookback) as [hist | |] eqn:Hh;
    cbn [mbind outcome_bind]; try discriminate.
  destruct (calculate_trend_momentum _ recent_lookback) as [rec | |] eqn:Hr;
    cbn [mbind outcome_bind]; try discriminate.
  pose proof (momentum_ranges _ _ _ Hr) as (_ & [Hc0 Hc1] & _ & Hdir).
  destruct (Qgtb (momentum_score hist) 0.6).
  2: { intros [= <-]. cbn. repeat split; try reflexivity; try discriminate; lia. }
  destruct (direction hist) eqn:Hdh, (direction rec) eqn:Hdr;
    cbn [Direction_eqb andb]; intros [= <-];
    cbn [is_reversal reversal_type reversal_strength warning_level
         previous_trend segments];
    (split; [intros; try discriminate; repeat split; reflexivity |]);
    (split; [| intros; lia]); intros; try discriminate;
    destruct (Hdir ltac:(discriminate)) as [Heq Hpos];
    (split; [auto |]); (split; [lra |]); (split; [lra | reflexivity]).
Qed.
Lemma Qmin_abs_cases f :
  (0.3 < f -> 0.3 < Qmin (Qabs f) 1.0) /\
  (f < -0.3 -> 0.3 < Qmin (Qabs f) 1.0) /\
  (-0.3 <= f -> f <= 0.3 -> Qmin (Qabs f) 1.0 <= 0.3) /\
  0 <= Qmin (Qabs f) 1.0 /\ Qmin (Qabs f) 1.0 <= 1.
Proof.
  pose proof (Qabs_nonneg f) as Hn.
  repeat split.
  - intros H. apply Q.min_glb_lt; [| reflexivity].
    apply Qabs_case; intros; lra.
  - intros H. apply Q.min_glb_lt; [| reflexivity].
    apply Qabs_case; intros; lra.
  - intros H1 H2. eapply Qle_trans; [apply Q.le_min_l |].
    apply Qabs_case; intros; lra.
  - apply Q.min_glb; [exact Hn | discriminate].
  - eapply Qle_trans; [apply Q.le_min_r | discriminate].
Qed.

Lemma weighted_confidence current_signal m r cw mw rw :
  let '(final_signal, confidence, reasoning) :=
    calculate_weighted_signal current_signal m r cw mw rw in
  0 <= confidence /\ confidence <= 1 /\
  (final_signal = HOLD <-> confidence <= 0.3) /\
  (final_signal = BUY <-> 0.3 < final_score current_signal m r cw mw rw) /\
  (final_signal = SELL <-> final_score current_signal m r cw mw rw < -0.3) /\
  reasoning <> [].
Proof.
  unfold calculate_weighted_signal.
  set (f := final_score current_signal m r cw mw rw).
  destruct (Qmin_abs_cases f) as (Hbuy & Hsell & Hhold & H0 & H1).
  assert (forall parts : list ReasonPart,
            match parts with [] => [NoClearSignal] | _ => parts end <> [])
    as Hparts by (intros [| ? ?]; discriminate).
  destruct (Qgtb f 0.3) eqn:Hg.
  - apply Qgtb_gt in Hg. specialize (Hbuy Hg).
    repeat split; auto; try discriminate; try (intros; lra).
  - apply Qgtb_le in Hg. destruct (Qltb f (-0.3)) eqn:Hl.
    + apply Qltb_lt in Hl. specialize (Hsell Hl).
      repeat split; auto; try discriminate; try (intros; lra).
    + apply Qltb_ge in Hl. specialize (Hhold Hl Hg).
      repeat split; auto; try discriminate; try (intros; lra).
Qed.

(** X14: Exchanging BUY with SELL, BULLISH with BEARISH and the two kinds of
    reversal negates the blended score, exchanges the resulting BUY and
    SELL, and keeps the confidence. *)
Theorem weighted_signal_mirror current_signal m r cw mw rw :
  let a := calculate_weighted_signal current_signal m r cw mw rw in
  let b := calculate_weighted_signal (flip_signal current_signal)
             (flip_momentum m) (flip_reversal r) cw mw rw in
  fst (fst b) = flip_signal (fst (fst a)) /\
  snd (fst b) == snd (fst a) /\
  final_score (flip_signal current_signal) (flip_momentum m) (flip_reversal r)
              cw mw rw
  == - final_score current_signal m r cw mw rw.
Proof.
  cbv zeta.
  assert (final_score (flip_signal current_signal) (flip_momentum m)
                      (flip_reversal r) cw mw rw
          == - final_score current_signal m r cw mw rw) as Hneg.
  { destruct m as [d st co ms de], r as [rev rs rt prev wl seg].
    cbv [final_score flip_momentum flip_reversal direction momentum_score
         is_reversal reversal_type reversal_strength signal_scores].
    destruct current_signal, d, rev, rt;
      cbv [flip_signal flip_direction flip_reversal_type]; ring. }
  unfold calculate_weighted_signal. cbn [fst snd].
  set (f := final_score current_signal m r cw mw rw) in *.
  set (g := final_score (flip_signal current_signal) (flip_momentum m)
                        (flip_reversal r) cw mw rw) in *.
  split; [| split; [| exact Hneg]].
  - destruct (Qgtb f 0.3) eqn:Hf1; destruct (Qltb f (-0.3)) eqn:Hf2;
      destruct (Qgtb g 0.3) eqn:Hg1; destruct (Qltb g (-0.3)) eqn:Hg2;
      try reflexivity; exfalso;
      try (apply Qgtb_gt in Hf1); try (apply Qgtb_le in Hf1);
      try (apply Qltb_lt in Hf2); try (apply Qltb_ge in Hf2);
      try (apply Qgtb_gt in Hg1); try (apply Qgtb_le in Hg1);
      try (apply Qltb_lt in Hg2); try (apply Qltb_ge in Hg2); lra.
  - rewrite Hneg, Qabs_opp. reflexivity.
Qed.

Lemma detect_reversal_strength_range df a b r :
  detect_reversal df a b = Ok r ->
  0 <= reversal_strength r /\ reversal_strength r <= 1.
Proof.
  intros H. destruct (reversal_shape _ _ _ _ H) as (Hf & Ht & _).
  destruct (is_reversal r).
  - destruct (Ht eq_refl) as (_ & ? & ? & _). lra.
  - destruct (Hf eq_refl) as (_ & ? & _). lra.
Qed.

(** X15: Whenever the enhanced analysis returns, it reports the signal it was
    given as the original one, never turns a BUY into a SELL or a SELL into
    a BUY, has a confidence between 0 and 1, and flags a change exactly
    when the final signal differs from the original. *)
Theorem enhanced_analysis_never_reverses df current_signal a :
  get_enhanced_analysis df current_signal = Ok a ->
  original_signal a = current_signal /\
  (current_signal = BUY -> final_signal a <> SELL) /\
  (current_signal = SELL -> final_signal a <> BUY) /\
  0 <= confidence a /\ confidence a <= 1 /\
  (signal_changed a = true <-> final_signal a <> current_signal).
Proof.
  unfold get_enhanced_analysis.
  destruct (calculate_trend_momentum df 20) as [m | |] eqn:Hm;
    cbn [mbind outcome_bind]; try discriminate.
  destruct (detect_reversal df 5 20) as [r | |] eqn:Hr;
    cbn [mbind outcome_bind]; try discriminate.
  pose proof (momentum_ranges _ _ _ Hm) as (_ & _ & [Hs0 Hs1] & _).
  pose proof (detect_reversal_strength_range _ _ _ _ Hr) as [Hr0 Hr1].
  pose proof (weighted_confidence current_signal m r 0.4 0.4 0.2) as Hw.
  destruct (calculate_weighted_signal current_signal m r 0.4 0.4 0.2)
    as [[fs conf] reasoning].
  destruct Hw as (Hc0 & Hc1 & _ & Hbuy & Hsell & _).
  intros [= <-].
  cbn [original_signal final_signal confidence signal_changed].
  assert (forall s, current_signal = s -> s <> HOLD ->
            - 0.2 <= signal_scores s * final_score current_signal m r 0.4 0.4 0.2)
    as Hkeep.
  { intros s -> Hs.
    destruct m as [d st co ms de], r as [rev rs rt prev wl seg].
    cbv [final_score direction momentum_score is_reversal reversal_type
         reversal_strength signal_scores] in *.
    destruct s, d, rev, rt; try congruence; lra. }
  split; [reflexivity |].
  split.
  { intros Hcs Hfs. apply Hsell in Hfs.
    specialize (Hkeep BUY Hcs ltac:(discriminate)). cbn in Hkeep. lra. }
  split.
  { intros Hcs Hfs. apply Hbuy in Hfs.
    specialize (Hkeep SELL Hcs ltac:(discriminate)). cbn in Hkeep. lra. }
  split; [exact Hc0 |]. split; [exact Hc1 |].
  destruct current_signal, fs; cbn; split; intros; congruence.
Qed.

(** X10: Whenever the momentum of a window is returned, strength, consistency
    and momentum_score lie between 0 and 1, and for a direction other than
    NEUTRAL the strength is the consistency and is positive. *)
Theorem trend_momentum_ranges df lookback m :
  calculate_trend_momentum df lookback = Ok m ->
  (0 <= strength m /\ strength m <= 1) /\
  (0 <= consistency m /\ consistency m <= 1) /\
  (0 <= momentum_score m /\ momentum_score m <= 1) /\
  (direction m <> NEUTRAL ->
   strength m == consistency m /\ 0 < strength m).
Proof. apply momentum_ranges. Qed.

Lemma trend_momentum_ranges_witness :
  exists m,
    calculate_trend_momentum Samples.slow_rise 20 = Ok m /\
    0 <= momentum_score m /\ momentum_score m <= 1.
Proof.
  destruct (calculate_trend_momentum Samples.slow_rise 20) as [m | |] eqn:Hm;
    [| vm_compute in Hm; discriminate ..].
  exists m. split; [reflexivity |].
  destruct (trend_momentum_ranges _ _ _ Hm) as (_ & _ & [H0 H1] & _).
  split; assumption.
Defined.

(** X12: Whenever the reversal detection returns: without a reversal the type is
    NONE, the strength 0 and the warning LOW; with a reversal the type names
    the previous trend, the strength is positive and at most 1, and the
    warning level is the one of that strength; and a frame shorter than the
    two lookbacks together never shows a reversal. *)
Theorem detect_reversal_shape df recent_lookback historical_lookback r :
  detect_reversal df recent_lookback historical_lookback = Ok r ->
  (is_reversal r = false ->
   reversal_type r = NONE /\ reversal_strength r == 0 /\ warning_level r = LOW) /\
  (is_reversal r = true ->
   ((reversal_type r = BULLISH_TO_BEARISH /\ previous_trend r = BULLISH) \/
    (reversal_type r = BEARISH_TO_BULLISH /\ previous_trend r = BEARISH)) /\
   0 < reversal_strength r /\ reversal_strength r <= 1 /\
   warning_level r = warning_of (reversal_strength r)) /\
  ((length (rows df) < historical_lookback + recent_lookback)%nat ->
   is_reversal r = false /\ segments r = None).
Proof. apply reversal_shape. Qed.

Lemma detect_reversal_shape_witness :
  exists r,
    detect_reversal Samples.rise_then_fall 5 20 = Ok r /\
    is_reversal r = true /\
    reversal_type r = BULLISH_TO_BEARISH /\ warning_level r = HIGH.
Proof.
  destruct (detect_reversal Samples.rise_then_fall 5 20) as [r | |] eqn:Hr;
    [| vm_compute in Hr; discriminate ..].
  assert (is_reversal r = true /\ previous_trend r = BULLISH
          /\ reversal_strength r == 1) as (Hrev & Hprev & Hstr).
  { vm_compute in Hr. injection Hr as <-. repeat split. }
  exists r. split; [reflexivity |]. split; [exact Hrev |].
  destruct (detect_reversal_shape _ _ _ _ Hr) as (_ & Ht & _).
  destruct (Ht Hrev) as ([[Hty _] | [_ Hp]] & _ & _ & Hw); [| congruence].
  split; [exact Hty |]. rewrite Hw. unfold warning_of.
  assert (Qgtb (reversal_strength r) 0.7 = true) as ->; [| reflexivity].
  apply Qgtb_gt. rewrite Hstr. reflexivity.
Defined.

(** X13: The confidence of the weighted signal lies between 0 and 1; the signal
    is HOLD exactly when the confidence is at most 0.3, BUY exactly when
    the blended score exceeds 0.3 and SELL exactly when it is below -0.3;
    and the reasoning is never empty. *)
Theorem weighted_signal_confidence current_signal m r cw mw rw :
  let '(final_signal, confidence, reasoning) :=
    calculate_weighted_signal current_signal m r cw mw rw in
  0 <= confidence /\ confidence <= 1 /\
  (final_signal = HOLD <-> confidence <= 0.3) /\
  (final_signal = BUY <-> 0.3 < final_score current_signal m r cw mw rw) /\
  (final_signal = SELL <-> final_score current_signal m r cw mw rw < -0.3) /\
  reasoning <> [].
Proof. apply weighted_confidence. Qed.

Lemma enhanced_analysis_never_reverses_witness :
  exists a,
    get_enhanced_analysis Samples.rise_then_fall BUY = Ok a /\
    final_signal a <> SELL.
Proof.
  destruct (get_enhanced_analysis Samples.rise_then_fall BUY) as [a | |] eqn:Ha;
    [| vm_compute in Ha; discriminate ..].
  exists a. split; [reflexivity |].
  destruct (enhanced_analysis_never_reverses _ _ _ Ha) as (_ & Hbuy & _).
  apply Hbuy. reflexivity.
Defined.
End MomentumProperties.

(** ** The shape of the consensus *)

Section ConsensusShape.
Import MultiTimeframe Mirror.

Lemma tally_reversals weights analyses t :
  reversals (fold_left (tally_step weights) analyses t)
  = reversals t ++ reversal_alerts analyses.
Proof.
  revert t. induction analyses as [| [tf a] l IH]; intros t.
  - cbn. rewrite app_nil_r. reflexivity.
  - cbn [fold_left]. rewrite IH. unfold reversal_alerts.
    cbn [omap list_omap fst snd].
    unfold tally_step.
    destruct (reversal_detection a) as [r |]; [destruct (TrendMomentum.is_reversal r) |];
      destruct (vote_signal a); cbn [reversals]; rewrite <- ?app_assoc; reflexivity.
Qed.

(** The result for a non-empty input, in terms of the counts and totals. *)
Lemma consensus_canonical self analyses :
  analyses <> [] ->
  let result := get_timeframe_consensus self analyses in
  consensus result = decided self analyses /\
  total_timeframes result = length analyses /\
  agreement_count result = raw_count (decided self analyses) analyses /\
  confidence result ==
    match decided self analyses with
    | HOLD => 0.5
    | s => weighted_total self s analyses
    end /\
  breakdown result =
    Some {| buy_timeframes := raw_count BUY analyses;
            sell_timeframes := raw_count SELL analyses;
            hold_timeframes := raw_count HOLD analyses;
            reversals_detected := reversal_alerts analyses;
            has_reversal_warning := (0 <? length (reversal_alerts analyses))%nat |}.
Proof.
  intros Hne. cbv zeta.
  destruct (consensus_tally self analyses) as (Hb & Hs & Hh & Hwb & Hws).
  cbv zeta in Hb, Hs, Hh, Hwb, Hws.
  pose proof (tally_reversals
                (default default_timeframe_weights (timeframe_weights self))
                analyses empty_tally) as Hrev.
  cbn [empty_tally reversals app] in Hrev.
  unfold get_timeframe_consensus, decided.
  destruct analyses as [| item rest] eqn:Hl; [congruence |].
  rewrite <- Hl in *. clear Hl Hne.
  set (t := fold_left _ analyses empty_tally) in *.
  rewrite Hb, Hs, Hh, Hrev.
  assert (Qgtb (weighted_buy t) (weighted_sell t)
          = Qgtb (weighted_total self BUY analyses)
                 (weighted_total self SELL analyses)) as ->.
  { unfold Qgtb, Qltb. rewrite Hwb, Hws. reflexivity. }
  assert (Qgtb (weighted_sell t) (weighted_buy t)
          = Qgtb (weighted_total self SELL analyses)
                 (weighted_total self BUY analyses)) as ->.
  { unfold Qgtb, Qltb. rewrite Hwb, Hws. reflexivity. }
  destruct (Qgtb _ _ && _); [| destruct (Qgtb _ _ && _)];
    cbn [consensus total_timeframes agreement_count confidence breakdown];
    repeat split; try assumption; reflexivity.
Qed.


Lemma raw_count_le s analyses : (raw_count s analyses <= length analyses)%nat.
Proof. apply List.filter_length_le. Qed.

(** X17: When fewer timeframes were analysed than the configured minimum
    agreement, the consensus is HOLD, with confidence 0.5 unless there was
    no analysis at all. *)
Theorem too_few_timeframes_hold self analyses :
  Qnat (length analyses) < min_timeframes_agree self ->
  let result := get_timeframe_consensus self analyses in
  consensus result = HOLD /\
  (analyses <> [] -> confidence result == 0.5).
Proof.
  intros Hfew. cbv zeta.
  destruct analyses as [| item rest] eqn:Hl; [split; [reflexivity | congruence] |].
  rewrite <- Hl in *.
  assert (analyses <> []) as Hne by (rewrite Hl; discriminate).
  destruct (consensus_canonical self analyses Hne) as (Hc & _ & _ & Hconf & _).
  assert (decided self analyses = HOLD) as Hd.
  { unfold decided.
    assert (forall s, Qgeb (Qnat (raw_count s analyses)) (min_timeframes_agree self)
                      = false) as Hlow.
    { intros s. apply not_true_iff_false. rewrite Qgeb_ge.
      pose proof (raw_count_le s analyses) as Hle.
      apply Qnat_le_iff in Hle. lra. }
    rewrite !Hlow, !andb_false_r. reflexivity. }
  rewrite Hc, Hconf, Hd. split; [reflexivity | reflexivity].
Qed.






Lemma too_few_timeframes_hold_witness :
  Qnat (length (firstn 2 Samples.three_of_four))
    < min_timeframes_agree Samples.plain_config /\
  consensus (get_timeframe_consensus Samples.plain_config
               (firstn 2 Samples.three_of_four)) = HOLD.
Proof.
  assert (Qnat (length (firstn 2 Samples.three_of_four))
          < min_timeframes_agree Samples.plain_config) as H by reflexivity.
  split; [exact H |].
  exact (proj1 (too_few_timeframes_hold Samples.plain_config _ H)).
Defined.

End ConsensusShape.

(** ** The ensemble vote *)

Section EnsembleShape.
Import Ensemble.

Lemma technical_confidence_range technical_signals :
  let '(s, c) := technical_consensus technical_signals in
  0 < c /\ c <= 1.
Proof.
  unfold technical_consensus.
  set (b := count_signal BUY technical_signals).
  set (e := count_signal SELL technical_signals).
  set (n := length technical_signals).
  assert (b <= n)%nat as Hb by apply List.filter_length_le.
  assert (e <= n)%nat as He by apply List.filter_length_le.
  destruct (e <? b)%nat eqn:H1.
  - apply Nat.ltb_lt in H1. split.
    + apply Qnat_ratio_pos; lia.
    + apply Qnat_ratio; lia.
  - destruct (b <? e)%nat eqn:H2.
    + apply Nat.ltb_lt in H2. split.
      * apply Qnat_ratio_pos; lia.
      * apply Qnat_ratio; lia.
    + split; [reflexivity | discriminate].
Qed.

(** The scores, by who says what. *)
Lemma scores_cases technical_signals ml_prediction w :
  let '(ts, tc) := technical_consensus technical_signals in
  let term (says : Signal) (s : Signal) (x : Q) :=
    if Signal_eqb says s then x else 0 in
  buy_score technical_signals ml_prediction w
  == term ts BUY (technical w * tc)
     + term (ml_signal ml_prediction) BUY (ml w * ml_confidence ml_prediction) /\
  sell_score technical_signals ml_prediction w
  == term ts SELL (technical w * tc)
     + term (ml_signal ml_prediction) SELL (ml w * ml_confidence ml_prediction).
Proof.
  unfold buy_score, sell_score, scores.
  destruct (technical_consensus technical_signals) as [ts tc].
  destruct ts, (ml_signal ml_prediction); cbn [fst snd Signal_eqb]; split; ring.
Qed.

Lemma vote_cases technical_signals ml_prediction weights :
  let w := default default_weights weights in
  let b := buy_score technical_signals ml_prediction w in
  let s := sell_score technical_signals ml_prediction w in
  let v := vote technical_signals ml_prediction weights in
  technical_signal v = fst (technical_consensus technical_signals) /\
  technical_confidence v = snd (technical_consensus technical_signals) /\
  ((signal v = BUY /\ confidence v = b /\ s < b /\ 0.5 < b) \/
   (signal v = SELL /\ confidence v = s /\ b < s /\ 0.5 < s) \/
   (signal v = HOLD /\ confidence v = 0.5 /\
    ~ (s < b /\ 0.5 < b) /\ ~ (b < s /\ 0.5 < s))).
Proof.
  cbv zeta. unfold vote, buy_score, sell_score.
  destruct (technical_consensus technical_signals) as [ts tc].
  destruct (scores technical_signals ml_prediction (default default_weights weights))
    as [b s].
  cbn [fst snd].
  destruct (Qgtb b s) eqn:H1; destruct (Qgtb b 0.5) eqn:H2;
    destruct (Qgtb s b) eqn:H3; destruct (Qgtb s 0.5) eqn:H4;
    cbn [andb signal confidence technical_signal technical_confidence];
    try (apply Qgtb_gt in H1); try (apply Qgtb_le in H1);
    try (apply Qgtb_gt in H2); try (apply Qgtb_le in H2);
    try (apply Qgtb_gt in H3); try (apply Qgtb_le in H3);
    try (apply Qgtb_gt in H4); try (apply Qgtb_le in H4);
    (split; [reflexivity |]); (split; [reflexivity |]);
    first [ left; repeat split; (reflexivity || lra)
          | right; left; repeat split; (reflexivity || lra)
          | right; right; repeat split; try reflexivity; intros [? ?]; lra ].
Qed.

(** X19: Without a classifier (it says HOLD) and with a technical weight of at
    most one half, as by default, the vote is always HOLD. *)
Theorem vote_without_classifier_holds technical_signals ml_prediction weights :
  ml_signal ml_prediction = HOLD ->
  technical (default default_weights weights) <= 0.5 ->
  let v := vote technical_signals ml_prediction weights in
  signal v = HOLD /\ confidence v = 0.5.
Proof.
  intros Hml Hw. cbv zeta.
  pose proof (scores_cases technical_signals ml_prediction
                (default default_weights weights)) as Hsc.
  pose proof (technical_confidence_range technical_signals) as Htc.
  destruct (vote_cases technical_signals ml_prediction weights)
    as (_ & _ & Hv). cbv zeta in Hv.
  destruct (technical_consensus technical_signals) as [ts tc].
  destruct Hsc as [Hb Hs]. rewrite Hml in Hb, Hs.
  set (w := technical (default default_weights weights)) in *.
  assert (w * tc <= 0.5) as Hterm by nra.
  destruct Hv as [(_ & _ & _ & H) | [(_ & _ & _ & H) | (H1 & H2 & _)]].
  - exfalso. rewrite Hb in H. destruct ts; cbn [Signal_eqb] in H; lra.
  - exfalso. rewrite Hs in H. destruct ts; cbn [Signal_eqb] in H; lra.
  - auto.
Qed.

(** X20: With weights of at most one half each, as by default, and a classifier
    confidence of at most 1, a BUY or SELL vote needs both the technical
    consensus and the classifier to say so. *)
Theorem vote_needs_both_sides technical_signals ml_prediction weights :
  technical (default default_weights weights) <= 0.5 ->
  ml (default default_weights weights) <= 0.5 ->
  0 <= ml_confidence ml_prediction -> ml_confidence ml_prediction <= 1 ->
  let v := vote technical_signals ml_prediction weights in
  signal v <> HOLD ->
  technical_signal v = signal v /\ ml_signal ml_prediction = signal v.
Proof.
  intros Hwt Hwm Hm0 Hm1. cbv zeta. intros Hact.
  pose proof (scores_cases technical_signals ml_prediction
                (default default_weights weights)) as Hsc.
  pose proof (technical_confidence_range technical_signals) as Htc.
  destruct (vote_cases technical_signals ml_prediction weights)
    as (Hts & _ & Hv). cbv zeta in Hv.
  rewrite Hts. clear Hts.
  destruct (technical_consensus technical_signals) as [ts tc].
  destruct Hsc as [Hb Hs]. cbn [fst].
  set (wt := technical (default default_weights weights)) in *.
  set (wm := ml (default default_weights weights)) in *.
  set (mc := ml_confidence ml_prediction) in *.
  assert (wt * tc <= 0.5) as Ht by nra.
  assert (wm * mc <= 0.5) as Hml by nra.
  destruct Hv as [(-> & _ & _ & H) | [(-> & _ & _ & H) | (H1 & _)]];
    [| | congruence].
  - rewrite Hb in H.
    destruct ts, (ml_signal ml_prediction); cbn [Signal_eqb] in H;
      try (exfalso; lra); split; reflexivity.
  - rewrite Hs in H.
    destruct ts, (ml_signal ml_prediction); cbn [Signal_eqb] in H;
      try (exfalso; lra); split; reflexivity.
Qed.

(** X21: The reported confidence is 0.5 for HOLD and above 0.5 otherwise; the
    technical confidence is positive and at most 1. *)
Theorem vote_confidence_floor technical_signals ml_prediction weights :
  let v := vote technical_signals ml_prediction weights in
  (signal v = HOLD -> confidence v = 0.5) /\
  (signal v <> HOLD -> 0.5 < confidence v) /\
  0 < technical_confidence v /\ technical_confidence v <= 1.
Proof.
  cbv zeta.
  pose proof (technical_confidence_range technical_signals) as Htc.
  destruct (vote_cases technical_signals ml_prediction weights)
    as (_ & Hc & Hv). cbv zeta in Hv.
  rewrite Hc. destruct (technical_consensus technical_signals) as [ts tc].
  cbn [snd].
  destruct Hv as [(-> & -> & _ & H) | [(-> & -> & _ & H) | (-> & -> & _)]];
    repeat split; intros; try congruence; try lra.
Qed.

Lemma vote_without_classifier_holds_witness :
  ml_signal Scenarios.no_classifier = HOLD /\
  technical (default default_weights None) <= 0.5 /\
  signal (vote Scenarios.daily_signals Scenarios.no_classifier None) = HOLD.
Proof.
  assert (ml_signal Scenarios.no_classifier = HOLD) as H1 by reflexivity.
  assert (technical (default default_weights None) <= 0.5) as H2
    by (cbn; lra).
  split; [exact H1 |]. split; [exact H2 |].
  exact (proj1 (vote_without_classifier_holds Scenarios.daily_signals
                  Scenarios.no_classifier None H1 H2)).
Defined.

Lemma vote_needs_both_sides_witness :
  signal (vote Scenarios.daily_signals Scenarios.confident_classifier None) = BUY /\
  technical_signal (vote Scenarios.daily_signals Scenarios.confident_classifier None)
  = BUY /\
  ml_signal Scenarios.confident_classifier = BUY.
Proof.
  assert (signal (vote Scenarios.daily_signals Scenarios.confident_classifier None)
          = BUY) as Hv by reflexivity.
  split; [exact Hv |].
  assert (technical (default default_weights None) <= 0.5) as H1 by (cbn; lra).
  assert (ml (default default_weights None) <= 0.5) as H2 by (cbn; lra).
  assert (0 <= ml_confidence Scenarios.confident_classifier) as H3 by (cbn; lra).
  assert (ml_confidence Scenarios.confident_classifier <= 1) as H4 by (cbn; lra).
  assert (signal (vote Scenarios.daily_signals Scenarios.confident_classifier None)
          <> HOLD) as H5 by (rewrite Hv; discriminate).
  destruct (vote_needs_both_sides Scenarios.daily_signals
              Scenarios.confident_classifier None H1 H2 H3 H4 H5) as [Ht Hm].
  rewrite Hv in Ht, Hm. split; assumption.
Defined.
End EnsembleShape.

(** ** Indicator rules on incomplete lines *)

Section IndicatorEdges.
Import Indicators.

Lemma cell_lt_nan_l x : cell_lt None x = false.
Proof. reflexivity. Qed.
Lemma cell_lt_nan_r x : cell_lt x None = false.
Proof. destruct x; reflexivity. Qed.
Lemma cell_gt_nan_l x : cell_gt None x = false.
Proof. destruct x; reflexivity. Qed.
Lemma cell_gt_nan_r x : cell_gt x None = false.
Proof. reflexivity. Qed.
Lemma cell_le_nan_l x : cell_le None x = false.
Proof. reflexivity. Qed.
Lemma cell_ge_nan_l x : cell_ge None x = false.
Proof. destruct x; reflexivity. Qed.

Ltac nan_false :=
  rewrite ?cell_lt_nan_l, ?cell_lt_nan_r, ?cell_gt_nan_l, ?cell_gt_nan_r,
          ?cell_le_nan_l, ?cell_ge_nan_l, ?andb_false_r, ?andb_false_l;
  cbn [andb].

(** Comparisons with NaN are false, so no rule fires on a NaN line. *)
Lemma rules_on_nan df :
  well_formed df -> (2 <= index_len df)%nat ->
  (forall fast slow,
     has_column df ("MA_" +:+ pretty fast) = true ->
     has_column df ("MA_" +:+ pretty slow) = true ->
     has_column df "Close" = true ->
     at_back df ("MA_" +:+ pretty fast) 1 = Ok None \/
     at_back df ("MA_" +:+ pretty slow) 1 = Ok None ->
     ma_crossover_signal df fast slow = Ok HOLD) /\
  (forall fast slow,
     has_column df ("EMA_" +:+ pretty fast) = true ->
     has_column df ("EMA_" +:+ pretty slow) = true ->
     has_column df "Close" = true ->
     at_back df ("EMA_" +:+ pretty fast) 1 = Ok None \/
     at_back df ("EMA_" +:+ pretty slow) 1 = Ok None ->
     ema_crossover_signal df fast slow = Ok HOLD) /\
  (forall overbought oversold,
     has_column df "RSI" = true ->
     at_back df "RSI" 1 = Ok None \/ at_back df "RSI" 2 = Ok None ->
     rsi_signal df overbought oversold = Ok HOLD) /\
  (has_column df "MACD" = true -> has_column df "MACD_Signal" = true ->
   has_column df "MACD_Hist" = true ->
   at_back df "MACD" 1 = Ok None \/ at_back df "MACD_Signal" 1 = Ok None ->
   macd_signal df = Ok HOLD) /\
  (forall overbought oversold,
     has_column df "Stoch_K" = true -> has_column df "Stoch_D" = true ->
     at_back df "Stoch_K" 1 = Ok None \/ at_back df "Stoch_D" 1 = Ok None ->
     stochastic_signal df overbought oversold = Ok HOLD).
Proof.
  intros Hwf Hlen.
  assert ((index_len df <? 2)%nat = false) as Hshort by (apply Nat.ltb_ge; lia).
  repeat split.
  - intros fast slow Hf Hs Hc Hnan. unfold ma_crossover_signal.
    rewrite Hshort, Hf, Hs. cbn [negb orb].
    destruct (at_back_ok df _ 1 Hwf Hf ltac:(lia)) as [fc Hfc].
    destruct (at_back_ok df _ 2 Hwf Hf ltac:(lia)) as [fp Hfp].
    destruct (at_back_ok df _ 1 Hwf Hs ltac:(lia)) as [sc Hsc].
    destruct (at_back_ok df _ 2 Hwf Hs ltac:(lia)) as [sp Hsp].
    destruct (at_back_ok df _ 1 Hwf Hc ltac:(lia)) as [pc Hpc].
    rewrite Hfc, Hfp, Hsc, Hsp, Hpc. cbn [mbind outcome_bind].
    destruct Hnan as [Hn | Hn]; rewrite Hn in *;
      [injection Hfc as <- | injection Hsc as <-]; nan_false; reflexivity.
  - intros fast slow Hf Hs Hc Hnan. unfold ema_crossover_signal.
    rewrite Hshort, Hf, Hs. cbn [negb orb].
    destruct (at_back_ok df _ 1 Hwf Hf ltac:(lia)) as [fc Hfc].
    destruct (at_back_ok df _ 2 Hwf Hf ltac:(lia)) as [fp Hfp].
    destruct (at_back_ok df _ 1 Hwf Hs ltac:(lia)) as [sc Hsc].
    destruct (at_back_ok df _ 2 Hwf Hs ltac:(lia)) as [sp Hsp].
    destruct (at_back_ok df _ 1 Hwf Hc ltac:(lia)) as [pc Hpc].
    rewrite Hfc, Hfp, Hsc, Hsp, Hpc. cbn [mbind outcome_bind].
    destruct Hnan as [Hn | Hn]; rewrite Hn in *;
      [injection Hfc as <- | injection Hsc as <-]; nan_false; reflexivity.
  - intros overbought oversold Hr Hnan. unfold rsi_signal.
    rewrite Hshort, Hr. cbn [negb orb].
    destruct (at_back_ok df _ 1 Hwf Hr ltac:(lia)) as [rc Hrc].
    destruct (at_back_ok df _ 2 Hwf Hr ltac:(lia)) as [rp Hrp].
    rewrite Hrc, Hrp. cbn [mbind outcome_bind].
    destruct Hnan as [Hn | Hn]; rewrite Hn in *;
      [injection Hrc as <- | injection Hrp as <-];
      cbn [cell_add cell_sub num]; nan_false; try reflexivity;
      destruct rc; cbn [cell_add cell_sub]; nan_false; reflexivity.
  - intros Hm Hs Hh Hnan. unfold macd_signal.
    rewrite Hshort, Hm. cbn [negb orb].
    destruct (at_back_ok df _ 1 Hwf Hm ltac:(lia)) as [mc Hmc].
    destruct (at_back_ok df _ 2 Hwf Hm ltac:(lia)) as [mp Hmp].
    destruct (at_back_ok df _ 1 Hwf Hs ltac:(lia)) as [sc Hsc].
    destruct (at_back_ok df _ 2 Hwf Hs ltac:(lia)) as [sp Hsp].
    destruct (at_back_ok df _ 1 Hwf Hh ltac:(lia)) as [hc Hhc].
    destruct (at_back_ok df _ 2 Hwf Hh ltac:(lia)) as [hp Hhp].
    rewrite Hmc, Hmp, Hsc, Hsp, Hhc, Hhp. cbn [mbind outcome_bind].
    destruct Hnan as [Hn | Hn]; rewrite Hn in *;
      [injection Hmc as <- | injection Hsc as <-]; nan_false; reflexivity.
  - intros overbought oversold Hk Hd Hnan. unfold stochastic_signal.
    rewrite Hshort, Hk. cbn [negb orb].
    destruct (at_back_ok df _ 1 Hwf Hk ltac:(lia)) as [kc Hkc].
    destruct (at_back_ok df _ 1 Hwf Hd ltac:(lia)) as [dc Hdc].
    destruct (at_back_ok df _ 2 Hwf Hk ltac:(lia)) as [kp Hkp].
    destruct (at_back_ok df _ 2 Hwf Hd ltac:(lia)) as [dp Hdp].
    rewrite Hkc, Hdc, Hkp, Hdp. cbn [mbind outcome_bind].
    destruct Hnan as [Hn | Hn]; rewrite Hn in *;
      [injection Hkc as <- | injection Hdc as <-]; nan_false; reflexivity.
Qed.

(** X22: A rule answers HOLD, and does not raise, when the latest value of a line
    it compares is NaN (for the RSI rule: the latest or the previous value),
    as during the warm-up of an indicator. *)
Theorem rules_hold_on_nan df :
  well_formed df -> (2 <= index_len df)%nat ->
  (forall fast slow,
     has_column df ("MA_" +:+ pretty fast) = true ->
     has_column df ("MA_" +:+ pretty slow) = true ->
     has_column df "Close" = true ->
     at_back df ("MA_" +:+ pretty fast) 1 = Ok None \/
     at_back df ("MA_" +:+ pretty slow) 1 = Ok None ->
     ma_crossover_signal df fast slow = Ok HOLD) /\
  (forall fast slow,
     has_column df ("EMA_" +:+ pretty fast) = true ->
     has_column df ("EMA_" +:+ pretty slow) = true ->
     has_column df "Close" = true ->
     at_back df ("EMA_" +:+ pretty fast) 1 = Ok None \/
     at_back df ("EMA_" +:+ pretty slow) 1 = Ok None ->
     ema_crossover_signal df fast slow = Ok HOLD) /\
  (forall overbought oversold,
     has_column df "RSI" = true ->
     at_back df "RSI" 1 = Ok None \/ at_back df "RSI" 2 = Ok None ->
     rsi_signal df overbought oversold = Ok HOLD) /\
  (has_column df "MACD" = true -> has_column df "MACD_Signal" = true ->
   has_column df "MACD_Hist" = true ->
   at_back df "MACD" 1 = Ok None \/ at_back df "MACD_Signal" 1 = Ok None ->
   macd_signal df = Ok HOLD) /\
  (forall overbought oversold,
     has_column df "Stoch_K" = true -> has_column df "Stoch_D" = true ->
     at_back df "Stoch_K" 1 = Ok None \/ at_back df "Stoch_D" 1 = Ok None ->
     stochastic_signal df overbought oversold = Ok HOLD).
Proof. exact (rules_on_nan df). Qed.

Lemma warming_up_frame_well_formed : well_formed Scenarios.warming_up_frame.
Proof. apply two_column_frame_well_formed; reflexivity. Qed.

Lemma rules_hold_on_nan_witness :
  (2 <= index_len Scenarios.warming_up_frame)%nat /\
  at_back Scenarios.warming_up_frame "RSI" 2 = Ok None /\
  rsi_signal Scenarios.warming_up_frame 70 30 = Ok HOLD.
Proof.
  assert (2 <= index_len Scenarios.warming_up_frame)%nat as Hlen by (cbn; lia).
  assert (at_back Scenarios.warming_up_frame "RSI" 2 = Ok None) as Hnan
    by reflexivity.
  split; [exact Hlen |]. split; [exact Hnan |].
  destruct (rules_hold_on_nan Scenarios.warming_up_frame
              warming_up_frame_well_formed Hlen) as (_ & _ & Hrsi & _).
  apply Hrsi; [reflexivity | right; exact Hnan].
Defined.
End IndicatorEdges.

(** ** The trade ledger *)

Section LedgerProperties.
Import Risk Ledger.

Lemma reachable_settings config m :
  reachable config m -> settings m = settings (__init__ config).
Proof. induction 1; [reflexivity | exact IHreachable]. Qed.

(** X23: The drawdown is set to zero by the constructor and never updated, so
    with a non-negative limit the drawdown check never rejects a trade,
    and the statistics always report a maximum drawdown of zero. *)
Theorem drawdown_check_never_rejects config m signal confidence account_balance :
  reachable config m ->
  0 <= default 0.15 (risk_config (settings m) !! "max_drawdown") ->
  let v := validate_trade (settings m) signal confidence account_balance in
  (forall d limit, ~ In (DrawdownExceedsLimit d limit) (reasons v)) /\
  (approved v = true <->
     signal <> HOLD /\
     default 0.6 (confluence_config (settings m) !! "min_confidence")
     <= confidence) /\
  (forall n w l wr ap al pf tp dd,
     calculate_performance m = Ok (Stats n w l wr ap al pf tp dd) -> dd = 0.0).
Proof.
  intros Hreach Hlimit. cbv zeta.
  pose proof (reachable_settings _ _ Hreach) as Hset.
  assert (current_drawdown (settings m) = 0.0) as Hdd by (rewrite Hset; reflexivity).
  split; [| split].
  - intros d limit. unfold validate_trade. rewrite Hdd.
    destruct (Signal_eqb signal HOLD); [cbn; intuition discriminate |].
    destruct (Qltb confidence _);
      (destruct (Qgtb 0.0 _) eqn:Hgt; [apply Qgtb_gt in Hgt; lra |]);
      cbn; intuition discriminate.
  - unfold validate_trade. rewrite Hdd.
    destruct (Signal_eqb signal HOLD) eqn:Hs.
    + apply Signal_eqb_eq in Hs. cbn. split; [discriminate | intros [? _]; contradiction].
    + assert (signal <> HOLD) as Hne
        by (intros E; rewrite E in Hs; discriminate).
      destruct (Qltb confidence _) eqn:Hc;
        (destruct (Qgtb 0.0 _) eqn:Hgt; [apply Qgtb_gt in Hgt; lra |]); cbn.
      * apply Qltb_lt in Hc. split; [discriminate | intros [_ H]; lra].
      * apply Qltb_ge in Hc. split; [intros _; split; assumption | reflexivity].
  - intros n w l wr ap al pf tp dd. unfold calculate_performance.
    destruct (trades m); [discriminate |].
    destruct (forallb _ _); [discriminate |].
    intros H. injection H as _ _ _ _ _ _ _ _ <-. exact Hdd.
Qed.

Lemma Qsum_sign_split l :
  Qsum l == Qsum (List.filter (fun q => Qgtb q 0) l)
            + Qsum (List.filter (fun q => Qltb q 0) l).
Proof.
  induction l as [| x l IH]; [reflexivity |].
  cbn [List.filter].
  destruct (Qgtb x 0) eqn:Hp; destruct (Qltb x 0) eqn:Hn;
    try (apply Qgtb_gt in Hp); try (apply Qgtb_le in Hp);
    try (apply Qltb_lt in Hn); try (apply Qltb_ge in Hn);
    unfold Qsum in *; cbn [fold_right]; lra.
Qed.

Lemma Qsum_winning l :
  let w := List.filter (fun q => Qgtb q 0) l in
  0 <= Qsum w /\ ((0 < length w)%nat -> 0 < Qsum w).
Proof.
  cbv zeta. induction l as [| x l [IH1 IH2]]; cbn [List.filter].
  - split; [discriminate | cbn; lia].
  - destruct (Qgtb x 0) eqn:Hp; [| split; assumption].
    apply Qgtb_gt in Hp. unfold Qsum in *. cbn [fold_right]. split; intros; lra.
Qed.

Lemma Qsum_losing l :
  let w := List.filter (fun q => Qltb q 0) l in
  Qsum w <= 0 /\ ((0 < length w)%nat -> Qsum w < 0).
Proof.
  cbv zeta. induction l as [| x l [IH1 IH2]]; cbn [List.filter].
  - split; [discriminate | cbn; lia].
  - destruct (Qltb x 0) eqn:Hp; [| split; assumption].
    apply Qltb_lt in Hp. unfold Qsum in *. cbn [fold_right]. split; intros; lra.
Qed.

Lemma sign_filters_length l :
  (length (List.filter (fun q => Qgtb q 0) l)
   + length (List.filter (fun q => Qltb q 0) l) <= length l)%nat.
Proof.
  induction l as [| x l IH]; [reflexivity |].
  cbn [List.filter].
  destruct (Qgtb x 0) eqn:Hp; destruct (Qltb x 0) eqn:Hn; cbn [length]; try lia.
  apply Qgtb_gt in Hp. apply Qltb_lt in Hn. lra.
Qed.

Lemma finite_cells_length c : (length (finite_cells c) <= length c)%nat.
Proof.
  unfold finite_cells. induction c as [| [x |] c IH]; cbn; lia.
Qed.

Lemma no_pnl_iff trades :
  forallb (fun c => negb (bool_decide (is_Some c))) (pnl_column trades) = true
  <-> Forall (fun trade => trade !! "pnl" = None) trades.
Proof.
  unfold pnl_column. induction trades as [| t trades IH]; cbn [map forallb].
  - split; [constructor | reflexivity].
  - rewrite andb_true_iff, IH. split.
    + intros [H1 H2]. constructor; [| exact H2].
      destruct (t !! "pnl") eqn:E; [| reflexivity].
      rewrite bool_decide_eq_true_2 in H1 by eauto. discriminate.
    + intros H. inversion H as [| ? ? H1 H2]; subst. split; [| exact H2].
      rewrite H1. reflexivity.
Qed.

Lemma some_pnl trades :
  forallb (fun c => negb (bool_decide (is_Some c))) (pnl_column trades) = false
  -> Exists (fun trade => is_Some (trade !! "pnl")) trades.
Proof.
  unfold pnl_column. induction trades as [| t trades IH]; cbn [map forallb].
  - discriminate.
  - intros H. apply andb_false_iff in H as [H | H].
    + left. apply negb_false_iff, bool_decide_eq_true in H. exact H.
    + right. apply IH, H.
Qed.

(** X24: With trades recorded, the statistics either cannot be computed because
    no trade carries a [pnl] (a KeyError), or they are consistent: winners
    and losers are at most all trades, the win rate lies in [0, 1], the
    averages are non-negative, the total is the winners' average times
    their number less the losers' average times theirs, and the profit
    factor is infinite exactly when there is no losing trade. *)
Theorem performance_statistics_consistent self :
  trades self <> [] ->
  (Forall (fun trade => trade !! "pnl" = None) (trades self) /\
   calculate_performance self = Raise (KeyError "False")) \/
  (Exists (fun trade => is_Some (trade !! "pnl")) (trades self) /\
   exists w l wr ap al pf tp,
     calculate_performance self
     = Ok (Stats (length (trades self)) w l wr ap al pf tp
                 (current_drawdown (settings self))) /\
     (w + l <= length (trades self))%nat /\
     wr == Qnat w / Qnat (length (trades self)) /\ 0 <= wr /\ wr <= 1 /\
     0 <= ap /\ 0 <= al /\
     ((0 < w)%nat -> 0 < ap) /\ ((0 < l)%nat -> 0 < al) /\
     tp == ap * Qnat w - al * Qnat l /\
     (pf = None <-> l = 0%nat) /\
     (forall f, pf = Some f -> f * (al * Qnat l) == ap * Qnat w)).
Proof.
  intros Hne. unfold calculate_performance.
  destruct self as [st tr]. cbn [trades settings] in *.
  destruct tr as [| t0 rest]; [contradiction |]. clear Hne.
  set (tr := t0 :: rest) in *.
  assert (0 < length tr)%nat as Hn by (cbn; lia).
  clearbody tr.
  destruct (forallb (fun c => negb (bool_decide (is_Some c))) (pnl_column tr))
    eqn:Hall.
  - left. split; [apply no_pnl_iff; exact Hall | reflexivity].
  - right. split.
    { apply some_pnl; exact Hall. }
    set (cells := finite_cells (pnl_column tr)).
    set (winning := List.filter (fun q => Qgtb q 0) cells).
    set (losing := List.filter (fun q => Qltb q 0) cells).
    set (n := length tr) in *.
    assert (length cells <= n)%nat as Hcells.
    { subst cells n. etransitivity; [apply finite_cells_length |].
      unfold pnl_column. rewrite length_map. reflexivity. }
    pose proof (sign_filters_length cells) as Hlen. fold winning losing in Hlen.
    pose proof (Qsum_sign_split cells) as Hsplit. fold winning losing in Hsplit.
    destruct (Qsum_winning cells) as [Hw0 Hw1]. fold winning in Hw0, Hw1.
    destruct (Qsum_losing cells) as [Hl0 Hl1]. fold losing in Hl0, Hl1.
    do 7 eexists. split; [reflexivity |].
    split; [lia |]. split; [reflexivity |].
    split; [apply Qdiv_nonneg; [apply Qnat_nonneg | apply Qnat_pos; exact Hn] |].
    split; [apply Qnat_ratio; lia |].
    assert (forall k, (0 < k)%nat -> forall s, s / Qnat k * Qnat k == s) as Hcancel.
    { intros k Hk s. pose proof (Qnat_pos k Hk). field. lra. }
    destruct (0 <? length winning)%nat eqn:Ew;
      [apply Nat.ltb_lt in Ew | apply Nat.ltb_ge in Ew];
    (destruct (0 <? length losing)%nat eqn:El;
      [apply Nat.ltb_lt in El | apply Nat.ltb_ge in El]).
    all: try (assert (length winning = 0%nat) as Ew0 by lia;
              assert (winning = []) as Ewn by (destruct winning; [reflexivity | discriminate]);
              rewrite Ewn in *; clear Ew0).
    all: try (assert (length losing = 0%nat) as El0 by lia;
              assert (losing = []) as Eln by (destruct losing; [reflexivity | discriminate]);
              rewrite Eln in *; clear El0).
    all: try (pose proof (Hw1 Ew) as Hwp; pose proof (Qnat_pos _ Ew) as Hwn;
              pose proof (Hcancel _ Ew (Qsum winning)) as Hwc;
              pose proof (Qdiv_pos _ _ Hwp Hwn) as Hwd).
    all: try (pose proof (Hl1 El) as Hlp; pose proof (Qnat_pos _ El) as Hln;
              pose proof (Hcancel _ El (Qsum losing)) as Hlc;
              assert (Qsum losing / Qnat (length losing) < 0) as Hld
                by (setoid_replace (Qsum losing / Qnat (length losing))
                      with (- ((- Qsum losing) / Qnat (length losing)))
                      using relation Qeq by (field; lra);
                    pose proof (Qdiv_pos (- Qsum losing) _ ltac:(lra) Hln); lra);
              assert (Qabs (Qsum losing / Qnat (length losing))
                      == - (Qsum losing / Qnat (length losing))) as Hla
                by (apply Qabs_neg; lra);
              assert (Qabs (Qsum losing) == - Qsum losing) as Hlb
                by (apply Qabs_neg; lra)).
    + (* winners and losers *)
      assert (Qgtb (Qabs (Qsum losing)) 0 = true) as Hg
        by (apply Qgtb_gt; lra).
      rewrite Hg.
      repeat split; try lra; try lia; try discriminate.
      * rewrite Hla, Hsplit. nra.
      * intros f [= <-]. rewrite Hla.
        setoid_replace (- (Qsum losing / Qnat (length losing)) * Qnat (length losing))
          with (- Qsum losing) using relation Qeq by lra.
        rewrite Hwc, Hlb. field. lra.
    + (* winners only *)
      assert (Qgtb 0.0 0 = false) as Hg by reflexivity.
      rewrite Hg.
      repeat split; try lra; try lia; try discriminate; try reflexivity.
      rewrite Hsplit, Hwc. unfold Qsum at 2. cbn [fold_right length]. lra.
    + (* losers only *)
      assert (Qgtb (Qabs (Qsum losing)) 0 = true) as Hg
        by (apply Qgtb_gt; lra).
      rewrite Hg.
      repeat split; try lra; try lia; try discriminate.
      * rewrite Hla, Hsplit. unfold Qsum at 1. cbn [fold_right length]. lra.
      * intros f [= <-]. rewrite Hlb. field. lra.
    + (* neither *)
      assert (Qgtb 0.0 0 = false) as Hg by reflexivity.
      rewrite Hg.
      repeat split; try lra; try lia; try discriminate; try reflexivity.
Qed.

Lemma drawdown_check_never_rejects_witness :
  reachable Scenarios.empty_configuration Scenarios.two_trade_ledger /\
  approved (validate_trade (settings Scenarios.two_trade_ledger) BUY 0.7 10000)
  = true.
Proof.
  assert (reachable Scenarios.empty_configuration Scenarios.two_trade_ledger)
    as Hr by (unfold Scenarios.two_trade_ledger; repeat constructor).
  assert (0 <= default 0.15
                 (risk_config (settings Scenarios.two_trade_ledger)
                    !! "max_drawdown")) as Hlimit
    by (vm_compute; discriminate).
  split; [exact Hr |].
  apply (proj1 (proj2 (drawdown_check_never_rejects _ _ BUY 0.7 10000 Hr Hlimit))).
  split; [discriminate | vm_compute; discriminate].
Defined.

Lemma performance_statistics_consistent_witness :
  trades Scenarios.two_trade_ledger <> [] /\
  exists w l wr ap al pf tp dd,
    calculate_performance Scenarios.two_trade_ledger
    = Ok (Stats 2 w l wr ap al pf tp dd) /\
    tp == ap * Qnat w - al * Qnat l.
Proof.
  assert (trades Scenarios.two_trade_ledger <> []) as Hne by discriminate.
  split; [exact Hne |].
  destruct (performance_statistics_consistent _ Hne)
    as [[Hall _] | (_ & w & l & wr & ap & al & pf & tp & Hrun & _ & _ & _ & _ & _
                    & _ & _ & _ & Htp & _)].
  - exfalso. inversion Hall as [| ? ? H _]. vm_compute in H. discriminate H.
  - exists w, l, wr, ap, al, pf, tp,
      (current_drawdown (settings Scenarios.two_trade_ledger)).
    split; [exact Hrun | exact Htp].
Defined.
End LedgerProperties.

(** ** Trend strength and momentum of a timeframe *)

Section TimeframeMetricsProperties.
Import Indicators TimeframeMetrics TrendMomentum.








(** X26: On a well-formed frame of at least one row with the RSI, MACD, signal,
    MA_50 and Close columns, the momentum is BULLISH exactly when at least
    two of the three checks (RSI above 50, MACD above its signal, close
    above MA_50) hold, and NEUTRAL exactly when the RSI is neither above
    nor below 50 and the other two checks disagree.  A NaN never counts as
    bullish: with a NaN in the MACD pair and one in the price pair the
    momentum is BEARISH. *)
Theorem momentum_counts_checks df :
  well_formed df -> (1 <= index_len df)%nat ->
  has_column df "RSI" = true -> has_column df "MACD" = true ->
  has_column df "MACD_Signal" = true -> has_column df "MA_50" = true ->
  has_column df "Close" = true ->
  exists rsi macd signal_line close ma50 d,
    at_back df "RSI" 1 = Ok rsi /\ at_back df "MACD" 1 = Ok macd /\
    at_back df "MACD_Signal" 1 = Ok signal_line /\
    at_back df "Close" 1 = Ok close /\ at_back df "MA_50" 1 = Ok ma50 /\
    _calculate_momentum df = Ok d /\
    let high := cell_gt rsi (num 50) in
    let low := cell_lt rsi (num 50) in
    let up := cell_gt macd signal_line in
    let above := cell_gt close ma50 in
    (d = BULLISH <-> (high && up) || (high && above) || (up && above) = true) /\
    (d = NEUTRAL <-> high = false /\ low = false /\ up <> above) /\
    ((macd = None \/ signal_line = None) -> (close = None \/ ma50 = None) ->
     d = BEARISH).
Proof.
  intros Hwf Hlen Hrsi Hmacd Hsig Hma Hclose.
  destruct (at_back_ok df _ 1 Hwf Hrsi ltac:(lia)) as [rsi Ersi].
  destruct (at_back_ok df _ 1 Hwf Hmacd ltac:(lia)) as [macd Emacd].
  destruct (at_back_ok df _ 1 Hwf Hsig ltac:(lia)) as [sig Esig].
  destruct (at_back_ok df _ 1 Hwf Hclose ltac:(lia)) as [close Eclose].
  destruct (at_back_ok df _ 1 Hwf Hma ltac:(lia)) as [ma50 Ema].
  unfold _calculate_momentum.
  rewrite Hrsi, Hmacd, Hsig, Hma, Ersi, Emacd, Esig, Eclose, Ema.
  cbn [andb mbind outcome_bind].
  exists rsi, macd, sig, close, ma50.
  assert (cell_gt rsi (num 50) = true -> cell_lt rsi (num 50) = false) as Hexcl.
  { destruct rsi as [r |]; cbn; [| discriminate].
    intros H. apply Qltb_lt in H. apply Qltb_ge. lra. }
  assert ((macd = None \/ sig = None) -> cell_gt macd sig = false) as Hn1.
  { intros [-> | ->]; [destruct sig | destruct macd]; reflexivity. }
  assert ((close = None \/ ma50 = None) -> cell_gt close ma50 = false) as Hn2.
  { intros [-> | ->]; [destruct ma50 | destruct close]; reflexivity. }
  destruct (cell_gt rsi (num 50)) eqn:Hhigh.
  - rewrite (Hexcl eq_refl).
    destruct (cell_gt macd sig) eqn:Hup; destruct (cell_gt close ma50) eqn:Hab;
      cbn [mbind outcome_bind fst snd Nat.add Nat.ltb Nat.leb andb orb];
      eexists; (split; [reflexivity |]); cbv zeta;
      repeat split; intros; try discriminate; try reflexivity; try tauto;
      try (exfalso; intuition discriminate).
  - destruct (cell_lt rsi (num 50)) eqn:Hlow;
      destruct (cell_gt macd sig) eqn:Hup; destruct (cell_gt close ma50) eqn:Hab;
      cbn [mbind outcome_bind fst snd Nat.add Nat.ltb Nat.leb andb orb];
      eexists; (split; [reflexivity |]); cbv zeta;
      repeat split; intros; try discriminate; try reflexivity; try tauto;
      try (exfalso; intuition discriminate).
Qed.

Lemma closes_frame_well_formed : well_formed Scenarios.closes_frame.
Proof.
  intros name c H. cbn in H.
  apply lookup_insert_Some in H as [[_ <-] | [_ H]]; [reflexivity |].
  rewrite lookup_empty in H. discriminate.
Qed.

Lemma early_frame_well_formed : well_formed Scenarios.early_frame.
Proof.
  intros name c H. cbn in H.
  repeat (apply lookup_insert_Some in H as [[_ <-] | [_ H]]; [reflexivity |]).
  rewrite lookup_empty in H. discriminate.
Qed.


Lemma momentum_counts_checks_witness :
  (1 <= index_len Scenarios.early_frame)%nat /\
  at_back Scenarios.early_frame "MA_50" 1 = Ok None /\
  _calculate_momentum Scenarios.early_frame = Ok BEARISH.
Proof.
  assert (1 <= index_len Scenarios.early_frame)%nat as Hlen by (cbn; lia).
  assert (at_back Scenarios.early_frame "MA_50" 1 = Ok None) as Hnan
    by reflexivity.
  split; [exact Hlen |]. split; [exact Hnan |].
  destruct (momentum_counts_checks Scenarios.early_frame early_frame_well_formed
              Hlen eq_refl eq_refl eq_refl eq_refl eq_refl)
    as (rsi & macd & line & close & ma50 & d & _ & _ & _ & _ & _ & Hrun & _).
  pose proof Hrun as Hd. vm_compute in Hd. rewrite Hrun. symmetry. exact Hd.
Defined.
End TimeframeMetricsProperties.

(** ** Indicator columns *)

Section IndicatorColumns.
Import Indicators TechnicalIndicators.

Lemma all_finite_map c v : all_finite c = Some v -> c = map Some v.
Proof.
  revert v. induction c as [| [x |] c IH]; cbn; intros v H.
  - injection H as <-. reflexivity.
  - destruct (all_finite c) as [v' |]; [| discriminate].
    injection H as <-. cbn. f_equal. apply IH. reflexivity.
  - discriminate.
Qed.

Lemma closes_column df v :
  closes df = Ok v -> columns df !! "Close" = Some (map Some v).
Proof.
  unfold closes, column. destruct (columns df !! "Close") as [c |]; [| discriminate].
  cbn [mbind outcome_bind].
  destruct (all_finite c) as [v' |] eqn:Hv; [| discriminate].
  intros [= <-]. f_equal. apply all_finite_map, Hv.
Qed.

Lemma closes_length df v :
  well_formed df -> closes df = Ok v -> length v = index_len df.
Proof.
  intros Hwf Hv. apply closes_column in Hv. apply Hwf in Hv.
  rewrite length_map in Hv. exact Hv.
Qed.

Lemma rolling_mean_length p v : length (rolling_mean p v) = length v.
Proof. unfold rolling_mean. rewrite length_map, length_seq. reflexivity. Qed.

Lemma ewm_from_length span prev v : length (ewm_from span prev v) = length v.
Proof. revert prev. induction v; intros; cbn; [| rewrite IHv]; reflexivity. Qed.

Lemma ewm_mean_length span v : length (ewm_mean span v) = length v.
Proof. destruct v; cbn; [| rewrite ewm_from_length]; reflexivity. Qed.

Lemma set_column_well_formed df name c :
  well_formed df -> length c = index_len df -> well_formed (set_column df name c).
Proof.
  intros Hwf Hc n c' H. cbn in H.
  apply lookup_insert_Some in H as [[_ <-] | [_ H]]; [exact Hc | exact (Hwf _ _ H)].
Qed.

Lemma closes_set_column df name c :
  name <> "Close" -> closes (set_column df name c) = closes df.
Proof.
  intros Hne. unfold closes, column, set_column. cbn [columns].
  rewrite lookup_insert_ne by exact Hne. reflexivity.
Qed.

Lemma prefixed_name_inj (prefix : string) (p q : positive) :
  prefix +:+ pretty (Pos.to_nat p) = prefix +:+ pretty (Pos.to_nat q) -> p = q.
Proof.
  intros H. apply Pos2Nat.inj. apply (inj pretty).
  induction prefix as [| a prefix IH]; [exact H |].
  cbn in H. injection H as H. apply IH, H.
Qed.

Lemma rolling_mean_at p v i :
  (i < length v)%nat ->
  nth_error (rolling_mean p v) i
  = Some (if (i + 1 <? Pos.to_nat p)%nat then None
          else Some (Qsum (firstn (Pos.to_nat p) (skipn (i + 1 - Pos.to_nat p) v))
                     / Qnat (Pos.to_nat p))).
Proof.
  intros Hi. unfold rolling_mean.
  rewrite nth_error_map.
  rewrite (nth_error_nth' _ 0%nat) by (rewrite length_seq; exact Hi).
  rewrite seq_nth by exact Hi. reflexivity.
Qed.

(** The frame after the moving averages: one column per period, the rest
    untouched. *)
Lemma add_moving_averages_columns periods : forall df v,
  well_formed df -> closes df = Ok v ->
  exists df',
    add_moving_averages df periods = Ok df' /\
    well_formed df' /\ index_len df' = index_len df /\ closes df' = Ok v /\
    forall p, In p periods ->
      columns df' !! ("MA_" +:+ pretty (Pos.to_nat p)) = Some (rolling_mean p v).
Proof.
  induction periods as [| period rest IH]; intros df v Hwf Hv.
  - exists df. repeat split; try assumption. intros p [].
  - cbn [add_moving_averages]. rewrite Hv. cbn [mbind outcome_bind].
    set (df1 := set_column df _ _).
    assert (well_formed df1) as Hwf1.
    { apply set_column_well_formed; [exact Hwf |].
      rewrite rolling_mean_length. apply closes_length; assumption. }
    assert (closes df1 = Ok v) as Hv1
      by (unfold df1; rewrite closes_set_column; [exact Hv | discriminate]).
    destruct (IH df1 v Hwf1 Hv1) as (df' & Hrun & Hwf' & Hlen & Hv' & Hcols).
    exists df'. split; [exact Hrun |]. split; [exact Hwf' |].
    split; [exact Hlen |]. split; [exact Hv' |].
    intros p [<- | Hin]; [| apply Hcols, Hin].
    destruct (in_dec Pos.eq_dec period rest) as [Hin | Hnin]; [apply Hcols, Hin |].
    clear IH Hcols Hwf' Hlen Hv'.
    assert (forall periods df2,
              (forall q, In q periods -> q <> period) ->
              forall df3, add_moving_averages df2 periods = Ok df3 ->
              columns df3 !! ("MA_" +:+ pretty (Pos.to_nat period))
              = columns df2 !! ("MA_" +:+ pretty (Pos.to_nat period))) as Hkeep.
    { clear. induction periods as [| q periods IH]; intros df2 Hq df3 Hrun.
      - cbn in Hrun. injection Hrun as <-. reflexivity.
      - cbn [add_moving_averages] in Hrun.
        destruct (closes df2) as [v | |]; cbn [mbind outcome_bind] in Hrun;
          try discriminate.
        rewrite (IH _ (fun q' Hq' => Hq q' (or_intror Hq')) _ Hrun).
        cbn [set_column columns]. apply lookup_insert_ne.
        intros E. apply prefixed_name_inj in E. exact (Hq q (or_introl eq_refl) E). }
    rewrite (Hkeep rest df1 (fun q Hq E => Hnin (eq_ind q (fun x => In x rest) Hq _ E))
               df' Hrun).
    unfold df1. cbn [set_column columns].
    apply lookup_insert_Some. left. split; reflexivity.
Qed.

Lemma column_at_back df name c k v :
  columns df !! name = Some c -> nth_error c (length c - k) = Some v ->
  (1 <= k <= length c)%nat -> at_back df name k = Ok v.
Proof.
  intros Hc Hn Hk. unfold at_back, column. rewrite Hc. cbn [mbind outcome_bind].
  unfold iloc_back. destruct (k <=? length c)%nat eqn:E;
    [| apply Nat.leb_gt in E; lia].
  rewrite Hn. reflexivity.
Qed.

Lemma has_column_lookup df name c :
  columns df !! name = Some c -> has_column df name = true.
Proof. intros H. unfold has_column. apply bool_decide_eq_true. eauto. Qed.

(** X27: With fewer candles than one of the two periods, the moving-average
    crossover rule answers HOLD on the frame the moving averages were
    added to. *)
Theorem short_history_gives_no_ma_signal df v periods fast slow :
  well_formed df -> closes df = Ok v ->
  In fast periods -> In slow periods ->
  (index_len df < Pos.to_nat fast \/ index_len df < Pos.to_nat slow)%nat ->
  exists df',
    add_moving_averages df periods = Ok df' /\
    ma_crossover_signal df' (Pos.to_nat fast) (Pos.to_nat slow) = Ok HOLD.
Proof.
  intros Hwf Hv Hfast Hslow Hshort.
  destruct (add_moving_averages_columns periods df v Hwf Hv)
    as (df' & Hrun & Hwf' & Hlen & Hv' & Hcols).
  exists df'. split; [exact Hrun |].
  destruct (Nat.lt_ge_cases (index_len df') 2) as [Hlt | Hge].
  { unfold ma_crossover_signal. apply Nat.ltb_lt in Hlt. rewrite Hlt. reflexivity. }
  pose proof (closes_length _ _ Hwf Hv) as Hn.
  assert (forall p, In p periods -> (index_len df < Pos.to_nat p)%nat ->
            at_back df' ("MA_" +:+ pretty (Pos.to_nat p)) 1 = Ok None) as Hnan.
  { intros p Hp Hlt.
    eapply column_at_back; [apply Hcols, Hp | | rewrite rolling_mean_length; lia].
    rewrite rolling_mean_length, rolling_mean_at by lia.
    replace (length v - 1 + 1 <? Pos.to_nat p)%nat with true; [reflexivity |].
    symmetry. apply Nat.ltb_lt. lia. }
  apply (proj1 (rules_on_nan df' Hwf' Hge)).
  - eapply has_column_lookup, Hcols, Hfast.
  - eapply has_column_lookup, Hcols, Hslow.
  - eapply has_column_lookup, closes_column, Hv'.
  - destruct Hshort as [H | H]; [left | right]; apply Hnan; assumption.
Qed.

Lemma short_history_gives_no_ma_signal_witness :
  (index_len Scenarios.closes_frame < Pos.to_nat 20)%nat /\
  exists df',
    add_moving_averages Scenarios.closes_frame [3; 20]%positive = Ok df' /\
    ma_crossover_signal df' 3 20 = Ok HOLD.
Proof.
  assert (index_len Scenarios.closes_frame < Pos.to_nat 20)%nat as Hlt
    by (cbn; lia).
  split; [exact Hlt |].
  apply (short_history_gives_no_ma_signal Scenarios.closes_frame
           [1.10; 1.11; 1.12; 1.11; 1.13] [3; 20]%positive 3%positive 20%positive).
  - intros name c H. cbn in H.
    apply lookup_insert_Some in H as [[_ <-] | [_ H]]; [reflexivity |].
    rewrite lookup_empty in H. discriminate.
  - reflexivity.
  - left; reflexivity.
  - right; left; reflexivity.
  - right. exact Hlt.
Defined.

(** X28: [add_macd] writes three complete columns (no NaN) as long as the frame,
    the histogram being the MACD less its signal line, and [macd_signal]
    on the result never raises. *)
Theorem add_macd_feeds_macd_signal df v fast slow signal :
  well_formed df -> closes df = Ok v ->
  exists df' macd signal_line,
    add_macd df fast slow signal = Ok df' /\
    well_formed df' /\ index_len df' = index_len df /\
    length macd = index_len df /\ length signal_line = index_len df /\
    columns df' !! "MACD" = Some (map Some macd) /\
    columns df' !! "MACD_Signal" = Some (map Some signal_line) /\
    columns df' !! "MACD_Hist"
    = Some (map Some (map (fun p => fst p - snd p) (combine macd signal_line))) /\
    exists s, macd_signal df' = Ok s.
Proof.
  intros Hwf Hv. unfold add_macd. rewrite Hv. cbn [mbind outcome_bind].
  pose proof (closes_length _ _ Hwf Hv) as Hn.
  set (macd := map (fun p => fst p - snd p)
                 (combine (ewm_mean fast v) (ewm_mean slow v))).
  set (line := ewm_mean signal macd).
  set (hist := map (fun p => fst p - snd p) (combine macd line)).
  assert (length macd = index_len df) as Hm.
  { unfold macd. rewrite length_map, length_combine, !ewm_mean_length. lia. }
  assert (length line = index_len df) as Hl
    by (unfold line; rewrite ewm_mean_length; exact Hm).
  assert (length hist = index_len df) as Hh.
  { unfold hist. rewrite length_map, length_combine. lia. }
  set (df' := set_column _ "MACD_Hist" _).
  assert (well_formed df') as Hwf'.
  { unfold df'. repeat apply set_column_well_formed; try exact Hwf;
      cbn [set_column index_len]; rewrite length_map; assumption. }
  assert (columns df' !! "MACD" = Some (map Some macd)) as Hc1.
  { unfold df'. cbn [set_column columns].
    rewrite !lookup_insert_ne by discriminate.
    apply lookup_insert_Some. left. split; reflexivity. }
  assert (columns df' !! "MACD_Signal" = Some (map Some line)) as Hc2.
  { unfold df'. cbn [set_column columns].
    rewrite lookup_insert_ne by discriminate.
    apply lookup_insert_Some. left. split; reflexivity. }
  assert (columns df' !! "MACD_Hist" = Some (map Some hist)) as Hc3.
  { unfold df'. cbn [set_column columns].
    apply lookup_insert_Some. left. split; reflexivity. }
  exists df', macd, line. repeat (split; [first [reflexivity | assumption] |]).
  unfold macd_signal. rewrite (has_column_lookup _ _ _ Hc1). cbn [negb orb].
  destruct (index_len df' <? 2)%nat eqn:Hlen; [eauto |].
  apply Nat.ltb_ge in Hlen.
  destruct (at_back_ok df' "MACD" 1 Hwf' (has_column_lookup _ _ _ Hc1) ltac:(lia))
    as [a ->].
  destruct (at_back_ok df' "MACD" 2 Hwf' (has_column_lookup _ _ _ Hc1) ltac:(lia))
    as [b ->].
  destruct (at_back_ok df' "MACD_Signal" 1 Hwf' (has_column_lookup _ _ _ Hc2)
              ltac:(lia)) as [c ->].
  destruct (at_back_ok df' "MACD_Signal" 2 Hwf' (has_column_lookup _ _ _ Hc2)
              ltac:(lia)) as [d ->].
  destruct (at_back_ok df' "MACD_Hist" 1 Hwf' (has_column_lookup _ _ _ Hc3)
              ltac:(lia)) as [e ->].
  destruct (at_back_ok df' "MACD_Hist" 2 Hwf' (has_column_lookup _ _ _ Hc3)
              ltac:(lia)) as [f ->].
  cbn [mbind outcome_bind].
  repeat match goal with |- context [if ?b then _ else _] => destruct b end; eauto.
Qed.

Lemma alpha_range span : 0 < alpha span /\ alpha span <= 1.
Proof.
  unfold alpha.
  assert (1 <= inject_Z (Z.pos span)) as Hd
    by (change 1 with (inject_Z 1); rewrite <- Zle_Qle; lia).
  set (d := inject_Z (Z.pos span)) in *. clearbody d. split.
  - apply Qdiv_pos; lra.
  - apply Qle_shift_div_r; lra.
Qed.

Lemma ewm_from_range span lo hi v : forall prev,
  lo <= prev /\ prev <= hi ->
  Forall (fun x => lo <= x /\ x <= hi) v ->
  Forall (fun y => lo <= y /\ y <= hi) (ewm_from span prev v).
Proof.
  destruct (alpha_range span) as [Ha0 Ha1].
  induction v as [| x v IH]; intros prev Hprev Hv; cbn [ewm_from]; [constructor |].
  inversion Hv as [| ? ? Hx Hrest]; subst.
  set (a := alpha span) in *. clearbody a.
  assert (lo <= (1 - a) * prev + a * x /\ (1 - a) * prev + a * x <= hi) as Hy
    by (split; nra).
  constructor; [exact Hy | apply IH; assumption].
Qed.

Lemma ewm_mean_range span lo hi v :
  Forall (fun x => lo <= x /\ x <= hi) v ->
  Forall (fun y => lo <= y /\ y <= hi) (ewm_mean span v).
Proof.
  intros Hv. destruct v as [| x v]; [constructor |].
  inversion Hv as [| ? ? Hx Hrest]; subst. cbn [ewm_mean].
  constructor; [exact Hx | apply ewm_from_range; assumption].
Qed.

(** The frame after the exponential averages: one column per period. *)
Lemma add_exponential_moving_averages_columns periods : forall df v,
  well_formed df -> closes df = Ok v ->
  exists df',
    add_exponential_moving_averages df periods = Ok df' /\
    well_formed df' /\ index_len df' = index_len df /\ closes df' = Ok v /\
    forall p, In p periods ->
      columns df' !! ("EMA_" +:+ pretty (Pos.to_nat p))
      = Some (map Some (ewm_mean p v)).
Proof.
  induction periods as [| period rest IH]; intros df v Hwf Hv.
  - exists df. repeat split; try assumption. intros p [].
  - cbn [add_exponential_moving_averages]. rewrite Hv. cbn [mbind outcome_bind].
    set (df1 := set_column df _ _).
    assert (well_formed df1) as Hwf1.
    { apply set_column_well_formed; [exact Hwf |].
      rewrite length_map, ewm_mean_length. apply closes_length; assumption. }
    assert (closes df1 = Ok v) as Hv1
      by (unfold df1; rewrite closes_set_column; [exact Hv | discriminate]).
    destruct (IH df1 v Hwf1 Hv1) as (df' & Hrun & Hwf' & Hlen & Hv' & Hcols).
    exists df'. split; [exact Hrun |]. split; [exact Hwf' |].
    split; [exact Hlen |]. split; [exact Hv' |].
    intros p [<- | Hin]; [| apply Hcols, Hin].
    destruct (in_dec Pos.eq_dec period rest) as [Hin | Hnin]; [apply Hcols, Hin |].
    clear IH Hcols Hwf' Hlen Hv'.
    assert (forall periods df2,
              (forall q, In q periods -> q <> period) ->
              forall df3, add_exponential_moving_averages df2 periods = Ok df3 ->
              columns df3 !! ("EMA_" +:+ pretty (Pos.to_nat period))
              = columns df2 !! ("EMA_" +:+ pretty (Pos.to_nat period))) as Hkeep.
    { clear. induction periods as [| q periods IH]; intros df2 Hq df3 Hrun.
      - cbn in Hrun. injection Hrun as <-. reflexivity.
      - cbn [add_exponential_moving_averages] in Hrun.
        destruct (closes df2) as [v | |]; cbn [mbind outcome_bind] in Hrun;
          try discriminate.
        rewrite (IH _ (fun q' Hq' => Hq q' (or_intror Hq')) _ Hrun).
        cbn [set_column columns]. apply lookup_insert_ne.
        intros E. apply prefixed_name_inj in E. exact (Hq q (or_introl eq_refl) E). }
    etransitivity;
      [exact (Hkeep rest df1
                (fun q Hq E => Hnin (eq_ind q (fun x => In x rest) Hq _ E))
                df' Hrun) |].
    unfold df1. cbn [set_column columns].
    apply lookup_insert_Some. left. split; reflexivity.
Qed.

(** X29: The exponential averages have no warm-up: every EMA column is complete
    (no NaN) from the first row, where it equals the first close, and
    every value lies within the range of the closes. *)
Theorem exponential_averages_stay_in_range df v periods lo hi :
  well_formed df -> closes df = Ok v ->
  Forall (fun x => lo <= x /\ x <= hi) v ->
  exists df',
    add_exponential_moving_averages df periods = Ok df' /\
    well_formed df' /\
    forall p, In p periods ->
      exists e,
        columns df' !! ("EMA_" +:+ pretty (Pos.to_nat p)) = Some (map Some e) /\
        length e = index_len df /\ head e = head v /\
        Forall (fun y => lo <= y /\ y <= hi) e.
Proof.
  intros Hwf Hv Hrange.
  destruct (add_exponential_moving_averages_columns periods df v Hwf Hv)
    as (df' & Hrun & Hwf' & _ & _ & Hcols).
  exists df'. split; [exact Hrun |]. split; [exact Hwf' |].
  intros p Hp. exists (ewm_mean p v).
  split; [apply Hcols, Hp |].
  split; [rewrite ewm_mean_length; apply closes_length; assumption |].
  split; [destruct v; reflexivity | apply ewm_mean_range, Hrange].
Qed.

Lemma add_macd_feeds_macd_signal_witness :
  closes Scenarios.closes_frame = Ok [1.10; 1.11; 1.12; 1.11; 1.13] /\
  exists df' s,
    add_macd Scenarios.closes_frame 12 26 9 = Ok df' /\ macd_signal df' = Ok s.
Proof.
  assert (closes Scenarios.closes_frame = Ok [1.10; 1.11; 1.12; 1.11; 1.13])
    as Hv by reflexivity.
  split; [exact Hv |].
  destruct (add_macd_feeds_macd_signal Scenarios.closes_frame _ 12 26 9
              closes_frame_well_formed Hv)
    as (df' & _ & _ & Hrun & _ & _ & _ & _ & _ & _ & _ & s & Hs).
  exists df', s. split; [exact Hrun | exact Hs].
Defined.

Lemma exponential_averages_stay_in_range_witness :
  Forall (fun x => 1.10 <= x /\ x <= 1.13) [1.10; 1.11; 1.12; 1.11; 1.13] /\
  exists df',
    add_exponential_moving_averages Scenarios.closes_frame [12; 26]%positive
    = Ok df' /\
    well_formed df'.
Proof.
  assert (Forall (fun x => 1.10 <= x /\ x <= 1.13)
            [1.10; 1.11; 1.12; 1.11; 1.13]) as Hrange
    by (repeat constructor; discriminate).
  split; [exact Hrange |].
  destruct (exponential_averages_stay_in_range Scenarios.closes_frame _
              [12; 26]%positive 1.10 1.13 closes_frame_well_formed eq_refl Hrange)
    as (df' & Hrun & Hwf & _).
  exists df'. split; [exact Hrun | exact Hwf].
Defined.
End IndicatorColumns.

(** ** The average true range *)

Section AverageTrueRange.
Import Indicators TechnicalIndicators TradePlanner.

Lemma all_finite_some v : all_finite (map Some v) = Some v.
Proof. induction v as [| x v IH]; cbn; [| rewrite IH]; reflexivity. Qed.

Lemma true_range_row_bound prev h l :
  l <= h -> h - l <= true_range_row prev h l /\ 0 <= true_range_row prev h l.
Proof.
  intros Hlh. destruct prev as [c |]; cbn [true_range_row].
  - pose proof (Q.le_max_l (h - l) (Qmax (Qabs (h - c)) (Qabs (l - c)))) as Hm.
    set (m := Qmax (h - l) _) in *. clearbody m. split; lra.
  - split; lra.
Qed.

Lemma true_ranges_length h : forall l c prev,
  length l = length h -> length c = length h ->
  length (true_ranges prev h l c) = length h.
Proof.
  induction h as [| x h IH]; intros [| y l] [| z c] prev Hl Hc;
    cbn in *; try discriminate; try reflexivity.
  f_equal. apply IH; lia.
Qed.

Lemma true_ranges_at h : forall l c prev i,
  Forall2 Qle l h -> length c = length h -> (i < length h)%nat ->
  nth i h 0 - nth i l 0 <= nth i (true_ranges prev h l c) 0 /\
  0 <= nth i (true_ranges prev h l c) 0.
Proof.
  induction h as [| x h IH]; intros l c prev i Hlh Hc Hi; [cbn in Hi; lia |].
  inversion Hlh as [| y ? l' ? Hyx Hrest]; subst.
  destruct c as [| z c]; [discriminate |].
  cbn [true_ranges]. destruct i as [| i]; cbn [nth].
  - apply true_range_row_bound, Hyx.
  - apply IH; [exact Hrest | cbn in Hc; lia | cbn in Hi; lia].
Qed.

Lemma Qsum_nonneg v : Forall (fun x => 0 <= x) v -> 0 <= Qsum v.
Proof.
  induction 1 as [| x v Hx _ IH]; [discriminate |].
  unfold Qsum in *. cbn [fold_right]. lra.
Qed.

Lemma Qsum_zero v :
  Forall (fun x => 0 <= x) v -> Qsum v == 0 -> Forall (fun x => x == 0) v.
Proof.
  induction 1 as [| x v Hx Hv IH]; intros Hs; [constructor |].
  pose proof (Qsum_nonneg v Hv) as Hn.
  unfold Qsum in *. cbn [fold_right] in Hs.
  constructor; [lra | apply IH; lra].
Qed.

Lemma window_nonneg v w k :
  Forall (fun x => 0 <= x) v ->
  Forall (fun x => 0 <= x) (firstn w (skipn k v)).
Proof.
  intros Hv. apply List.Forall_forall. intros x Hx.
  rewrite List.Forall_forall in Hv. apply Hv.
  rewrite <- (firstn_skipn k v). apply in_or_app. right.
  rewrite <- (firstn_skipn w (skipn k v)). apply in_or_app. left. exact Hx.
Qed.

(** X30: On a well-formed frame with finite prices whose Low never exceeds
    the High, [add_atr] writes an ATR column that is NaN on exactly the
    rows before the period is full and never negative; once the period is
    full the planner reads a non-negative ATR from it, which is zero only
    if each of the last [period] candles has its High equal to its Low. *)
Theorem add_atr_is_nonnegative df high low close period :
  well_formed df ->
  column df "High" = Ok (map Some high) ->
  column df "Low" = Ok (map Some low) ->
  column df "Close" = Ok (map Some close) ->
  Forall2 Qle low high ->
  exists df' atr,
    add_atr df period = Ok df' /\ well_formed df' /\
    columns df' !! "ATR" = Some atr /\ length atr = index_len df /\
    (forall i, (i < index_len df)%nat ->
       (nth_error atr i = Some None <-> (i + 1 < Pos.to_nat period)%nat)) /\
    (forall i a, nth_error atr i = Some (Some a) -> 0 <= a) /\
    ((Pos.to_nat period <= index_len df)%nat ->
     forall entry_price,
     exists a,
       planning_atr entry_price df' = Ok a /\ 0 <= a /\
       (a == 0 ->
        forall i, (index_len df - Pos.to_nat period <= i < index_len df)%nat ->
                  nth i high 0 == nth i low 0)).
Proof.
  intros Hwf Hh Hl Hc Hlh.
  assert (forall name v, column df name = Ok (map Some v) ->
            length v = index_len df) as Hcol.
  { intros name v H. unfold column in H.
    destruct (columns df !! name) as [c |] eqn:E; [| discriminate].
    injection H as ->. apply Hwf in E. rewrite length_map in E. exact E. }
  pose proof (Hcol _ _ Hh) as Nh. pose proof (Hcol _ _ Hl) as Nl.
  pose proof (Hcol _ _ Hc) as Nc.
  set (n := index_len df) in *.
  set (w := Pos.to_nat period).
  assert (0 < w)%nat as Hw by apply Pos2Nat.is_pos.
  set (tr := true_ranges None high low close).
  assert (length tr = n) as Ntr
    by (unfold tr; rewrite true_ranges_length; lia).
  assert (Forall (fun x => 0 <= x) tr) as Htr.
  { apply List.Forall_forall. intros x Hx.
    destruct (In_nth _ _ 0 Hx) as (i & Hi & <-).
    apply true_ranges_at; [exact Hlh | lia | lia]. }
  exists (set_column df "ATR" (rolling_mean period tr)), (rolling_mean period tr).
  assert (columns (set_column df "ATR" (rolling_mean period tr)) !! "ATR"
          = Some (rolling_mean period tr)) as Hatr
    by (cbn [set_column columns]; apply lookup_insert_Some; left; split; reflexivity).
  split.
  { unfold add_atr. rewrite Hh, Hl, Hc. cbn [mbind outcome_bind].
    rewrite !all_finite_some. reflexivity. }
  split.
  { apply set_column_well_formed; [exact Hwf |]. rewrite rolling_mean_length. exact Ntr. }
  split; [exact Hatr |].
  split; [rewrite rolling_mean_length; exact Ntr |].
  split.
  { intros i Hi. rewrite rolling_mean_at by lia. fold w.
    destruct (i + 1 <? w)%nat eqn:E.
    - apply Nat.ltb_lt in E. split; [intros _; exact E | reflexivity].
    - apply Nat.ltb_ge in E. split; [discriminate | lia]. }
  split.
  { intros i a Hi.
    change (nth_error (rolling_mean period tr) i = Some (Some a)) in Hi.
    assert (i < length tr)%nat as Hlt.
    { assert (nth_error (rolling_mean period tr) i <> None) as Hne
        by (rewrite Hi; discriminate).
      apply nth_error_Some in Hne. rewrite rolling_mean_length in Hne. exact Hne. }
    rewrite rolling_mean_at in Hi by exact Hlt. fold w in Hi.
    destruct (i + 1 <? w)%nat; [discriminate |].
    assert (a = Qsum (firstn w (skipn (i + 1 - w) tr)) / Qnat w) as -> by congruence.
    apply Qdiv_nonneg; [| apply Qnat_pos; exact Hw].
    apply Qsum_nonneg, window_nonneg, Htr. }
  intros Hfull entry_price.
  set (win := firstn w (skipn (n - w) tr)).
  exists (Qsum win / Qnat w).
  assert (0 <= Qsum win) as Hsum by (apply Qsum_nonneg, window_nonneg, Htr).
  pose proof (Qnat_pos w Hw) as Hwq.
  split.
  { unfold planning_atr.
    rewrite (has_column_lookup _ _ _ Hatr). unfold column. rewrite Hatr.
    cbn [mbind outcome_bind]. unfold iloc_back.
    rewrite rolling_mean_length, Ntr.
    destruct (1 <=? n)%nat eqn:E; [| apply Nat.leb_gt in E; lia].
    rewrite rolling_mean_at by lia. fold w.
    replace (n - 1 + 1 <? w)%nat with false by (symmetry; apply Nat.ltb_ge; lia).
    replace (n - 1 + 1 - w)%nat with (n - w)%nat by lia.
    reflexivity. }
  split; [apply Qdiv_nonneg; assumption |].
  intros Hzero i Hi.
  assert (Qsum win == 0) as Hs0.
  { assert (Qsum win == Qsum win / Qnat w * Qnat w) as E by (field; lra).
    rewrite E, Hzero. ring. }
  pose proof (Qsum_zero win (window_nonneg tr w (n - w) Htr) Hs0) as Hall.
  assert (nth i tr 0 == 0) as Hti.
  { rewrite List.Forall_forall in Hall. apply Hall.
    unfold win.
    replace i with ((n - w) + (i - (n - w)))%nat by lia.
    rewrite <- nth_skipn.
    assert (i - (n - w) < length (firstn w (skipn (n - w) tr)))%nat as Hlen
      by (rewrite length_firstn, length_skipn; lia).
    pose proof (nth_In _ 0 Hlen) as Hin.
    rewrite nth_firstn in Hin.
    replace (i - (n - w) <? w)%nat with true in Hin
      by (symmetry; apply Nat.ltb_lt; lia).
    exact Hin. }
  destruct (true_ranges_at high low close None i Hlh ltac:(lia) ltac:(lia))
    as [Hb _]. fold tr in Hb.
  assert (nth i low 0 <= nth i high 0) as Hle.
  { clear - Hlh Hi Nh Nl. assert (i < length high)%nat as Hlt by lia.
    clear Hi Nh Nl. revert i Hlt.
    induction Hlh as [| y x l h Hyx _ IH]; intros i Hlt; [cbn in Hlt; lia |].
    destruct i; cbn [nth]; [exact Hyx | apply IH; cbn in Hlt; lia]. }
  lra.
Qed.

Lemma candle_frame_well_formed : well_formed Scenarios.candle_frame.
Proof.
  intros name c H. cbn in H.
  repeat (apply lookup_insert_Some in H as [[_ <-] | [_ H]]; [reflexivity |]).
  rewrite lookup_empty in H. discriminate.
Qed.

Lemma add_atr_is_nonnegative_witness :
  Forall2 Qle [1.09; 1.10; 1.10] [1.12; 1.10; 1.10] /\
  exists df' a,
    add_atr Scenarios.candle_frame 2 = Ok df' /\
    planning_atr 1.1 df' = Ok a /\ 0 <= a.
Proof.
  assert (Forall2 Qle [1.09; 1.10; 1.10] [1.12; 1.10; 1.10]) as Hlh
    by (repeat constructor; discriminate).
  split; [exact Hlh |].
  destruct (add_atr_is_nonnegative Scenarios.candle_frame
              [1.12; 1.10; 1.10] [1.09; 1.10; 1.10] [1.10; 1.10; 1.10] 2
              candle_frame_well_formed eq_refl eq_refl eq_refl Hlh)
    as (df' & atr & Hrun & _ & _ & _ & _ & _ & Hplan).
  assert (Pos.to_nat 2 <= index_len Scenarios.candle_frame)%nat as Hfull
    by (cbn; lia).
  destruct (Hplan Hfull 1.1) as (a & Ha & H0 & _).
  exists df', a. split; [exact Hrun |]. split; [exact Ha | exact H0].
Defined.
End AverageTrueRange.
